(** * Content generation and publishing orchestrator: a shallow embedding

    The development follows the Python sources
      - [app/services/content_engine.py]      (class MagicalParentingContentEngine)
      - [app/services/instagram_publisher.py] (class InstagramPublisher)
      - [app/tasks/daily_content.py]          (the four retrying Celery tasks)
    Part I embeds the code, Part II states and proves its properties.

    Conventions of the embedding.
      - A Python [str] is a [string], the UTF-8 bytes of the text (a lone
        surrogate as its three bytes); its characters are the UTF-8
        sequences of the bytes ([utf8_chars]), which is what [len], indexing
        and iteration count. Every character the code inspects ([' '],
        ['_']) is ASCII.
      - A Python [int] is a [Z]; a Python [float] is a binary64 [float].
      - An exception is a value [Exception cls msg]; a computation that may
        raise returns an [outcome].
      - Code that talks to the outside (the generative backend, the remote
        platform, the clock, the random generator) is written in the monad
        [prog W], which threads a world [W] and an outcome; the answers of
        the outside are given by oracles, which are Section variables.
      - Console output ([print]) is not modelled. *)

From Stdlib Require Import ZArith List String Ascii Bool Lia DecimalString.
From Stdlib Require Import Floats Uint63.
Import ListNotations.

Set Warnings "-inexact-float,-register-all".

Open Scope string_scope.
Open Scope Z_scope.

(* ===================================================================== *)
(** * Part I. The embedding                                               *)
(* ===================================================================== *)

(** ** Python values, exceptions and outcomes *)

Inductive exn : Type :=
| Exception (cls : string) (msg : string).

Definition exn_str (e : exn) : string :=
  match e with Exception _ msg => msg end.

Inductive outcome (A : Type) : Type :=
| Returns (a : A)
| Raises (e : exn).

Arguments Returns {A} a.
Arguments Raises {A} e.

Definition returned {A : Type} (r : outcome A) : option A :=
  match r with Returns a => Some a | Raises _ => None end.

(** The outcome of pure code that may raise, sequenced. *)
Definition and_then {A B : Type} (r : outcome A) (k : A -> outcome B) : outcome B :=
  match r with
  | Returns a => k a
  | Raises e => Raises e
  end.

(** The values [json.loads] produces, which are also the values the code
    stores unchecked in a content piece. A [dict] keeps its items in
    insertion order; a lookup returns the first item with the key. *)
Inductive pyval : Type :=
| PNone
| PBool (b : bool)
| PInt (n : Z)
| PFloat (f : float)
| PStr (s : string)
| PList (l : list pyval)
| PDict (d : list (string * pyval)).

Definition type_name (v : pyval) : string :=
  match v with
  | PNone => "NoneType"
  | PBool _ => "bool"
  | PInt _ => "int"
  | PFloat _ => "float"
  | PStr _ => "str"
  | PList _ => "list"
  | PDict _ => "dict"
  end.

Fixpoint assoc_lookup {A : Type} (k : string) (d : list (string * A)) : option A :=
  match d with
  | [] => None
  | (k', v) :: d' => if String.eqb k k' then Some v else assoc_lookup k d'
  end.

(** [v.get(key, default)]: only a dict has the method. *)
Definition py_get (v : pyval) (key : string) (default : pyval) : outcome pyval :=
  match v with
  | PDict d =>
      match assoc_lookup key d with
      | Some x => Returns x
      | None => Returns default
      end
  | _ => Raises (Exception "AttributeError"
                   ("'" ++ type_name v ++ "' object has no attribute 'get'"))
  end.

(** Truth value of a Python value ([if v], [a and b]). *)
Definition py_truthy (v : pyval) : bool :=
  match v with
  | PNone => false
  | PBool b => b
  | PInt n => negb (n =? 0)
  | PFloat f => negb (PrimFloat.eqb f 0%float)
  | PStr s => negb (String.eqb s "")
  | PList l => match l with [] => false | _ => true end
  | PDict d => match d with [] => false | _ => true end
  end.

Fixpoint is_substring (needle hay : string) : bool :=
  if String.prefix needle hay then true
  else match hay with
       | EmptyString => false
       | String _ hay' => is_substring needle hay'
       end.

Definition is_pstr (key : string) (v : pyval) : bool :=
  match v with PStr s => String.eqb s key | _ => false end.

(** [key in v] for a string [key]. *)
Definition py_contains (key : string) (v : pyval) : outcome bool :=
  match v with
  | PDict d => Returns (match assoc_lookup key d with Some _ => true | None => false end)
  | PList l => Returns (existsb (is_pstr key) l)
  | PStr s => Returns (is_substring key s)
  | _ => Raises (Exception "TypeError"
                   ("argument of type '" ++ type_name v ++ "' is not iterable"))
  end.

(** The characters of a str: a byte [10xxxxxx] continues the character
    of the byte before it, every other byte starts one. *)
Definition is_continuation (c : ascii) : bool :=
  match c with Ascii _ _ _ _ _ _ b6 b7 => b7 && negb b6 end.

Definition continues (s : string) : bool :=
  match s with
  | String c _ => is_continuation c
  | EmptyString => false
  end.

Fixpoint utf8_chars (s : string) : list string :=
  match s with
  | EmptyString => []
  | String c s' =>
      match utf8_chars s' with
      | ch :: rest =>
          if continues s' then String c ch :: rest
          else String c EmptyString :: ch :: rest
      | [] => [String c EmptyString]
      end
  end.

(** [len(v)]. *)
Definition py_len (v : pyval) : outcome Z :=
  match v with
  | PStr s => Returns (Z.of_nat (List.length (utf8_chars s)))
  | PList l => Returns (Z.of_nat (List.length l))
  | PDict d => Returns (Z.of_nat (List.length d))
  | _ => Raises (Exception "TypeError"
                   ("object of type '" ++ type_name v ++ "' has no len()"))
  end.

(** [v[i]] for an index [0 <= i]: the code only indexes with the counter
    of an [enumerate] or with the constant [0]. A dict produced from JSON
    has string keys only, so an integer key is never present and the
    lookup raises [KeyError(i)]. *)
Definition py_item (v : pyval) (i : nat) : outcome pyval :=
  match v with
  | PList l =>
      match nth_error l i with
      | Some x => Returns x
      | None => Raises (Exception "IndexError" "list index out of range")
      end
  | PStr s =>
      match nth_error (utf8_chars s) i with
      | Some c => Returns (PStr c)
      | None => Raises (Exception "IndexError" "string index out of range")
      end
  | PDict _ => Raises (Exception "KeyError" (NilZero.string_of_uint (Nat.to_uint i)))
  | _ => Raises (Exception "TypeError"
                   ("'" ++ type_name v ++ "' object is not subscriptable"))
  end.

(** [v[key]] for a string key. *)
Definition py_item_key (v : pyval) (key : string) : outcome pyval :=
  match v with
  | PDict d =>
      match assoc_lookup key d with
      | Some x => Returns x
      | None => Raises (Exception "KeyError" ("'" ++ key ++ "'"))
      end
  | PList _ => Raises (Exception "TypeError" "list indices must be integers or slices, not str")
  | PStr _ => Raises (Exception "TypeError" "string indices must be integers, not 'str'")
  | _ => Raises (Exception "TypeError"
                   ("'" ++ type_name v ++ "' object is not subscriptable"))
  end.

(** ** Strings *)

(** The double quote, which the prompts contain. *)
Definition dq : string := String (ascii_of_nat 34) EmptyString.

(** The line feed. *)
Definition nl : string := String (ascii_of_nat 10) EmptyString.

(** [s.replace(c, by)] for a one-character pattern [c]. *)
Fixpoint str_replace (c : ascii) (by_ : string) (s : string) : string :=
  match s with
  | EmptyString => EmptyString
  | String a s' =>
      if Ascii.eqb a c then by_ ++ str_replace c by_ s'
      else String a (str_replace c by_ s')
  end.

(** [sep.join(l)]. *)
Fixpoint str_join (sep : string) (l : list string) : string :=
  match l with
  | [] => ""
  | [x] => x
  | x :: l' => x ++ sep ++ str_join sep l'
  end.

(** [l[:n]]. *)
Definition slice_to {A : Type} (n : nat) (l : list A) : list A := firstn n l.

(** [x in l] for strings. *)
Definition str_in (x : string) (l : list string) : bool :=
  existsb (String.eqb x) l.

(** ** The monad of effectful code *)

Definition prog (W A : Type) : Type := W -> outcome A * W.

Definition ret {W A : Type} (a : A) : prog W A := fun w => (Returns a, w).

Definition raise {W A : Type} (e : exn) : prog W A := fun w => (Raises e, w).

Definition bind {W A B : Type} (m : prog W A) (k : A -> prog W B) : prog W B :=
  fun w =>
    match m w with
    | (Returns a, w') => k a w'
    | (Raises e, w') => (Raises e, w')
    end.

(** [try: body  except Exception as e: handler e]. What the body did to
    the world before it raised stays done. *)
Definition try_except {W A : Type} (body : prog W A) (handler : exn -> prog W A) : prog W A :=
  fun w =>
    match body w with
    | (Returns a, w') => (Returns a, w')
    | (Raises e, w') => handler e w'
    end.

(** A pure step that may raise. *)
Definition lift {W A : Type} (r : outcome A) : prog W A := fun w => (r, w).

Declare Scope prog_scope.
Delimit Scope prog_scope with prog.
Notation "x <- m ;; k" := (bind m (fun x => k))
  (at level 61, m at next level, right associativity) : prog_scope.
Notation "m ;;; k" := (bind m (fun _ => k))
  (at level 61, right associativity) : prog_scope.

(** ** Dates and times

    A [datetime] keeps the date as its proleptic Gregorian ordinal
    ([date.toordinal()], day 1 is 0001-01-01) and the time of day in its
    four fields: the code only replaces the time of day, adds minutes and
    subtracts two datetimes, none of which looks into year, month or day. *)

Record datetime : Type := mk_datetime {
  dt_ordinal : Z;
  dt_hour : Z;
  dt_minute : Z;
  dt_second : Z;
  dt_microsecond : Z
}.

(** [date.max.toordinal()], the ordinal of 9999-12-31. *)
Definition max_ordinal : Z := 3652059.

Definition valid_datetime (d : datetime) : Prop :=
  1 <= dt_ordinal d <= max_ordinal /\
  0 <= dt_hour d < 24 /\ 0 <= dt_minute d < 60 /\
  0 <= dt_second d < 60 /\ 0 <= dt_microsecond d < 1000000.

Definition in_range (lo x hi : Z) : bool := (lo <=? x) && (x <=? hi).

(** A Python int given as a field of a datetime: the C implementation
    converts every field to a C [int] before it looks at any of them, and
    the conversion raises [OverflowError] (with these messages where a C
    [long] has 64 bits). *)
Definition c_int_max : Z := 2147483647.
Definition c_int_min : Z := -2147483648.
Definition c_long_max : Z := 9223372036854775807.
Definition c_long_min : Z := -9223372036854775808.

Definition as_c_int (n : Z) : outcome Z :=
  if (n <? c_long_min) || (c_long_max <? n) then
    Raises (Exception "OverflowError" "Python int too large to convert to C long")
  else if c_int_max <? n then
    Raises (Exception "OverflowError" "signed integer is greater than maximum")
  else if n <? c_int_min then
    Raises (Exception "OverflowError" "signed integer is less than minimum")
  else Returns n.

(** [d.replace(hour=h, minute=m, second=s, microsecond=us)]: the fields
    are converted in this order, then the constructor checks every field
    and raises [ValueError] on the first one out of range. *)
Definition datetime_replace (d : datetime) (h m s us : Z) : outcome datetime :=
  and_then (as_c_int h) (fun h =>
  and_then (as_c_int m) (fun m =>
  and_then (as_c_int s) (fun s =>
  and_then (as_c_int us) (fun us =>
  if negb (in_range 0 h 23) then Raises (Exception "ValueError" "hour must be in 0..23")
  else if negb (in_range 0 m 59) then Raises (Exception "ValueError" "minute must be in 0..59")
  else if negb (in_range 0 s 59) then Raises (Exception "ValueError" "second must be in 0..59")
  else if negb (in_range 0 us 999999) then
    Raises (Exception "ValueError" "microsecond must be in 0..999999")
  else Returns (mk_datetime (dt_ordinal d) h m s us))))).

(** The exception [replace] raises for an hour past 23: a [ValueError]
    while the hour fits a C [int], an [OverflowError] beyond. *)
Definition refused_hour (h : Z) : exn :=
  if h <=? c_int_max then Exception "ValueError" "hour must be in 0..23"
  else if h <=? c_long_max
       then Exception "OverflowError" "signed integer is greater than maximum"
       else Exception "OverflowError" "Python int too large to convert to C long".

Definition us_per_second : Z := 1000000.
Definition us_per_day : Z := 86400 * us_per_second.

(** Microseconds of [d] since the midnight that starts day 0. *)
Definition to_us (d : datetime) : Z :=
  dt_ordinal d * us_per_day
  + ((dt_hour d * 60 + dt_minute d) * 60 + dt_second d) * us_per_second
  + dt_microsecond d.

Definition of_us (t : Z) : datetime :=
  let day := t / us_per_day in
  let r := t mod us_per_day in
  let secs := r / us_per_second in
  mk_datetime day (secs / 3600) ((secs / 60) mod 60) (secs mod 60) (r mod us_per_second).

(** [d + timedelta(minutes=n)]; a date outside 0001-01-01 .. 9999-12-31
    raises [OverflowError]. *)
Definition datetime_add_minutes (d : datetime) (n : Z) : outcome datetime :=
  let r := of_us (to_us d + n * 60 * us_per_second) in
  if in_range 1 (dt_ordinal r) max_ordinal then Returns r
  else Raises (Exception "OverflowError" "date value out of range").

(** [(a - b)] in microseconds; [(a - b).total_seconds()] is this number
    divided by 10^6. *)
Definition elapsed_us (a b : datetime) : Z := to_us a - to_us b.

(** [d.weekday()], Monday is 0. *)
Definition weekday (d : datetime) : Z := (dt_ordinal d + 6) mod 7.

(** ** The data model (content_engine.py) *)

Inductive ContentType : Type := CAROUSEL | VIDEO | STORY.

Definition content_type_value (k : ContentType) : string :=
  match k with
  | CAROUSEL => "carousel"
  | VIDEO => "video"
  | STORY => "story"
  end.

Definition ContentType_eqb (a b : ContentType) : bool :=
  match a, b with
  | CAROUSEL, CAROUSEL | VIDEO, VIDEO | STORY, STORY => true
  | _, _ => false
  end.

Inductive DayTheme : Type :=
| MAGICAL_MONDAY
| TINY_TALES_TUESDAY
| WONDER_WEDNESDAY
| THOUGHTFUL_THURSDAY
| FANTASY_FRIDAY
| STORY_SATURDAY
| SERENE_SUNDAY.

Definition theme_value (t : DayTheme) : string :=
  match t with
  | MAGICAL_MONDAY => "magical_monday_wisdom"
  | TINY_TALES_TUESDAY => "tiny_tales_tuesday"
  | WONDER_WEDNESDAY => "wonder_wednesday"
  | THOUGHTFUL_THURSDAY => "thoughtful_thursday"
  | FANTASY_FRIDAY => "fantasy_friday"
  | STORY_SATURDAY => "story_saturday"
  | SERENE_SUNDAY => "serene_sunday"
  end.

(** [list(DayTheme)], in definition order. *)
Definition all_themes : list DayTheme :=
  [MAGICAL_MONDAY; TINY_TALES_TUESDAY; WONDER_WEDNESDAY; THOUGHTFUL_THURSDAY;
   FANTASY_FRIDAY; STORY_SATURDAY; SERENE_SUNDAY].

Definition DayTheme_eqb (a b : DayTheme) : bool :=
  String.eqb (theme_value a) (theme_value b).

(** The dataclass [ContentPiece]. The fields the generator copies out of
    the backend's JSON without a check ([title], [slides],
    [visual_prompts], the hooks) hold Python values. *)
Record ContentPiece : Type := mk_ContentPiece {
  theme : DayTheme;
  content_type : ContentType;
  title : pyval;
  slides : pyval;
  caption : string;
  hashtags : list string;
  visual_prompts : pyval;
  psychology_concept : string;
  magical_element : string;
  target_age : string;
  engagement_hooks : list pyval;
  created_at : datetime
}.

(** [len(piece.slides)] when the slides are a list. *)
Definition slide_count (c : ContentPiece) : option nat :=
  match slides c with
  | PList l => Some (List.length l)
  | _ => None
  end.

(** ** The content engine (class MagicalParentingContentEngine) *)

Definition psychology_concepts : list string :=
  ["attachment theory"; "positive reinforcement"; "emotional regulation";
   "growth mindset"; "active listening"; "boundary setting";
   "emotional intelligence"; "resilience building"; "empathy development";
   "self-esteem nurturing"; "stress management"; "mindful parenting";
   "play therapy"; "cognitive development"; "social learning theory"].

Definition magical_elements : list string :=
  ["enchanted forest wisdom"; "fairy tale lessons"; "dragon courage";
   "unicorn compassion"; "wizard patience"; "magic mirror reflection";
   "crystal ball insight"; "phoenix resilience"; "owl wisdom";
   "butterfly transformation"; "star guidance"; "moon serenity";
   "magic carpet adventures"; "talking animals"; "enchanted objects"].

Definition trending_topics : list string :=
  ["toddler tantrums"; "bedtime struggles"; "sibling rivalry";
   "screen time balance"; "picky eating"; "homework battles";
   "social anxiety in kids"; "building confidence"; "morning routines";
   "emotional meltdowns"; "transition difficulties"; "friendship issues";
   "back to school anxiety"; "holiday stress"; "family traditions"].

(** *** _generate_hashtags *)

Definition base_hashtags : list string :=
  ["#MagicalParenting"; "#ParentingWisdom"; "#ParentingTips";
   "#ChildPsychology"; "#ParentingSupport"; "#BedtimeStories";
   "#ParentingCommunity"; "#RaisingKids"; "#ParentingAdvice"].

Definition theme_hashtags : list (DayTheme * list string) :=
  [(MAGICAL_MONDAY, ["#MondayMotivation"; "#ParentingMindset"]);
   (TINY_TALES_TUESDAY, ["#TuesdayTales"; "#Storytelling"]);
   (WONDER_WEDNESDAY, ["#WonderWednesday"; "#ParentingQuestions"]);
   (THOUGHTFUL_THURSDAY, ["#ThoughtfulParenting"; "#DeepThoughts"]);
   (FANTASY_FRIDAY, ["#FantasyFriday"; "#WeekendFun"]);
   (STORY_SATURDAY, ["#StorySaturday"; "#FamilyTime"]);
   (SERENE_SUNDAY, ["#SereneParenting"; "#SelfCare"])].

(** [d.get(key, default)] on a dict keyed by themes. *)
Fixpoint theme_dict_get {A : Type} (d : list (DayTheme * A)) (key : DayTheme) (default : A) : A :=
  match d with
  | [] => default
  | (k, v) :: d' => if DayTheme_eqb key k then v else theme_dict_get d' key default
  end.

Definition video_hashtags : list string :=
  ["#ParentingVideo"; "#InstagramVideo"; "#ParentingReel"].

Definition topic_hashtags (topic : string) : list string :=
  ["#" ++ str_replace "_" "" (str_replace " " "" topic);
   "#" ++ str_replace "_" "Tips" (str_replace " " "Tips" topic)].

Definition _generate_hashtags (topic : string) (theme : DayTheme) (is_video : bool) : list string :=
  let base_hashtags :=
    if is_video then (base_hashtags ++ video_hashtags)%list else base_hashtags in
  let all_hashtags :=
    (base_hashtags ++ theme_dict_get theme_hashtags theme [] ++ topic_hashtags topic)%list in
  slice_to 25 all_hashtags.

(** *** The fallback pieces *)

Definition _generate_fallback_content (theme : DayTheme) (topic : string) (now : datetime) : ContentPiece :=
  {| theme := theme;
     content_type := CAROUSEL;
     title := PStr ("Quick Tips for " ++ topic);
     slides := PList [PStr ("Struggling with " ++ topic ++ "?");
                      PStr "Take a deep breath, you've got this!";
                      PStr "Every challenge is a growth opportunity";
                      PStr "Small steps lead to big changes";
                      PStr "Share your experience below! ðŸ‘‡"];
     caption := "Quick thoughts on " ++ topic ++ ". What works for your family?";
     hashtags := ["#ParentingTips"; "#ParentingSupport"; "#YouGotThis"];
     visual_prompts := PList [PStr "Simple, calming illustration"];
     psychology_concept := "general support";
     magical_element := "gentle encouragement";
     target_age := "all";
     engagement_hooks := [PStr "Quick question for you..."];
     created_at := now |}.

Definition _generate_fallback_video (theme : DayTheme) (topic : string) (now : datetime) : ContentPiece :=
  {| theme := theme;
     content_type := VIDEO;
     title := PStr ("Quick Video: " ++ topic);
     slides := PList [PStr "Quick tip coming your way!";
                      PStr ("When dealing with " ++ topic ++ "...");
                      PStr "Remember: Progress, not perfection";
                      PStr "What would you add? Comment below!"];
     caption := "Quick thoughts on " ++ topic ++ ". What's your experience?";
     hashtags := ["#ParentingVideo"; "#QuickTips"; "#ParentingSupport"];
     visual_prompts := PList [PStr "Simple talking head with text overlay"];
     psychology_concept := "general support";
     magical_element := "encouraging tone";
     target_age := "all";
     engagement_hooks := [PStr "Quick question..."];
     created_at := now |}.

(** *** The prompts *)

Definition content_prompt (topic : string) (theme : DayTheme)
    (psychology_concept magical_element : string) : string :=
  "
        Create a 5-slide Instagram carousel about " ++ dq ++ topic ++ dq ++ " for parents.
        
        Theme: " ++ theme_value theme ++ "
        Psychology Concept: " ++ psychology_concept ++ "
        Magical Element: " ++ magical_element ++ "
        Target: Parents with children ages 3-10
        
        Requirements:
        - Slide 1: Hook (question or surprising fact)
        - Slides 2-4: Practical tips with magical storytelling
        - Slide 5: Call-to-action + teaser for upcoming AI story bot
        
        Tone: Warm, supportive, magical but practical
        Each slide should be 1-2 sentences maximum
        
        Return as JSON with: title, slides (array of 5), psychology_explanation, magical_narrative
        ".

Definition video_prompt (topic : string) (theme : DayTheme)
    (psychology_concept magical_element : string) : string :=
  "
        Create a 60-90 second Instagram video script about " ++ dq ++ topic ++ dq ++ ".
        
        Theme: " ++ theme_value theme ++ "
        Psychology: " ++ psychology_concept ++ "
        Magic: " ++ magical_element ++ "
        
        Structure:
        - Hook (0-5 seconds): Attention-grabbing question
        - Story Setup (5-25 seconds): Magical scenario introduction
        - Teaching Moment (25-60 seconds): Psychology tip within story
        - Call-to-Action (60-90 seconds): Engagement + bot teaser
        
        Include: scene descriptions, voiceover script, text overlays
        
        Return as JSON with: title, script_sections, scene_descriptions, text_overlays, background_music_mood
        ".

(** *** The outside of the engine

    The world of the engine records the prompts sent to the generative
    backend, and how many random draws and clock readings were made. *)

Record EngineWorld : Type := mk_EngineWorld {
  prompts_sent : list string;
  draws : nat;
  engine_clock_reads : nat
}.

Definition fresh_engine : EngineWorld := mk_EngineWorld [] 0 0.

(** [_extract_hooks]: the first slide, when the payload has slides. *)
Definition _extract_hooks (content_data : pyval) : outcome (list pyval) :=
  and_then (py_contains "slides" content_data) (fun has_slides =>
  if has_slides then
    and_then (py_item_key content_data "slides") (fun s =>
    if py_truthy s then
      and_then (py_item_key content_data "slides") (fun s' =>
      and_then (py_item s' 0) (fun hook => Returns [hook]))
    else Returns [])
  else Returns []).

Section Engine.

(** [json.loads] and [str()] of the Python runtime. *)
Variable json_loads : string -> outcome pyval.
Variable py_str : pyval -> string.

(** The generative backend: given the prompts sent so far and the new
    prompt, the text of the first choice, or the exception of the call.
    (The system message, model, temperature and token budget are the same
    on every call.) *)
Variable chat_completion : list string -> string -> outcome string.

(** The random generator ([rng k] decides the [k]-th draw) and the
    clock ([clock k] is the [k]-th reading). *)
Variable rng : nat -> nat.
Variable clock : nat -> datetime.

Local Open Scope prog_scope.

(** [random.choice(l)]. *)
Definition random_choice (l : list string) : prog EngineWorld string :=
  fun w =>
    let w' := mk_EngineWorld (prompts_sent w) (S (draws w)) (engine_clock_reads w) in
    match nth_error l (Nat.modulo (rng (draws w)) (List.length l)) with
    | Some x => (Returns x, w')
    | None => (Raises (Exception "IndexError" "Cannot choose from an empty sequence"), w')
    end.

(** [datetime.now()]. *)
Definition engine_now : prog EngineWorld datetime :=
  fun w =>
    (Returns (clock (engine_clock_reads w)),
     mk_EngineWorld (prompts_sent w) (draws w) (S (engine_clock_reads w))).

(** [get_daily_theme]: [list(DayTheme)[datetime.now().weekday()]]. *)
Definition get_daily_theme : prog EngineWorld DayTheme :=
  now <- engine_now ;;
  match nth_error all_themes (Z.to_nat (weekday now)) with
  | Some t => ret t
  | None => raise (Exception "IndexError" "list index out of range")
  end.

(** [_call_openai]: the call is logged, an exception is re-raised. *)
Definition _call_openai (prompt : string) : prog EngineWorld string :=
  try_except
    (fun w =>
       (chat_completion (prompts_sent w) prompt,
        mk_EngineWorld (prompts_sent w ++ [prompt])%list (draws w) (engine_clock_reads w)))
    (fun e => raise e).

Definition visual_prompt (title : pyval) (magical_element : string) : string :=
  "
        Create 5 Midjourney prompts for Instagram carousel about " ++ dq ++ py_str title ++ dq ++ ".
        
        Style: Whimsical children's book illustration, soft pastels, magical realism
        Elements: " ++ magical_element ++ "
        
        Each prompt should be optimized for Instagram carousel (1080x1080px equivalent)
        Include: magical creatures, parent-child interactions, cozy settings
        
        Return as JSON array of prompts.
        ".

Definition fallback_visual_prompts (magical_element : string) : pyval :=
  PList [PStr ("Whimsical illustration of " ++ magical_element ++ ", children's book style");
         PStr "Magical parent-child moment, soft colors, cozy setting";
         PStr "Enchanted forest scene with family, warm lighting";
         PStr "Fairy tale inspired parenting scene, gentle magic";
         PStr "Magical family bonding moment, dreamy atmosphere"].

(** [_generate_visual_prompts]: the prompt is formatted before the
    [try], so a payload without [get] raises out of the function. *)
Definition _generate_visual_prompts (content_data : pyval) (magical_element : string)
    : prog EngineWorld pyval :=
  title <- lift (py_get content_data "title" (PStr "")) ;;
  let visual_prompt := visual_prompt title magical_element in
  try_except
    (response <- _call_openai visual_prompt ;;
     prompts_data <- lift (json_loads response) ;;
     lift (py_get prompts_data "prompts" (PList [])))
    (fun _ => ret (fallback_visual_prompts magical_element)).

Definition caption_prompt (title : pyval) (topic : string) (theme : DayTheme) : string :=
  "
        Write an Instagram caption for a carousel about " ++ dq ++ topic ++ dq ++ ".
        
        Content Summary: " ++ py_str title ++ "
        Theme: " ++ theme_value theme ++ "
        
        Requirements:
        - Start with hook/question
        - Include story element from carousel
        - Add psychology tip
        - End with CTA about upcoming AI story bot
        - Warm, supportive tone
        - 150-200 words
        - Include emoji sparingly
        
        Return just the caption text.
        ".

(** The caption of the [except] block of [_generate_caption]. *)
Definition fallback_caption (topic : string) : string :=
  "âœ¨ Magical parenting wisdom for " ++ topic ++ "! Every challenge is an opportunity for growth. What's your experience with this? Share below! ðŸ‘‡ #MagicalParenting #ParentingTips".

Definition _generate_caption (content_data : pyval) (topic : string) (theme : DayTheme)
    : prog EngineWorld string :=
  title <- lift (py_get content_data "title" (PStr "")) ;;
  let caption_prompt := caption_prompt title topic theme in
  try_except
    (_call_openai caption_prompt)
    (fun _ => ret (fallback_caption topic)).

Definition video_caption_prompt (title : pyval) (topic : string) : string :=
  "
        Write an Instagram video caption for " ++ dq ++ topic ++ dq ++ ".
        
        Video Summary: " ++ py_str title ++ "
        
        Requirements:
        - Start with hook that matches video opening
        - Mention the magical story element
        - Include the psychology tip
        - Encourage interaction (comments/shares)
        - Tease upcoming AI storytelling bot
        - 100-150 words
        - Video-optimized format
        
        Return just the caption text.
        ".

(** The caption of the [except] block of [_generate_video_caption]. *)
Definition fallback_video_caption (topic : string) : string :=
  "ðŸŽ¬ Quick magical parenting tip for " ++ topic ++ "! Every challenge is a story waiting to be told. What's your experience? Comment below! ðŸ‘‡ #ParentingVideo #MagicalParenting".

Definition _generate_video_caption (video_data : pyval) (topic : string)
    : prog EngineWorld string :=
  title <- lift (py_get video_data "title" (PStr "")) ;;
  let caption_prompt := video_caption_prompt title topic in
  try_except
    (_call_openai caption_prompt)
    (fun _ => ret (fallback_video_caption topic)).

(** [if not topic: topic = random.choice(self.trending_topics)]: an
    absent topic and the empty string are both replaced. *)
Definition choose_topic (topic : option string) : prog EngineWorld string :=
  match topic with
  | Some t => if String.eqb t "" then random_choice trending_topics else ret t
  | None => random_choice trending_topics
  end.

(** The [try] block of [generate_carousel_content]. *)
Definition carousel_attempt (theme : DayTheme) (topic psychology_concept magical_element : string)
    : prog EngineWorld ContentPiece :=
  let content_prompt := content_prompt topic theme psychology_concept magical_element in
  response <- _call_openai content_prompt ;;
  content_data <- lift (json_loads response) ;;
  visual_prompts <- _generate_visual_prompts content_data magical_element ;;
  caption <- _generate_caption content_data topic theme ;;
  hashtags <- ret (_generate_hashtags topic theme false) ;;
  title <- lift (py_get content_data "title" (PStr "")) ;;
  slides <- lift (py_get content_data "slides" (PList [])) ;;
  engagement_hooks <- lift (_extract_hooks content_data) ;;
  now <- engine_now ;;
  ret {| theme := theme;
         content_type := CAROUSEL;
         title := title;
         slides := slides;
         caption := caption;
         hashtags := hashtags;
         visual_prompts := visual_prompts;
         psychology_concept := psychology_concept;
         magical_element := magical_element;
         target_age := "3-10";
         engagement_hooks := engagement_hooks;
         created_at := now |}.

(** Its [except Exception] block. *)
Definition carousel_fallback (theme : DayTheme) (topic : string) (e : exn)
    : prog EngineWorld ContentPiece :=
  now <- engine_now ;;
  ret (_generate_fallback_content theme topic now).

(** [generate_carousel_content]. *)
Definition generate_carousel_content (theme : DayTheme) (topic : option string)
    : prog EngineWorld ContentPiece :=
  topic <- choose_topic topic ;;
  psychology_concept <- random_choice psychology_concepts ;;
  magical_element <- random_choice magical_elements ;;
  try_except
    (carousel_attempt theme topic psychology_concept magical_element)
    (carousel_fallback theme topic).

(** The [try] block of [generate_video_content]. *)
Definition video_attempt (theme : DayTheme) (topic psychology_concept magical_element : string)
    : prog EngineWorld ContentPiece :=
  let video_prompt := video_prompt topic theme psychology_concept magical_element in
  response <- _call_openai video_prompt ;;
  video_data <- lift (json_loads response) ;;
  caption <- _generate_video_caption video_data topic ;;
  hashtags <- ret (_generate_hashtags topic theme true) ;;
  title <- lift (py_get video_data "title" (PStr "")) ;;
  slides <- lift (py_get video_data "script_sections" (PList [])) ;;
  visual_prompts <- lift (py_get video_data "scene_descriptions" (PList [])) ;;
  hook <- lift (py_get video_data "hook" (PStr "")) ;;
  now <- engine_now ;;
  ret {| theme := theme;
         content_type := VIDEO;
         title := title;
         slides := slides;
         caption := caption;
         hashtags := hashtags;
         visual_prompts := visual_prompts;
         psychology_concept := psychology_concept;
         magical_element := magical_element;
         target_age := "3-10";
         engagement_hooks := [hook];
         created_at := now |}.

(** Its [except Exception] block. *)
Definition video_fallback (theme : DayTheme) (topic : string) (e : exn)
    : prog EngineWorld ContentPiece :=
  now <- engine_now ;;
  ret (_generate_fallback_video theme topic now).

(** [generate_video_content]. *)
Definition generate_video_content (theme : DayTheme) (topic : option string)
    : prog EngineWorld ContentPiece :=
  topic <- choose_topic topic ;;
  psychology_concept <- random_choice psychology_concepts ;;
  magical_element <- random_choice magical_elements ;;
  try_except
    (video_attempt theme topic psychology_concept magical_element)
    (video_fallback theme topic).

End Engine.

(** ** Floats as the publisher uses them *)

(** [float(n)] for a Python int: the nearest binary64 number, ties to
    even (exact below 2^53). *)
Definition float_of_int (n : Z) : float :=
  SF2Prim (binary_normalize prec emax n 0 false).

(** [int(x)]: truncation toward zero; infinities and NaN raise. The value
    of a finite float is its mantissa [m] scaled by [2^e]. *)
Definition int_of_float (x : float) : outcome Z :=
  match Prim2SF x with
  | S754_zero _ => Returns 0
  | S754_finite s m e =>
      let magnitude := if 0 <=? e then Z.shiftl (Z.pos m) e else Z.shiftr (Z.pos m) (- e) in
      Returns (if s then - magnitude else magnitude)
  | S754_infinity _ =>
      Raises (Exception "OverflowError" "cannot convert float infinity to integer")
  | S754_nan => Raises (Exception "ValueError" "cannot convert float NaN to integer")
  end.

(** The integer nearest to [n / d], ties to the even one ([0 < d]). *)
Definition div_half_even (n d : Z) : Z :=
  let q := n / d in
  let r := n mod d in
  if 2 * r <? d then q
  else if d <? 2 * r then q + 1
  else if Z.even q then q else q + 1.

(** [round(x, 2)]: the decimal with two digits nearest to the exact
    value of [x] (ties to even), read back as the nearest float. *)
Definition round2 (x : float) : float :=
  match Prim2SF x with
  | S754_finite s m e =>
      let hundredths :=
        if 0 <=? e then 100 * Z.pos m * 2 ^ e
        else div_half_even (100 * Z.pos m) (2 ^ (- e)) in
      let r := (float_of_int hundredths / 100)%float in
      if s then (- r)%float else r
  | _ => x
  end.

(** ** The publisher (class InstagramPublisher) *)

(** *** Scheduler: _calculate_optimal_time

    [jitter] is the value of [random.randint(-15, 15)]. *)
Definition _calculate_optimal_time (start_date : datetime) (post_index : Z) (jitter : Z)
    : outcome datetime :=
  let base_hour := 9 + post_index * 3 in
  let base_hour := if 21 <? base_hour then 9 + post_index * 2 else base_hour in
  and_then (datetime_replace start_date base_hour 0 0 0) (fun post_time =>
  datetime_add_minutes post_time jitter).

(** *** Engagement estimator: _estimate_engagement

    [estimated_reach] is the value of [random.randint(500, 2000)]. *)

Definition high_engagement_concepts : list string :=
  ["emotional regulation"; "positive reinforcement";
   "growth mindset"; "empathy development"].

Definition engaging_magical_elements : list string :=
  ["fairy tale lessons"; "dragon courage"; "unicorn compassion";
   "enchanted forest wisdom"].

Record EngagementEstimate : Type := mk_EngagementEstimate {
  estimated_reach : Z;
  estimated_engagement_rate : float;
  estimated_likes : Z;
  estimated_comments : Z;
  estimated_saves : Z
}.

(** The value of [base_engagement] after the four adjustments. *)
Definition base_engagement (content : ContentPiece) : float :=
  let base_engagement := 0.05%float in
  let base_engagement :=
    if str_in (psychology_concept content) high_engagement_concepts
    then (base_engagement + 0.02)%float else base_engagement in
  let base_engagement :=
    if str_in (magical_element content) engaging_magical_elements
    then (base_engagement + 0.015)%float else base_engagement in
  let base_engagement :=
    if ContentType_eqb (content_type content) VIDEO
    then (base_engagement + 0.03)%float else base_engagement in
  let base_engagement :=
    if str_in (theme_value (theme content)) ["story_saturday"; "serene_sunday"]
    then (base_engagement + 0.01)%float else base_engagement in
  base_engagement.

(** [int(estimated_reach * base_engagement)]. *)
Definition estimated_engagement_count (content : ContentPiece) (estimated_reach : Z)
    : outcome Z :=
  int_of_float (float_of_int estimated_reach * base_engagement content)%float.

Definition _estimate_engagement (content : ContentPiece) (estimated_reach : Z)
    : outcome EngagementEstimate :=
  let base_engagement := base_engagement content in
  and_then (estimated_engagement_count content estimated_reach)
    (fun estimated_engagement_count =>
  and_then (int_of_float (float_of_int estimated_engagement_count * 0.7)%float) (fun likes =>
  and_then (int_of_float (float_of_int estimated_engagement_count * 0.2)%float) (fun comments =>
  and_then (int_of_float (float_of_int estimated_engagement_count * 0.1)%float) (fun saves =>
  Returns {| estimated_reach := estimated_reach;
             estimated_engagement_rate := round2 (base_engagement * 100)%float;
             estimated_likes := likes;
             estimated_comments := comments;
             estimated_saves := saves |})))).

(** *** The outside of the publisher

    A request to the remote platform, the response, and the world of the
    publisher: its two rate-limiting fields, every exchange with the
    platform so far (a request and the answer it got, oldest first), the
    durations slept, and the number of clock readings. *)

Record HttpRequest : Type := mk_HttpRequest {
  req_method : string;
  req_url : string;
  req_data : list (string * pyval)
}.

Record HttpResponse : Type := mk_HttpResponse {
  status_code : Z;
  text : string
}.

Definition exchange : Type := (HttpRequest * outcome HttpResponse)%type.

Record PublisherWorld : Type := mk_PublisherWorld {
  request_count : Z;
  last_request_time : datetime;
  exchanges : list exchange;
  sleeps : list Z;
  publisher_clock_reads : nat
}.

(** A Python dict with string keys, as the publisher returns it. *)
Definition pydict : Type := list (string * pyval).

(** One hour in microseconds. *)
Definition hour_us : Z := 3600 * us_per_second.

(** *** Vocabulary for the exchanges of a publish *)

(** An answer of the platform that makes a media creation fail: an
    exception of the call, or a status other than 200. *)
Definition answer_failed (answer : outcome HttpResponse) : Prop :=
  match answer with
  | Returns response => status_code response <> 200
  | Raises _ => True
  end.

Definition answered_200 (x : exchange) : Prop :=
  exists response, snd x = Returns response /\ status_code response = 200.

(** The text of the error a failed media creation ends the publish with. *)
Definition media_failure_text (answer : outcome HttpResponse) : string :=
  match answer with
  | Returns response => "Media creation failed: " ++ text response
  | Raises e => exn_str e
  end.

(** The caption sent with asset [i] when the slides are the list [l]. *)
Definition caption_for (l : list pyval) (i : nat) : pyval :=
  match nth_error l i with
  | Some slide => slide
  | None => PStr ""
  end.

Section Publisher.

Variable json_loads : string -> outcome pyval.
Variable py_str : pyval -> string.
Variable isoformat : datetime -> string.

(** The fields fixed by [__init__] from the settings. *)
Variable access_token : string.
Variable business_account_id : string.
Variable base_url : string.
Variable rate_limit : Z.

(** The remote platform: given the exchanges so far and a request, a
    response or the exception [requests] raises; and the clock. *)
Variable platform : list exchange -> HttpRequest -> outcome HttpResponse.
Variable clock : nat -> datetime.

Local Open Scope prog_scope.

Definition publisher_now : prog PublisherWorld datetime :=
  fun w =>
    (Returns (clock (publisher_clock_reads w)),
     mk_PublisherWorld (request_count w) (last_request_time w) (exchanges w)
       (sleeps w) (S (publisher_clock_reads w))).

Definition get_request_count : prog PublisherWorld Z :=
  fun w => (Returns (request_count w), w).

Definition set_request_count (n : Z) : prog PublisherWorld unit :=
  fun w =>
    (Returns tt,
     mk_PublisherWorld n (last_request_time w) (exchanges w) (sleeps w)
       (publisher_clock_reads w)).

Definition get_last_request_time : prog PublisherWorld datetime :=
  fun w => (Returns (last_request_time w), w).

Definition set_last_request_time (t : datetime) : prog PublisherWorld unit :=
  fun w =>
    (Returns tt,
     mk_PublisherWorld (request_count w) t (exchanges w) (sleeps w)
       (publisher_clock_reads w)).

(** [await asyncio.sleep(d)], [d] in microseconds. *)
Definition sleep (d : Z) : prog PublisherWorld unit :=
  fun w =>
    (Returns tt,
     mk_PublisherWorld (request_count w) (last_request_time w) (exchanges w)
       (sleeps w ++ [d])%list (publisher_clock_reads w)).

(** [requests.post(url, data=data)] and [requests.get(url, params=data)]. *)
Definition send (method url : string) (data : list (string * pyval))
    : prog PublisherWorld HttpResponse :=
  fun w =>
    let req := mk_HttpRequest method url data in
    let answer := platform (exchanges w) req in
    (answer,
     mk_PublisherWorld (request_count w) (last_request_time w)
       (exchanges w ++ [(req, answer)])%list (sleeps w) (publisher_clock_reads w)).

Definition requests_post := send "POST".
Definition requests_get := send "GET".

(** [response.json()]. *)
Definition response_json (r : HttpResponse) : outcome pyval := json_loads (text r).

(** *** Rate limiter: _check_rate_limit

    [(now - last).total_seconds() > 3600] is decided on the exact
    difference in microseconds, and the time slept is kept in
    microseconds: datetimes have microsecond resolution, and binary64
    numbers near 3600 are closer than a microsecond apart. *)
Definition reset_if_window_elapsed (now : datetime) : prog PublisherWorld unit :=
  last <- get_last_request_time ;;
  if hour_us <? elapsed_us now last then
    set_request_count 0 ;;;
    set_last_request_time now
  else ret tt.

Definition wait_if_at_limit (now : datetime) : prog PublisherWorld unit :=
  count <- get_request_count ;;
  if rate_limit <=? count then
    last <- get_last_request_time ;;
    let wait_time := hour_us - elapsed_us now last in
    if 0 <? wait_time then
      sleep wait_time ;;;
      set_request_count 0 ;;;
      now' <- publisher_now ;;
      set_last_request_time now'
    else ret tt
  else ret tt.

Definition _check_rate_limit : prog PublisherWorld unit :=
  now <- publisher_now ;;
  reset_if_window_elapsed now ;;;
  wait_if_at_limit now ;;;
  count <- get_request_count ;;
  set_request_count (count + 1).

(** The limit check and the increment that end [_check_rate_limit]. *)
Definition limit_check_and_count (now : datetime) : prog PublisherWorld unit :=
  bind (wait_if_at_limit now) (fun _ =>
  bind get_request_count (fun count => set_request_count (count + 1))).

(** *** publish_carousel *)

Definition media_url : string := base_url ++ "/" ++ business_account_id ++ "/media".
Definition media_publish_url : string :=
  base_url ++ "/" ++ business_account_id ++ "/media_publish".

(** [content.slides[i] if i < len(content.slides) else ""]. *)
Definition slide_caption (content : ContentPiece) (i : nat) : outcome pyval :=
  and_then (py_len (slides content)) (fun n =>
  if Z.of_nat i <? n then py_item (slides content) i else Returns (PStr "")).

Definition media_data (image_url : string) (caption : pyval) : list (string * pyval) :=
  [("image_url", PStr image_url); ("caption", caption); ("access_token", PStr access_token)].

(** The loop [for i, image_url in enumerate(image_urls)], from index
    [i] on with the [media_ids] collected so far. It ends with the dict
    of the early [return], or with all media ids. *)
Fixpoint create_media (content : ContentPiece) (i : nat) (image_urls : list string)
    (media_ids : list pyval) : prog PublisherWorld (pydict + list pyval) :=
  match image_urls with
  | [] => ret (inr media_ids)
  | image_url :: rest =>
      caption <- lift (slide_caption content i) ;;
      response <- requests_post media_url (media_data image_url caption) ;;
      if status_code response =? 200 then
        body <- lift (response_json response) ;;
        media_id <- lift (py_get body "id" PNone) ;;
        create_media content (S i) rest (media_ids ++ [media_id])%list
      else
        ret (inl [("error", PStr ("Media creation failed: " ++ text response))])
  end.

(** The request the loop sends for asset [i], one per URL in list order,
    up to the first caption that cannot be computed. *)
Fixpoint media_requests (content : ContentPiece) (i : nat) (image_urls : list string)
    : list HttpRequest :=
  match image_urls with
  | [] => []
  | image_url :: rest =>
      match slide_caption content i with
      | Returns caption =>
          mk_HttpRequest "POST" media_url (media_data image_url caption)
          :: media_requests content (S i) rest
      | Raises _ => []
      end
  end.

(** The same when the slides are the list [l]: every URL has a request. *)
Fixpoint expected_media_requests (l : list pyval) (i : nat) (image_urls : list string)
    : list HttpRequest :=
  match image_urls with
  | [] => []
  | image_url :: rest =>
      mk_HttpRequest "POST" media_url
        (media_data image_url (caption_for l i))
      :: expected_media_requests l (S i) rest
  end.

Definition full_caption (content : ContentPiece) : string :=
  caption content ++ nl ++ nl ++ str_join " " (hashtags content).

Definition published (post_result : pyval) : prog PublisherWorld pydict :=
  id <- lift (py_get post_result "id" PNone) ;;
  id' <- lift (py_get post_result "id" PNone) ;;
  now <- publisher_now ;;
  ret [("id", id);
       ("status", PStr "published");
       ("post_url", PStr ("https://instagram.com/p/" ++ py_str id'));
       ("published_at", PStr (isoformat now))].

Definition publish_carousel (content : ContentPiece) (image_urls : list string)
    : prog PublisherWorld pydict :=
  try_except
    (_check_rate_limit ;;;
     created <- create_media content 0 image_urls [] ;;
     match created with
     | inl early => ret early
     | inr media_ids =>
         let post_data :=
           [("caption", PStr (full_caption content));
            ("media_type", PStr "CAROUSEL");
            ("children", PList media_ids);
            ("access_token", PStr access_token)] in
         response <- requests_post media_publish_url post_data ;;
         if status_code response =? 200 then
           post_result <- lift (response_json response) ;;
           published post_result
         else ret [("error", PStr ("Publishing failed: " ++ text response))]
     end)
    (fun e => ret [("error", PStr (exn_str e))]).

(** The request that publishes the carousel. *)
Definition publish_request (content : ContentPiece) (media_ids : list pyval) : HttpRequest :=
  mk_HttpRequest "POST" media_publish_url
    [("caption", PStr (full_caption content));
     ("media_type", PStr "CAROUSEL");
     ("children", PList media_ids);
     ("access_token", PStr access_token)].

(** *** publish_video *)
Definition publish_video (content : ContentPiece) (video_url : string)
    : prog PublisherWorld pydict :=
  try_except
    (_check_rate_limit ;;;
     let media_data :=
       [("media_type", PStr "REELS");
        ("video_url", PStr video_url);
        ("caption", PStr (full_caption content));
        ("access_token", PStr access_token)] in
     response <- requests_post media_url media_data ;;
     if status_code response =? 200 then
       body <- lift (response_json response) ;;
       media_id <- lift (py_get body "id" PNone) ;;
       let publish_data :=
         [("creation_id", media_id); ("access_token", PStr access_token)] in
       publish_response <- requests_post media_publish_url publish_data ;;
       if status_code publish_response =? 200 then
         post_result <- lift (response_json publish_response) ;;
         published post_result
       else ret [("error", PStr ("Video publishing failed: " ++ text publish_response))]
     else ret [("error", PStr ("Video media creation failed: " ++ text response))])
    (fun e => ret [("error", PStr (exn_str e))]).

(** A run of [n] consecutive rate-limit checks. *)
Fixpoint check_rate_limit_times (n : nat) : prog PublisherWorld unit :=
  match n with
  | O => ret tt
  | S n' => _check_rate_limit ;;; check_rate_limit_times n'
  end.

End Publisher.

(** ** The retrying tasks (daily_content.py)

    A task is declared with [max_retries=3]; [self.request.retries] is the
    number of retries already made. What the body of a task does on one
    attempt is an [outcome]; the [except] block turns an exception into
    one of two signals to the queue layer. *)

Definition max_retries : Z := 3.

Inductive task_end (A : Type) : Type :=
| Completed (result : A)
| Retry (countdown : Z) (exc : exn)
| Reraised (exc : exn).

Arguments Completed {A} result.
Arguments Retry {A} countdown exc.
Arguments Reraised {A} exc.

(** The [except Exception as exc] block shared by the four tasks, which
    differ in the base delay only. *)
Definition on_exception {A : Type} (base_delay retries : Z) (exc : exn) : task_end A :=
  if retries <? max_retries then
    let retry_delay := 2 ^ retries * base_delay in
    Retry retry_delay exc
  else Reraised exc.

Definition retrying_task {A : Type} (base_delay : Z) (body : outcome A) (retries : Z)
    : task_end A :=
  match body with
  | Returns result => Completed result
  | Raises exc => on_exception base_delay retries exc
  end.

Definition generate_daily_content {A : Type} := @retrying_task A 60.
Definition generate_weekly_content {A : Type} := @retrying_task A 300.
Definition generate_bot_teaser_campaign {A : Type} := @retrying_task A 600.
Definition publish_scheduled_content {A : Type} := @retrying_task A 300.

(** The states of one operation, and the queue layer that drives a task:
    it runs an attempt, and on [Retry] waits for the countdown and runs
    the task again with one more retry counted. [body k] is what the body
    does on the attempt that follows [k] retries. *)
Inductive op_state : Type :=
| Pending
| Running (retries : Z)
| Retrying (countdown : Z)
| Success
| Failed (exc : exn).

Fixpoint drive {A : Type} (task : outcome A -> Z -> task_end A) (body : Z -> outcome A)
    (fuel : nat) (retries : Z) : list op_state :=
  match fuel with
  | O => []
  | S fuel' =>
      Running retries ::
      match task (body retries) retries with
      | Completed _ => [Success]
      | Retry countdown _ => Retrying countdown :: drive task body fuel' (retries + 1)
      | Reraised exc => [Failed exc]
      end
  end.

Definition run_operation {A : Type} (task : outcome A -> Z -> task_end A)
    (body : Z -> outcome A) (fuel : nat) : list op_state :=
  Pending :: drive task body fuel 0.

Definition is_retrying (s : op_state) : bool :=
  match s with Retrying _ => true | _ => false end.

(** ** Vocabulary of the properties *)

(** The four tasks with their base delays. *)
Definition retry_classes (A : Type) : list (Z * (outcome A -> Z -> task_end A)) :=
  [(60, generate_daily_content); (300, generate_weekly_content);
   (600, generate_bot_teaser_campaign); (300, publish_scheduled_content)].

(** Three ways a sub-step of a generation attempt raises [e], given the
    prompts [sent] so far and the primary [prompt]: the backend call
    raises; or the JSON parse of its answer raises; or the parsed payload
    has no [get], and the first secondary step (the visual prompts of a
    carousel, the caption of a video) raises when it formats its prompt. *)
Definition sub_step_raises (json_loads : string -> outcome pyval)
    (chat_completion : list string -> string -> outcome string)
    (sent : list string) (prompt : string) (e : exn) : Prop :=
  chat_completion sent prompt = Raises e \/
  (exists response,
     chat_completion sent prompt = Returns response /\ json_loads response = Raises e) \/
  (exists response payload,
     chat_completion sent prompt = Returns response /\
     json_loads response = Returns payload /\
     py_get payload "title" (PStr "") = Raises e).

(** The ways the [try] block of the carousel generator raises [e]: the
    three of [sub_step_raises], and [_extract_hooks] on a dict whose
    "slides" cannot be indexed by [0]. *)
Definition carousel_step_raises (json_loads : string -> outcome pyval)
    (chat_completion : list string -> string -> outcome string)
    (sent : list string) (prompt : string) (e : exn) : Prop :=
  sub_step_raises json_loads chat_completion sent prompt e \/
  (exists response d,
     chat_completion sent prompt = Returns response /\
     json_loads response = Returns (PDict d) /\
     _extract_hooks (PDict d) = Raises e).

(** What a step with an [except] of its own hands back: the answer of
    its call, or its default when the call raised. *)
Definition answer_or {A : Type} (default : A) (answer : outcome A) : A :=
  match answer with
  | Returns a => a
  | Raises _ => default
  end.

(** A carousel piece built from the parsed answer [d] to the content
    prompt, [sent] being the prompts sent before. The visual prompts and
    the caption come from two later calls; when one of these raises, the
    default of its step is used and the piece is built all the same. *)
Definition carousel_from_answer (py_str : pyval -> string)
    (chat_completion : list string -> string -> outcome string) (sent : list string)
    (day : DayTheme) (topic concept element : string) (d : list (string * pyval))
    (piece : ContentPiece) : Prop :=
  let primary := content_prompt topic day concept element in
  let second := visual_prompt py_str (title piece) element in
  let third := caption_prompt py_str (title piece) topic day in
  py_get (PDict d) "title" (PStr "") = Returns (title piece) /\
  py_get (PDict d) "slides" (PList []) = Returns (slides piece) /\
  content_type piece = CAROUSEL /\
  psychology_concept piece = concept /\
  magical_element piece = element /\
  hashtags piece = _generate_hashtags topic day false /\
  caption piece
  = answer_or (fallback_caption topic)
      (chat_completion (sent ++ [primary; second])%list third) /\
  (forall e, chat_completion (sent ++ [primary])%list second = Raises e ->
     visual_prompts piece = fallback_visual_prompts element).

(** The same for a video piece: only the caption has a call of its own. *)
Definition video_from_answer (py_str : pyval -> string)
    (chat_completion : list string -> string -> outcome string) (sent : list string)
    (day : DayTheme) (topic concept element : string) (d : list (string * pyval))
    (piece : ContentPiece) : Prop :=
  let primary := video_prompt topic day concept element in
  let second := video_caption_prompt py_str (title piece) topic in
  py_get (PDict d) "title" (PStr "") = Returns (title piece) /\
  py_get (PDict d) "script_sections" (PList []) = Returns (slides piece) /\
  content_type piece = VIDEO /\
  psychology_concept piece = concept /\
  magical_element piece = element /\
  hashtags piece = _generate_hashtags topic day true /\
  caption piece
  = answer_or (fallback_video_caption topic)
      (chat_completion (sent ++ [primary])%list second).

(** The four conditions the estimator tests, and the rate they add up
    to, in hundredths of a percent: 5%, plus 2%, 1.5%, 3% and 1%. *)
Definition has_concept_bonus (content : ContentPiece) : bool :=
  str_in (psychology_concept content) high_engagement_concepts.

Definition has_motif_bonus (content : ContentPiece) : bool :=
  str_in (magical_element content) engaging_magical_elements.

Definition has_video_bonus (content : ContentPiece) : bool :=
  ContentType_eqb (content_type content) VIDEO.

Definition has_weekend_bonus (content : ContentPiece) : bool :=
  str_in (theme_value (theme content)) ["story_saturday"; "serene_sunday"].

Definition rate_bp (content : ContentPiece) : Z :=
  500 + (if has_concept_bonus content then 200 else 0)
      + (if has_motif_bonus content then 150 else 0)
      + (if has_video_bonus content then 300 else 0)
      + (if has_weekend_bonus content then 100 else 0).

(** A piece that meets exactly the given conditions. *)
Definition flag_piece (concept motif video weekend : bool) : ContentPiece :=
  {| theme := if weekend then STORY_SATURDAY else MAGICAL_MONDAY;
     content_type := if video then VIDEO else CAROUSEL;
     title := PStr "";
     slides := PList [];
     caption := "";
     hashtags := [];
     visual_prompts := PList [];
     psychology_concept := if concept then "growth mindset" else "";
     magical_element := if motif then "dragon courage" else "";
     target_age := "";
     engagement_hooks := [];
     created_at := mk_datetime 1 0 0 0 0 |}.

Definition flags_of (content : ContentPiece) : ContentPiece :=
  flag_piece (has_concept_bonus content) (has_motif_bonus content)
    (has_video_bonus content) (has_weekend_bonus content).

Definition all_flag_pieces : list ContentPiece :=
  flat_map (fun a => flat_map (fun b => flat_map (fun c =>
    map (flag_piece a b c) [false; true]) [false; true]) [false; true]) [false; true].

(** Every reach [random.randint(500, 2000)] can return. *)
Definition reaches : list Z := map Z.of_nat (seq 500 1501).

(** What is checked of one estimate. *)
Definition estimate_ok (content : ContentPiece) (reach : Z) : bool :=
  match _estimate_engagement content reach, estimated_engagement_count content reach with
  | Returns est, Returns count =>
      (estimated_reach est =? reach)
      && (count =? reach * rate_bp content / 10000)
      && (0 <=? estimated_likes est) && (0 <=? estimated_comments est)
      && (0 <=? estimated_saves est)
      && (estimated_likes est + estimated_comments est + estimated_saves est <=? count)
  | _, _ => false
  end.

Definition rates_ordered (content other : ContentPiece) : bool :=
  implb (rate_bp content <? rate_bp other)
    (PrimFloat.ltb (base_engagement content) (base_engagement other)).

(** ** Sample inputs and oracles *)

Definition a_start_date : datetime := mk_datetime 739560 7 42 13 250000.

Definition always_failing (k : Z) : outcome unit :=
  Raises (Exception "Exception" ("attempt " ++ (if k =? 3 then "last" else "early"))).

Definition a_time : datetime := mk_datetime 739560 10 30 0 0.

(** A backend that answers every prompt, and a payload with one slide. *)
Definition answering_backend (_ : list string) (_ : string) : outcome string :=
  Returns "payload".

Definition one_slide_payload (_ : string) : outcome pyval :=
  Returns (PDict [("title", PStr "One tip"); ("slides", PList [PStr "Just this one"])]).

(** A backend that fails on every call, as in the repository's tests. *)
Definition failing_backend (_ : list string) (_ : string) : outcome string :=
  Raises (Exception "Exception" "API Error").

Definition run_carousel (json_loads : string -> outcome pyval)
    (chat_completion : list string -> string -> outcome string) :=
  generate_carousel_content json_loads (fun _ => "") chat_completion (fun _ => O)
    (fun _ => a_time) MAGICAL_MONDAY (Some "test topic") fresh_engine.

Definition run_video (json_loads : string -> outcome pyval)
    (chat_completion : list string -> string -> outcome string) :=
  generate_video_content json_loads (fun _ => "") chat_completion (fun _ => O)
    (fun _ => a_time) MAGICAL_MONDAY (Some "test topic") fresh_engine.

Definition a_video_piece : ContentPiece := flag_piece true false true true.
Definition a_plain_piece : ContentPiece := flag_piece false false false false.

Definition window_start : datetime := mk_datetime 739560 10 0 0 0.

(** A clock that advances by one minute per reading. *)
Definition minute_clock (k : nat) : datetime := mk_datetime 739560 10 (Z.of_nat k) 0 0.

Definition id_payload (_ : string) : outcome pyval := Returns (PDict [("id", PStr "17")]).

Definition str_of (v : pyval) : string :=
  match v with PStr s => s | _ => "" end.

Definition an_isoformat (_ : datetime) : string := "2025-11-04T10:00:00".

Definition graph_url : string := "https://graph.facebook.com/v18.0".

(** A platform that accepts every call, one that refuses the third call
    it receives, and one that refuses the first. *)
Definition accepting_platform (_ : list exchange) (_ : HttpRequest) : outcome HttpResponse :=
  Returns (mk_HttpResponse 200 "ok").

Definition platform_refusing (k : nat) (history : list exchange) (_ : HttpRequest)
    : outcome HttpResponse :=
  if Nat.eqb (List.length history) k then Returns (mk_HttpResponse 400 "bad image")
  else Returns (mk_HttpResponse 200 "ok").

Definition idle_publisher : PublisherWorld := mk_PublisherWorld 0 window_start [] [] 0.

Definition piece_with_slides (l : list pyval) : ContentPiece :=
  {| theme := MAGICAL_MONDAY;
     content_type := CAROUSEL;
     title := PStr "Naps";
     slides := PList l;
     caption := "About naps";
     hashtags := ["#ParentingTips"; "#Naps"];
     visual_prompts := PList [];
     psychology_concept := "growth mindset";
     magical_element := "owl wisdom";
     target_age := "3-10";
     engagement_hooks := [];
     created_at := a_time |}.

Definition five_slides : list pyval :=
  [PStr "s1"; PStr "s2"; PStr "s3"; PStr "s4"; PStr "s5"].

Definition five_urls : list string := ["u1"; "u2"; "u3"; "u4"; "u5"].

Definition run_publish (platform : list exchange -> HttpRequest -> outcome HttpResponse)
    (l : list pyval) (image_urls : list string) : outcome pydict * PublisherWorld :=
  publish_carousel id_payload str_of an_isoformat "token" "acct" graph_url 200 platform
    minute_clock (piece_with_slides l) image_urls idle_publisher.

(** The captions of the requests sent to [url], in order. *)
Definition captions_sent_to (url : string) (w : PublisherWorld) : list (option pyval) :=
  map (fun x : exchange => assoc_lookup "caption" (req_data (fst x)))
    (filter (fun x : exchange => String.eqb (req_url (fst x)) url) (exchanges w)).

(** ** More of the program

    The batch generators of the engine, the reading calls and the
    scheduling of the publisher, and what the tasks do on one attempt. *)

(** *** More of the Python runtime *)

(** [d + timedelta(days=n)]. *)
Definition datetime_add_days (d : datetime) (n : Z) : outcome datetime :=
  let r := of_us (to_us d + n * us_per_day) in
  if in_range 1 (dt_ordinal r) max_ordinal then Returns r
  else Raises (Exception "OverflowError" "date value out of range").

(** [d[key] = value] on a dict kept in insertion order: a key already
    present keeps its place and gets the new value. *)
Fixpoint dict_set {A : Type} (key : string) (value : A) (d : list (string * A))
    : list (string * A) :=
  match d with
  | [] => [(key, value)]
  | (k, v) :: rest =>
      if String.eqb k key then (k, value) :: rest else (k, v) :: dict_set key value rest
  end.

(** [for x in v]: the items a loop over [v] visits (for a dict its keys,
    which are distinct in a dict). *)
Definition py_iter (v : pyval) : outcome (list pyval) :=
  match v with
  | PList l => Returns l
  | PStr s => Returns (map PStr (utf8_chars s))
  | PDict d => Returns (map (fun item => PStr (fst item)) d)
  | _ => Raises (Exception "TypeError" ("'" ++ type_name v ++ "' object is not iterable"))
  end.

(** *** The batch generators of the engine

    The engine's [generate_weekly_content] and [generate_bot_teaser_campaign]
    share their names with tasks of daily_content.py, so the engine's batch
    methods live in a module of their own. *)

Definition teaser_topics : list string :=
  ["Behind the scenes: Building magical stories for your kids";
   "What if bedtime stories adapted to your child's choices?";
   "The psychology behind interactive storytelling";
   "Sneak peek: AI that creates personalized fairy tales"].

(** [day_num in [0, 2, 4]]. *)
Definition video_day (day_num : nat) : bool := existsb (Nat.eqb day_num) [0; 2; 4]%nat.

(** The draws [choose_topic] makes: one for an absent or empty topic. *)
Definition topic_draws (topic : option string) : nat :=
  match topic with
  | Some t => if String.eqb t "" then 1 else 0
  | None => 1
  end.

Module ContentEngine.

Section EngineBatches.

Variable json_loads : string -> outcome pyval.
Variable py_str : pyval -> string.
Variable chat_completion : list string -> string -> outcome string.
Variable rng : nat -> nat.
Variable clock : nat -> datetime.

Local Open Scope prog_scope.

(** The loop [for topic in teaser_topics], with the [campaign_content]
    collected so far. *)
Fixpoint campaign_loop (topics : list string) (campaign_content : list ContentPiece)
    : prog EngineWorld (list ContentPiece) :=
  match topics with
  | [] => ret campaign_content
  | topic :: rest =>
      content <- generate_carousel_content json_loads py_str chat_completion rng clock
                   STORY_SATURDAY (Some topic) ;;
      campaign_loop rest (campaign_content ++ [content])%list
  end.

Definition generate_bot_teaser_campaign : prog EngineWorld (list ContentPiece) :=
  campaign_loop teaser_topics [].

(** [date.strftime("%Y-%m-%d")]. *)
Variable strftime_ymd : datetime -> string.

(** The loop [for day_num, theme in enumerate(DayTheme)] of
    [generate_weekly_content], from [day_num] on. *)
Fixpoint weekly_loop (day_num : nat) (themes : list DayTheme)
    (weekly_content : list (string * list ContentPiece))
    : prog EngineWorld (list (string * list ContentPiece)) :=
  match themes with
  | [] => ret weekly_content
  | theme :: rest =>
      now <- engine_now clock ;;
      date <- lift (datetime_add_days now (Z.of_nat day_num)) ;;
      carousel <- generate_carousel_content json_loads py_str chat_completion rng clock
                    theme None ;;
      content_pieces <-
        (if video_day day_num then
           video <- generate_video_content json_loads py_str chat_completion rng clock
                      theme None ;;
           ret [carousel; video]
         else ret [carousel]) ;;
      weekly_loop (S day_num) rest (dict_set (strftime_ymd date) content_pieces weekly_content)
  end.

Definition generate_weekly_content : prog EngineWorld (list (string * list ContentPiece)) :=
  weekly_loop 0 all_themes [].

End EngineBatches.

End ContentEngine.

(** *** The reading calls of the publisher *)

Definition account_metrics : list string :=
  ["impressions"; "reach"; "profile_views"; "follower_count";
   "email_contacts"; "phone_call_clicks"; "text_message_clicks"].

Definition post_metrics : list string :=
  ["impressions"; "reach"; "engagement"; "saved"; "video_views"; "video_view_rate"].

Section PublisherReads.

Variable json_loads : string -> outcome pyval.
Variable access_token : string.
Variable business_account_id : string.
Variable base_url : string.
Variable rate_limit : Z.
Variable platform : list exchange -> HttpRequest -> outcome HttpResponse.
Variable clock : nat -> datetime.

Local Open Scope prog_scope.

Definition error_dict (message : string) : pyval := PDict [("error", PStr message)].

(** [get_account_insights]. *)
Definition get_account_insights : prog PublisherWorld pyval :=
  try_except
    (_check_rate_limit rate_limit clock ;;;
     let insights_url := base_url ++ "/" ++ business_account_id ++ "/insights" in
     let params :=
       [("metric", PStr (str_join "," account_metrics));
        ("period", PStr "day");
        ("access_token", PStr access_token)] in
     response <- requests_get platform insights_url params ;;
     if status_code response =? 200 then lift (response_json json_loads response)
     else ret (error_dict ("Failed to get insights: " ++ text response)))
    (fun e => ret (error_dict (exn_str e))).

(** [get_post_insights]. *)
Definition get_post_insights (post_id : string) : prog PublisherWorld pyval :=
  try_except
    (_check_rate_limit rate_limit clock ;;;
     let insights_url := base_url ++ "/" ++ post_id ++ "/insights" in
     let params :=
       [("metric", PStr (str_join "," post_metrics));
        ("access_token", PStr access_token)] in
     response <- requests_get platform insights_url params ;;
     if status_code response =? 200 then lift (response_json json_loads response)
     else ret (error_dict ("Failed to get post insights: " ++ text response)))
    (fun e => ret (error_dict (exn_str e))).

(** [test_connection]. *)
Definition test_connection : prog PublisherWorld pydict :=
  try_except
    (_check_rate_limit rate_limit clock ;;;
     response <- requests_get platform (base_url ++ "/" ++ business_account_id)
                   [("access_token", PStr access_token)] ;;
     if status_code response =? 200 then
       account_info <- lift (response_json json_loads response) ;;
       name <- lift (py_get account_info "name" (PStr "Unknown")) ;;
       username <- lift (py_get account_info "username" (PStr "Unknown")) ;;
       followers <- lift (py_get account_info "followers_count" (PInt 0)) ;;
       media_count <- lift (py_get account_info "media_count" (PInt 0)) ;;
       ret [("status", PStr "connected");
            ("account_name", name);
            ("username", username);
            ("followers", followers);
            ("media_count", media_count)]
     else ret [("status", PStr "error"); ("message", PStr (text response))])
    (fun e => ret [("status", PStr "error"); ("message", PStr (exn_str e))]).

(** The loop [for media in media_list] of [get_scheduled_posts], with the
    [scheduled_posts] collected so far. *)
Fixpoint collect_scheduled (media_list : list pyval) (scheduled_posts : list pyval)
    : outcome (list pyval) :=
  match media_list with
  | [] => Returns scheduled_posts
  | media :: rest =>
      and_then (py_contains "published" media) (fun present =>
      if negb present then
        and_then (py_get media "id" PNone) (fun media_id =>
        and_then (py_get media "media_type" PNone) (fun media_type =>
        and_then (py_get media "created_time" PNone) (fun created_time =>
        collect_scheduled rest
          (scheduled_posts
           ++ [PDict [("media_id", media_id);
                      ("media_type", media_type);
                      ("created_time", created_time);
                      ("status", PStr "scheduled")]])%list)))
      else collect_scheduled rest scheduled_posts)
  end.

(** [get_scheduled_posts]. *)
Definition get_scheduled_posts : prog PublisherWorld pyval :=
  try_except
    (_check_rate_limit rate_limit clock ;;;
     response <- requests_get platform (media_url business_account_id base_url)
                   [("access_token", PStr access_token);
                    ("fields", PStr "id,media_type,media_url,thumbnail_url,created_time")] ;;
     if status_code response =? 200 then
       body <- lift (response_json json_loads response) ;;
       data <- lift (py_get body "data" (PList [])) ;;
       media_list <- lift (py_iter data) ;;
       scheduled_posts <- lift (collect_scheduled media_list []) ;;
       ret (PList scheduled_posts)
     else ret (error_dict ("Failed to get scheduled posts: " ++ text response)))
    (fun e => ret (error_dict (exn_str e))).

End PublisherReads.

(** *** schedule_content *)

(** The dict [schedule_content] makes for one piece. *)
Record ScheduledPost : Type := mk_ScheduledPost {
  post_content : ContentPiece;
  scheduled_time : string;
  post_status : string;
  estimated_engagement : EngagementEstimate
}.

Section Scheduler.

Variable isoformat : datetime -> string.

(** [random.randint(lo, hi)]: the world of the scheduler is the number
    of draws made so far. *)
Variable randint : nat -> Z -> Z -> Z.

Local Open Scope prog_scope.

Definition random_randint (lo hi : Z) : prog nat Z :=
  fun draws => (Returns (randint draws lo hi), S draws).

(** [_calculate_optimal_time] with its draw: the jitter is drawn after
    [replace] has built the time. *)
Definition calculate_optimal_time (start_date : datetime) (post_index : Z)
    : prog nat datetime :=
  let base_hour := 9 + post_index * 3 in
  let base_hour := if 21 <? base_hour then 9 + post_index * 2 else base_hour in
  post_time <- lift (datetime_replace start_date base_hour 0 0 0) ;;
  jitter <- random_randint (-15) 15 ;;
  lift (datetime_add_minutes post_time jitter).

(** [_estimate_engagement] with its draw. *)
Definition estimate_engagement (content : ContentPiece) : prog nat EngagementEstimate :=
  estimated_reach <- random_randint 500 2000 ;;
  lift (_estimate_engagement content estimated_reach).

(** The loop [for i, content in enumerate(content_pieces)]. *)
Fixpoint schedule_loop (start_date : datetime) (i : nat) (content_pieces : list ContentPiece)
    (scheduled_posts : list ScheduledPost) : prog nat (list ScheduledPost) :=
  match content_pieces with
  | [] => ret scheduled_posts
  | content :: rest =>
      post_time <- calculate_optimal_time start_date (Z.of_nat i) ;;
      estimate <- estimate_engagement content ;;
      let scheduled_post :=
        {| post_content := content;
           scheduled_time := isoformat post_time;
           post_status := "scheduled";
           estimated_engagement := estimate |} in
      schedule_loop start_date (S i) rest (scheduled_posts ++ [scheduled_post])%list
  end.

Definition schedule_content (content_pieces : list ContentPiece) (start_date : datetime)
    : prog nat (list ScheduledPost) :=
  schedule_loop start_date 0 content_pieces [].

End Scheduler.

(** *** The bodies of the tasks (daily_content.py)

    What the [try] block of each task does on one attempt. The event loop
    the task opens and closes around its calls is left out. *)

(** [not key] for an optional string of the settings. *)
Definition py_not_str (key : option string) : bool :=
  match key with
  | Some k => String.eqb k ""
  | None => true
  end.

Definition str_list (l : list string) : pyval := PList (map PStr l).

(** The dicts the tasks make of a piece. *)
Definition daily_carousel_dict (carousel : ContentPiece) : pyval :=
  PDict [("title", title carousel);
         ("slides", slides carousel);
         ("caption", PStr (caption carousel));
         ("hashtags", str_list (hashtags carousel));
         ("psychology_concept", PStr (psychology_concept carousel));
         ("magical_element", PStr (magical_element carousel));
         ("visual_prompts", visual_prompts carousel)].

Definition daily_video_dict (video : option ContentPiece) : pyval :=
  match video with
  | Some video =>
      PDict [("title", title video);
             ("slides", slides video);
             ("caption", PStr (caption video));
             ("hashtags", str_list (hashtags video));
             ("visual_prompts", visual_prompts video)]
  | None => PNone
  end.

Definition weekly_piece_dict (piece : ContentPiece) : pyval :=
  PDict [("title", title piece);
         ("type", PStr (content_type_value (content_type piece)));
         ("slides", slides piece);
         ("caption", PStr (caption piece));
         ("hashtags", str_list (hashtags piece));
         ("psychology_concept", PStr (psychology_concept piece));
         ("magical_element", PStr (magical_element piece))].

Section TaskBodies.

Variable json_loads : string -> outcome pyval.
Variable py_str : pyval -> string.
Variable chat_completion : list string -> string -> outcome string.
Variable rng : nat -> nat.
Variable clock : nat -> datetime.
Variable strftime_ymd : datetime -> string.
Variable isoformat : datetime -> string.

(** [settings.openai_api_key]. *)
Variable openai_api_key : option string.

Local Open Scope prog_scope.

(** [MagicalParentingContentEngine()]: the constructor refuses a missing
    or empty key. *)
Definition new_engine : prog EngineWorld unit :=
  if py_not_str openai_api_key
  then raise (Exception "ValueError" "OpenAI API key is required")
  else ret tt.

(** The [try] block of the task [generate_daily_content]. *)
Definition daily_content_body : prog EngineWorld pyval :=
  new_engine ;;;
  theme <- get_daily_theme clock ;;
  carousel <- generate_carousel_content json_loads py_str chat_completion rng clock
                theme None ;;
  now <- engine_now clock ;;
  video <-
    (if existsb (Z.eqb (weekday now)) [0; 2; 4] then
       video <- generate_video_content json_loads py_str chat_completion rng clock
                  theme None ;;
       ret (Some video)
     else ret None) ;;
  generated <- engine_now clock ;;
  let content_data :=
    PDict [("theme", PStr (theme_value theme));
           ("carousel", daily_carousel_dict carousel);
           ("video", daily_video_dict video);
           ("generated_at", PStr (isoformat generated))] in
  returned_at <- engine_now clock ;;
  ret (PDict [("status", PStr "success");
              ("content", content_data);
              ("generated_at", PStr (isoformat returned_at))]).

(** The [try] block of the task [generate_weekly_content]. *)
Definition weekly_content_body : prog EngineWorld pyval :=
  new_engine ;;;
  weekly_content <- ContentEngine.generate_weekly_content json_loads py_str chat_completion
                      rng clock strftime_ymd ;;
  let processed_content :=
    map (fun entry : string * list ContentPiece =>
           (fst entry, PList (map weekly_piece_dict (snd entry)))) weekly_content in
  returned_at <- engine_now clock ;;
  ret (PDict [("status", PStr "success");
              ("weekly_content", PDict processed_content);
              ("generated_at", PStr (isoformat returned_at))]).

(** The [try] block of the task [generate_bot_teaser_campaign]. *)
Definition bot_teaser_campaign_body : prog EngineWorld pyval :=
  new_engine ;;;
  campaign_content <- ContentEngine.generate_bot_teaser_campaign json_loads py_str
                        chat_completion rng clock ;;
  let processed_campaign := map daily_carousel_dict campaign_content in
  returned_at <- engine_now clock ;;
  ret (PDict [("status", PStr "success");
              ("campaign_content", PList processed_campaign);
              ("generated_at", PStr (isoformat returned_at))]).

End TaskBodies.

(** *** The publisher on the argument of the publish task

    The task [publish_scheduled_content] hands its [content_id: int] to
    [publish_carousel] and [publish_video] as their [content]. The two
    methods are given here once more, for an argument that is an integer
    or a piece, with every attribute access written out. *)

Inductive content_arg : Type :=
| ContentId (content_id : Z)
| Piece (content : ContentPiece).

Definition no_attribute (name : string) : exn :=
  Exception "AttributeError" ("'int' object has no attribute '" ++ name ++ "'").

(** [content.slides], [content.caption], [content.hashtags]. *)
Definition get_slides (content : content_arg) : outcome pyval :=
  match content with
  | Piece c => Returns (slides c)
  | ContentId _ => Raises (no_attribute "slides")
  end.

Definition get_caption (content : content_arg) : outcome string :=
  match content with
  | Piece c => Returns (caption c)
  | ContentId _ => Raises (no_attribute "caption")
  end.

Definition get_hashtags (content : content_arg) : outcome (list string) :=
  match content with
  | Piece c => Returns (hashtags c)
  | ContentId _ => Raises (no_attribute "hashtags")
  end.

Module Untyped.

(** [content.slides[i] if i < len(content.slides) else ""]: the
    condition is evaluated first. *)
Definition slide_caption (content : content_arg) (i : nat) : outcome pyval :=
  and_then (get_slides content) (fun slides_for_len =>
  and_then (py_len slides_for_len) (fun n =>
  if Z.of_nat i <? n then and_then (get_slides content) (fun slides => py_item slides i)
  else Returns (PStr ""))).

(** The f-string of the caption: the caption, two line feeds, the
    hashtags joined by spaces. *)
Definition full_caption (content : content_arg) : outcome string :=
  and_then (get_caption content) (fun caption =>
  and_then (get_hashtags content) (fun hashtags =>
  Returns (caption ++ nl ++ nl ++ str_join " " hashtags))).

Section Publisher.

Variable json_loads : string -> outcome pyval.
Variable py_str : pyval -> string.
Variable isoformat : datetime -> string.
Variable access_token : string.
Variable business_account_id : string.
Variable base_url : string.
Variable rate_limit : Z.
Variable platform : list exchange -> HttpRequest -> outcome HttpResponse.
Variable clock : nat -> datetime.

Local Open Scope prog_scope.

Fixpoint create_media (content : content_arg) (i : nat) (image_urls : list string)
    (media_ids : list pyval) : prog PublisherWorld (pydict + list pyval) :=
  match image_urls with
  | [] => ret (inr media_ids)
  | image_url :: rest =>
      caption <- lift (slide_caption content i) ;;
      response <- requests_post platform (media_url business_account_id base_url)
                    (media_data access_token image_url caption) ;;
      if status_code response =? 200 then
        body <- lift (response_json json_loads response) ;;
        media_id <- lift (py_get body "id" PNone) ;;
        create_media content (S i) rest (media_ids ++ [media_id])%list
      else
        ret (inl [("error", PStr ("Media creation failed: " ++ text response))])
  end.

Definition publish_carousel (content : content_arg) (image_urls : list string)
    : prog PublisherWorld pydict :=
  try_except
    (_check_rate_limit rate_limit clock ;;;
     created <- create_media content 0 image_urls [] ;;
     match created with
     | inl early => ret early
     | inr media_ids =>
         caption <- lift (full_caption content) ;;
         let post_data :=
           [("caption", PStr caption);
            ("media_type", PStr "CAROUSEL");
            ("children", PList media_ids);
            ("access_token", PStr access_token)] in
         response <- requests_post platform (media_publish_url business_account_id base_url)
                       post_data ;;
         if status_code response =? 200 then
           post_result <- lift (response_json json_loads response) ;;
           published py_str isoformat clock post_result
         else ret [("error", PStr ("Publishing failed: " ++ text response))]
     end)
    (fun e => ret [("error", PStr (exn_str e))]).

Definition publish_video (content : content_arg) (video_url : string)
    : prog PublisherWorld pydict :=
  try_except
    (_check_rate_limit rate_limit clock ;;;
     caption <- lift (full_caption content) ;;
     let media_data :=
       [("media_type", PStr "REELS");
        ("video_url", PStr video_url);
        ("caption", PStr caption);
        ("access_token", PStr access_token)] in
     response <- requests_post platform (media_url business_account_id base_url) media_data ;;
     if status_code response =? 200 then
       body <- lift (response_json json_loads response) ;;
       media_id <- lift (py_get body "id" PNone) ;;
       let publish_data :=
         [("creation_id", media_id); ("access_token", PStr access_token)] in
       publish_response <- requests_post platform
                             (media_publish_url business_account_id base_url)
                             publish_data ;;
       if status_code publish_response =? 200 then
         post_result <- lift (response_json json_loads publish_response) ;;
         published py_str isoformat clock post_result
       else ret [("error", PStr ("Video publishing failed: " ++ text publish_response))]
     else ret [("error", PStr ("Video media creation failed: " ++ text response))])
    (fun e => ret [("error", PStr (exn_str e))]).

End Publisher.

End Untyped.

(** *** The task publish_scheduled_content *)

Section PublishTask.

Variable json_loads : string -> outcome pyval.
Variable py_str : pyval -> string.
Variable isoformat : datetime -> string.
Variable business_account_id : string.
Variable base_url : string.
Variable rate_limit : Z.
Variable platform : list exchange -> HttpRequest -> outcome HttpResponse.
Variable clock : nat -> datetime.

(** [settings.instagram_access_token]. *)
Variable instagram_access_token : option string.

Local Open Scope prog_scope.

(** [InstagramPublisher()]: the constructor refuses a missing or empty
    token, and starts the limiter's window at the time it reads. *)
Definition new_publisher : prog PublisherWorld string :=
  if py_not_str instagram_access_token
  then raise (Exception "ValueError" "Instagram access token is required")
  else
    set_request_count 0 ;;;
    now <- publisher_now clock ;;
    set_last_request_time now ;;;
    ret (match instagram_access_token with Some token => token | None => "" end).

(** [media_urls[0]]. *)
Definition first_url (media_urls : list string) : outcome string :=
  match media_urls with
  | url :: _ => Returns url
  | [] => Raises (Exception "IndexError" "list index out of range")
  end.

(** [raise Exception(result["error"])]: the message of the exception is
    the string of its argument. *)
Definition error_of (v : pyval) : exn :=
  Exception "Exception" (match v with PStr s => s | _ => py_str v end).

(** The [try] block of the task. *)
Definition publish_scheduled_content_body (content_id : content_arg) (content_type : string)
    (media_urls : list string) : prog PublisherWorld pydict :=
  access_token <- new_publisher ;;
  result <-
    (if String.eqb content_type "carousel" then
       Untyped.publish_carousel json_loads py_str isoformat access_token business_account_id
         base_url rate_limit platform clock content_id media_urls
     else if String.eqb content_type "video" then
       video_url <- lift (first_url media_urls) ;;
       Untyped.publish_video json_loads py_str isoformat access_token business_account_id
         base_url rate_limit platform clock content_id video_url
     else raise (Exception "ValueError" ("Invalid content type: " ++ content_type))) ;;
  match assoc_lookup "error" result with
  | Some message => raise (error_of message)
  | None =>
      post_id <- lift (py_item_key (PDict result) "id") ;;
      post_url <- lift (py_item_key (PDict result) "post_url") ;;
      published_at <- lift (py_item_key (PDict result) "published_at") ;;
      ret [("status", PStr "success");
           ("instagram_post_id", post_id);
           ("post_url", post_url);
           ("published_at", published_at)]
  end.

End PublishTask.

(** ** More vocabulary of the properties *)

(** [c in s] for a character. *)
Fixpoint contains_char (c : ascii) (s : string) : bool :=
  match s with
  | EmptyString => false
  | String a s' => Ascii.eqb a c || contains_char c s'
  end.

(** A hashtag as a reader expects it. *)
Definition well_formed_tag (tag : string) : Prop :=
  String.prefix "#" tag = true /\
  contains_char " " tag = false /\ contains_char "_" tag = false.

(** A state in which an operation stays. *)
Definition ended (s : op_state) : bool :=
  match s with
  | Success | Failed _ => true
  | _ => false
  end.

Definition is_running (s : op_state) : bool :=
  match s with Running _ => true | _ => false end.

(** The trace up to attempt [k] of an operation whose attempts before
    [k] all raised: each attempt and the wait that follows it. *)
Fixpoint failed_attempts (base_delay : Z) (k : nat) : list op_state :=
  match k with
  | O => []
  | S k' =>
      (failed_attempts base_delay k'
       ++ [Running (Z.of_nat k'); Retrying (2 ^ Z.of_nat k' * base_delay)])%list
  end.

(** The trace of an operation that fails on every attempt, for a base
    delay. *)
Definition failed_trace (base_delay : Z) (exc : exn) : list op_state :=
  [Pending; Running 0; Retrying base_delay; Running 1; Retrying (2 * base_delay);
   Running 2; Retrying (4 * base_delay); Running 3; Failed exc].

(** A payload from which the carousel attempt builds a piece: a dict
    whose "slides", when present and true, can be indexed by [0] (a list
    or a string). *)
Definition usable_payload (payload : pyval) : bool :=
  match payload with
  | PDict d =>
      match assoc_lookup "slides" d with
      | None => true
      | Some s =>
          negb (py_truthy s)
          || match s with
             | PList _ | PStr _ => true
             | _ => false
             end
      end
  | _ => false
  end.

Definition is_dict (v : pyval) : bool :=
  match v with PDict _ => true | _ => false end.

(** What the campaign promises of the piece made for [topic]. *)
Definition teaser_piece (topic : string) (piece : ContentPiece) : Prop :=
  theme piece = STORY_SATURDAY /\ content_type piece = CAROUSEL /\
  (hashtags piece = _generate_hashtags topic STORY_SATURDAY false \/
   piece = _generate_fallback_content STORY_SATURDAY topic (created_at piece)).

(** The clock readings [count] days of the weekly loop make, from
    [day_num] on: one for the date, one per piece. *)
Fixpoint weekly_reads (day_num count : nat) : nat :=
  match count with
  | O => 0
  | S c => (if video_day day_num then 3 else 2) + weekly_reads (S day_num) c
  end.

(** The assignments [weekly_content[key] = pieces] of a run, replayed. *)
Definition assign_all {A : Type} (assignments d : list (string * A)) : list (string * A) :=
  fold_left (fun d entry => dict_set (fst entry) (snd entry) d) assignments d.

(** The entry the weekly loop writes on day [day_num] for [theme], when
    its first clock reading of the day was [now]. *)
Definition weekly_entry (strftime_ymd : datetime -> string) (day_num : nat) (theme0 : DayTheme)
    (now : datetime) (entry : string * list ContentPiece) : Prop :=
  exists date,
    datetime_add_days now (Z.of_nat day_num) = Returns date /\
    dt_ordinal date = dt_ordinal now + Z.of_nat day_num /\
    fst entry = strftime_ymd date /\
    Forall (fun piece => theme piece = theme0) (snd entry) /\
    map content_type (snd entry)
    = (if video_day day_num then [CAROUSEL; VIDEO] else [CAROUSEL]).

(** A clock that keeps to the calendar far enough from its end for a
    week to be added. *)
Definition calendar_clock (clock : nat -> datetime) : Prop :=
  forall n, valid_datetime (clock n) /\ dt_ordinal (clock n) + 6 <= max_ordinal.

(** The two requests of [publish_video]. *)
Definition video_media_request (access_token business_account_id base_url : string)
    (content : ContentPiece) (video_url : string) : HttpRequest :=
  mk_HttpRequest "POST" (media_url business_account_id base_url)
    [("media_type", PStr "REELS");
     ("video_url", PStr video_url);
     ("caption", PStr (full_caption content));
     ("access_token", PStr access_token)].

Definition video_publish_request (access_token business_account_id base_url : string)
    (media_id : pyval) : HttpRequest :=
  mk_HttpRequest "POST" (media_publish_url business_account_id base_url)
    [("creation_id", media_id); ("access_token", PStr access_token)].

(** An answer with status 200 whose JSON body has [get], and what the
    body holds under "id". *)
Definition answer_with_id (json_loads : string -> outcome pyval)
    (answer : outcome HttpResponse) (id : pyval) : Prop :=
  exists response body,
    answer = Returns response /\ status_code response = 200 /\
    json_loads (text response) = Returns body /\
    py_get body "id" PNone = Returns id.

(** The same for the answer of an exchange. *)
Definition id_of_answer (json_loads : string -> outcome pyval) (x : exchange) (id : pyval)
    : Prop :=
  answer_with_id json_loads (snd x) id.

(** A media creation that lets the loop of [publish_carousel] go on, and
    one that ends it: the call raises, or its answer has a status other
    than 200, or the JSON body of a 200 answer cannot be read. *)
Definition media_created (json_loads : string -> outcome pyval) (x : exchange) : Prop :=
  exists id, id_of_answer json_loads x id.

Definition creation_fails (json_loads : string -> outcome pyval) (x : exchange) : Prop :=
  match snd x with
  | Raises _ => True
  | Returns response =>
      status_code response <> 200 \/
      match json_loads (text response) with
      | Raises _ => True
      | Returns body => exists e, py_get body "id" PNone = Raises e
      end
  end.

(** The world after a call that passed the limiter (leaving [w1]) and
    then sent the one request [req] from the exchanges of [w]. *)
Definition after_one_request (platform : list exchange -> HttpRequest -> outcome HttpResponse)
    (w w1 : PublisherWorld) (req : HttpRequest) : PublisherWorld :=
  mk_PublisherWorld (request_count w1) (last_request_time w1)
    (exchanges w ++ [(req, platform (exchanges w) req)])%list
    (sleeps w1) (publisher_clock_reads w1).

(** What an insights call returns for the answer to its request: the
    parsed body of an answer with status 200, whatever it is, and
    otherwise a dict with the single entry "error". *)
Definition insights_result (json_loads : string -> outcome pyval) (failure : string)
    (answer : outcome HttpResponse) : pyval :=
  match answer with
  | Returns response =>
      if status_code response =? 200 then
        match json_loads (text response) with
        | Returns body => body
        | Raises e => error_dict (exn_str e)
        end
      else error_dict (failure ++ text response)
  | Raises e => error_dict (exn_str e)
  end.

(** The entry [get_scheduled_posts] makes for a media item. *)
Definition scheduled_entry (media : list (string * pyval)) : pyval :=
  PDict [("media_id", match assoc_lookup "id" media with Some x => x | None => PNone end);
         ("media_type",
          match assoc_lookup "media_type" media with Some x => x | None => PNone end);
         ("created_time",
          match assoc_lookup "created_time" media with Some x => x | None => PNone end);
         ("status", PStr "scheduled")].

Definition has_key (key : string) (media : list (string * pyval)) : bool :=
  match assoc_lookup key media with Some _ => true | None => false end.

(** [d.get(key, default)] on the items of a dict. *)
Definition item_or {A : Type} (key : string) (default : A) (d : list (string * A)) : A :=
  match assoc_lookup key d with Some x => x | None => default end.

(** The engagement counts at which the binary64 product [count * 0.7]
    falls just below the whole number [7 * count / 10]. *)
Definition float_slips : list Z := [90; 170; 180].

Definition likes_of (count : Z) : Z :=
  7 * count / 10 - (if existsb (Z.eqb count) float_slips then 1 else 0).

(** What is checked of the split of one engagement count. *)
Definition split_ok (count : Z) : bool :=
  match int_of_float (float_of_int count * 0.7)%float,
        int_of_float (float_of_int count * 0.2)%float,
        int_of_float (float_of_int count * 0.1)%float with
  | Returns likes, Returns comments, Returns saves =>
      (likes =? likes_of count) && (comments =? count / 5) && (saves =? count / 10)
  | _, _, _ => false
  end.

(** The engagement counts the estimator can reach: from 500 * 5% to
    2000 * 12.5%. *)
Definition counts : list Z := map Z.of_nat (seq 25 226).

(** An oracle for [random.randint] that keeps to its bounds. *)
Definition within_bounds (randint : nat -> Z -> Z -> Z) : Prop :=
  forall k lo hi, lo <= hi -> lo <= randint k lo hi <= hi.

(** What [schedule_content] promises of post [i], made for [content]
    with the draws [2 * i] and [2 * i + 1]. *)
Definition scheduled_for (isoformat : datetime -> string) (randint : nat -> Z -> Z -> Z)
    (start_date : datetime) (draws : nat) (i : nat) (content : ContentPiece)
    (post : ScheduledPost) : Prop :=
  post_content post = content /\
  post_status post = "scheduled" /\
  (exists post_time,
     _calculate_optimal_time start_date (Z.of_nat i) (randint (draws + 2 * i)%nat (-15) 15)
     = Returns post_time /\
     dt_ordinal post_time = dt_ordinal start_date /\
     scheduled_time post = isoformat post_time) /\
  _estimate_engagement content (randint (draws + 2 * i + 1)%nat 500 2000)
  = Returns (estimated_engagement post).

Definition missing_key : exn := Exception "ValueError" "OpenAI API key is required".

(** The error an attempt of the publish task ends with when it is given
    an integer as content. *)
Definition publish_failure (instagram_access_token : option string) (content_type : string)
    (media_urls : list string) : exn :=
  if py_not_str instagram_access_token
  then Exception "ValueError" "Instagram access token is required"
  else if String.eqb content_type "carousel" then
    Exception "Exception"
      (exn_str (no_attribute (match media_urls with [] => "caption" | _ => "slides" end)))
  else if String.eqb content_type "video" then
    match media_urls with
    | [] => Exception "IndexError" "list index out of range"
    | _ => Exception "Exception" (exn_str (no_attribute "caption"))
    end
  else Exception "ValueError" ("Invalid content type: " ++ content_type).

(** ** More sample inputs *)

(** An operation that fails once and then succeeds. *)
Definition second_time_lucky (k : Z) : outcome string :=
  if k =? 0 then Raises (Exception "Exception" "timeout") else Returns "done".

(** A clock that stands one hour after [window_start], and a publisher
    whose counter is at a limit of 200. *)
Definition hour_later_clock (_ : nat) : datetime := mk_datetime 739560 11 0 0 0.

Definition publisher_at_limit : PublisherWorld := mk_PublisherWorld 200 window_start [] [] 0.

(** A busy hour: 200 readings spread over the first 50 minutes after
    [window_start], and the next ones on the stroke of the hour. *)
Definition busy_hour_clock (k : nat) : datetime :=
  if (k <? 200)%nat then mk_datetime 739560 10 (Z.of_nat (k / 4)) 0 0
  else mk_datetime 739560 11 0 0 0.

(** A clock that reads 10:30 and then, after a wait, 11:00; and one that
    stands at 11:30. *)
Definition half_hour_then_hour_clock (k : nat) : datetime :=
  match k with
  | O => mk_datetime 739560 10 30 0 0
  | S _ => mk_datetime 739560 11 0 0 0
  end.

Definition late_clock (_ : nat) : datetime := mk_datetime 739560 11 30 0 0.

(** A backend that answers the first prompt of a conversation and fails
    on every later one. *)
Definition first_answer_only (sent : list string) (_ : string) : outcome string :=
  match sent with
  | [] => Returns "payload"
  | _ :: _ => Raises (Exception "Exception" "API Error")
  end.

(** Two slides and three assets: an asset list longer than the slide
    list. *)
Definition two_slides : list pyval := [PStr "s1"; PStr "s2"].

Definition three_urls : list string := ["u1"; "u2"; "u3"].

(** The lowest bound a sample oracle can draw. *)
Definition lowest_draw (_ : nat) (lo _ : Z) : Z := lo.

(* ===================================================================== *)
(** * Part II. Properties                                                 *)
(* ===================================================================== *)

(** ** Dates and times *)

Lemma divmod_unique (a b q r : Z) :
  0 <= r < b -> a = b * q + r -> a / b = q /\ a mod b = r.
Proof.
  intros Hr Ha. split.
  - symmetry. apply (Z.div_unique_pos a b q r); assumption.
  - symmetry. apply (Z.mod_unique_pos a b q r); assumption.
Qed.

(** A datetime is recovered from its microsecond count. *)
Lemma of_us_split (day secs us : Z) :
  0 <= secs < 86400 -> 0 <= us < 1000000 ->
  of_us (day * us_per_day + secs * us_per_second + us)
  = mk_datetime day (secs / 3600) ((secs / 60) mod 60) (secs mod 60) us.
Proof.
  intros Hs Hu. unfold of_us, us_per_day, us_per_second.
  destruct (divmod_unique (day * (86400 * 1000000) + secs * 1000000 + us)
              (86400 * 1000000) day (secs * 1000000 + us)) as [Hq Hr]; [lia | lia |].
  rewrite Hq, Hr.
  destruct (divmod_unique (secs * 1000000 + us) 1000000 secs us) as [Hq' Hr']; [lia | lia |].
  rewrite Hq', Hr'. reflexivity.
Qed.

Lemma seconds_fields (h m s : Z) :
  0 <= h < 24 -> 0 <= m < 60 -> 0 <= s < 60 ->
  let secs := (h * 60 + m) * 60 + s in
  0 <= secs < 86400 /\ secs / 3600 = h /\ (secs / 60) mod 60 = m /\ secs mod 60 = s.
Proof.
  intros Hh Hm Hs secs. subst secs.
  destruct (divmod_unique ((h * 60 + m) * 60 + s) 60 (h * 60 + m) s) as [Hq Hr]; [lia | lia |].
  destruct (divmod_unique (h * 60 + m) 60 h m) as [_ Hr']; [lia | lia |].
  destruct (divmod_unique ((h * 60 + m) * 60 + s) 3600 h (m * 60 + s)) as [Hq' _]; [lia | lia |].
  rewrite Hq', Hq, Hr, Hr'. repeat split; lia.
Qed.

Lemma of_us_to_us (d : datetime) : valid_datetime d -> of_us (to_us d) = d.
Proof.
  intros (Ho & Hh & Hm & Hs & Hu). destruct d as [o h m s u]; simpl in *.
  unfold to_us; simpl.
  destruct (seconds_fields h m s Hh Hm Hs) as (Hb & H1 & H2 & H3).
  rewrite of_us_split by assumption. rewrite H1, H2, H3. reflexivity.
Qed.

Lemma in_range_true (lo x hi : Z) : lo <= x <= hi -> in_range lo x hi = true.
Proof. intros H. unfold in_range. apply andb_true_intro. split; apply Z.leb_le; lia. Qed.

(** Adding no minutes changes nothing. *)
Lemma datetime_add_no_minutes (d : datetime) :
  valid_datetime d -> datetime_add_minutes d 0 = Returns d.
Proof.
  intros Hv. unfold datetime_add_minutes.
  replace (to_us d + 0 * 60 * us_per_second) with (to_us d) by lia.
  rewrite of_us_to_us by assumption.
  rewrite in_range_true; [reflexivity | apply Hv].
Qed.

Arguments us_per_second : simpl never.
Arguments us_per_day : simpl never.
Arguments max_ordinal : simpl never.

(** ** Scheduler *)

Lemma as_c_int_fits (n : Z) : c_int_min <= n <= c_int_max -> as_c_int n = Returns n.
Proof.
  unfold as_c_int, c_int_min, c_int_max, c_long_min, c_long_max. intros H.
  destruct (Z.ltb_spec n (-9223372036854775808)); [lia |].
  destruct (Z.ltb_spec 9223372036854775807 n); [lia |].
  destruct (Z.ltb_spec 2147483647 n); [lia |].
  destruct (Z.ltb_spec n (-2147483648)); [lia | reflexivity].
Qed.

(** [replace] at an hour, with the other fields zero. *)
Lemma datetime_replace_hour (d : datetime) (h : Z) :
  datetime_replace d h 0 0 0
  = and_then (as_c_int h) (fun h =>
      if in_range 0 h 23 then Returns (mk_datetime (dt_ordinal d) h 0 0 0)
      else Raises (Exception "ValueError" "hour must be in 0..23")).
Proof.
  unfold datetime_replace. destruct (as_c_int h) as [h' | e]; [| reflexivity].
  cbn [and_then]. rewrite !as_c_int_fits by (unfold c_int_min, c_int_max; lia).
  cbn [and_then]. destruct (in_range 0 h' 23); reflexivity.
Qed.

Lemma datetime_replace_accepts (d : datetime) (h : Z) :
  0 <= h <= 23 -> datetime_replace d h 0 0 0 = Returns (mk_datetime (dt_ordinal d) h 0 0 0).
Proof.
  intros H. rewrite datetime_replace_hour.
  rewrite as_c_int_fits by (unfold c_int_min, c_int_max; lia).
  cbn [and_then]. rewrite in_range_true by lia. reflexivity.
Qed.

(** An hour past 23 is refused: as a value while it fits a C [int], as an
    overflow beyond. *)
Lemma datetime_replace_refuses (d : datetime) (h : Z) :
  23 < h -> datetime_replace d h 0 0 0 = Raises (refused_hour h).
Proof.
  intros H. rewrite datetime_replace_hour. unfold refused_hour.
  destruct (Z.leb_spec h c_int_max) as [Hfit | Hover].
  - rewrite as_c_int_fits by (unfold c_int_min in *; lia). cbn [and_then].
    unfold in_range. destruct (Z.leb_spec h 23); [lia |]. rewrite andb_false_r. reflexivity.
  - unfold as_c_int. destruct (Z.ltb_spec h c_long_min);
      [unfold c_long_min, c_int_max in *; lia |].
    cbn [orb]. destruct (Z.ltb_spec c_long_max h), (Z.leb_spec h c_long_max); try lia.
    + reflexivity.
    + destruct (Z.ltb_spec c_int_max h); [reflexivity | lia].
Qed.

(** At an hour [h] that [replace] accepts, with no jitter, the scheduler
    returns the start date at [h]:00:00. *)
Lemma optimal_time_at_hour (start_date : datetime) (post_index h : Z) :
  valid_datetime start_date -> 0 <= h <= 23 ->
  (if 21 <? 9 + post_index * 3 then 9 + post_index * 2 else 9 + post_index * 3) = h ->
  _calculate_optimal_time start_date post_index 0
  = Returns (mk_datetime (dt_ordinal start_date) h 0 0 0).
Proof.
  intros Hv Hh Hb. unfold _calculate_optimal_time. rewrite Hb.
  rewrite datetime_replace_accepts by lia. cbn [and_then].
  apply datetime_add_no_minutes.
  destruct Hv as (Ho & _). unfold valid_datetime; simpl. lia.
Qed.

(** C3 (as the code has it): with the jitter fixed to 0, for every batch
    start date the scheduler returns 09:00, 12:00, 15:00, 18:00 and 21:00
    for the indices 0 to 4; for index 5 the base hour 9 + 3*5 = 24 exceeds
    21, the 2-hour step is taken and the hour is 9 + 2*5 = 19, so 19:00 is
    returned on the start date. *)
Theorem calculate_optimal_time_schedule (start_date : datetime) :
  valid_datetime start_date ->
  let at_hour h := Returns (mk_datetime (dt_ordinal start_date) h 0 0 0) in
  _calculate_optimal_time start_date 0 0 = at_hour 9 /\
  _calculate_optimal_time start_date 1 0 = at_hour 12 /\
  _calculate_optimal_time start_date 2 0 = at_hour 15 /\
  _calculate_optimal_time start_date 3 0 = at_hour 18 /\
  _calculate_optimal_time start_date 4 0 = at_hour 21 /\
  (21 <? 9 + 5 * 3) = true /\
  _calculate_optimal_time start_date 5 0 = at_hour 19.
Proof.
  intros Hv at_hour. subst at_hour.
  repeat split; try (apply optimal_time_at_hour; [assumption | lia | reflexivity]).
Qed.

Lemma a_start_date_valid : valid_datetime a_start_date.
Proof. unfold valid_datetime, a_start_date, max_ordinal; simpl. lia. Qed.

Lemma calculate_optimal_time_schedule_witness :
  valid_datetime a_start_date /\
  _calculate_optimal_time a_start_date 4 0 = Returns (mk_datetime 739560 21 0 0 0) /\
  _calculate_optimal_time a_start_date 5 0 = Returns (mk_datetime 739560 19 0 0 0).
Proof.
  pose proof (calculate_optimal_time_schedule a_start_date a_start_date_valid) as H.
  simpl in H. destruct H as (_ & _ & _ & _ & H4 & _ & H5).
  split; [exact a_start_date_valid | split; assumption].
Defined.

(** C3 as the spec words it fails: at index 5 the hour is 19, not 11. *)
Lemma calculate_optimal_time_index5_not_11 :
  option_map dt_hour (returned (_calculate_optimal_time a_start_date 5 0)) = Some 19 /\
  option_map dt_hour (returned (_calculate_optimal_time a_start_date 5 0)) <> Some 11.
Proof. split; [vm_compute; reflexivity | vm_compute; discriminate]. Qed.

(** From index 8 on the recomputed hour is at least 25 and [replace]
    raises, whatever the start date and the jitter. *)
Lemma optimal_time_raises_from_8 (start_date : datetime) (post_index jitter : Z) :
  8 <= post_index ->
  _calculate_optimal_time start_date post_index jitter
  = Raises (refused_hour (9 + post_index * 2)).
Proof.
  intros Hi. unfold _calculate_optimal_time.
  assert (Hb : (21 <? 9 + post_index * 3) = true) by (apply Z.ltb_lt; lia).
  rewrite Hb. rewrite datetime_replace_refuses by lia. reflexivity.
Qed.

(** The hours the indices give fit a C [int] up to index 1073741819. *)
Lemma refused_hour_of_index (post_index : Z) :
  8 <= post_index ->
  (post_index <= 1073741819 ->
   refused_hour (9 + post_index * 2) = Exception "ValueError" "hour must be in 0..23") /\
  (1073741820 <= post_index ->
   exists message, refused_hour (9 + post_index * 2) = Exception "OverflowError" message).
Proof.
  intros Hi. unfold refused_hour, c_int_max, c_long_max. split; intros H.
  - destruct (Z.leb_spec (9 + post_index * 2) 2147483647); [reflexivity | lia].
  - destruct (Z.leb_spec (9 + post_index * 2) 2147483647); [lia |].
    destruct (9 + post_index * 2 <=? 9223372036854775807); eexists; reflexivity.
Qed.

Lemma optimal_time_value_error (start_date : datetime) (post_index jitter : Z) :
  8 <= post_index <= 1073741819 ->
  _calculate_optimal_time start_date post_index jitter
  = Raises (Exception "ValueError" "hour must be in 0..23").
Proof.
  intros Hi. rewrite optimal_time_raises_from_8 by lia.
  rewrite (proj1 (refused_hour_of_index post_index ltac:(lia))) by lia. reflexivity.
Qed.

(** At index 7 the time returned is 23:00 shifted by the jitter, on the
    start date. *)
Lemma optimal_time_index7 (start_date : datetime) (jitter : Z) :
  valid_datetime start_date -> -15 <= jitter <= 15 ->
  _calculate_optimal_time start_date 7 jitter
  = Returns (mk_datetime (dt_ordinal start_date)
               ((82800 + jitter * 60) / 3600) (((82800 + jitter * 60) / 60) mod 60) 0 0).
Proof.
  intros (Ho & _) Hj.
  change (_calculate_optimal_time start_date 7 jitter)
    with (datetime_add_minutes (mk_datetime (dt_ordinal start_date) 23 0 0 0) jitter).
  unfold datetime_add_minutes, to_us.
  cbn [dt_ordinal dt_hour dt_minute dt_second dt_microsecond].
  replace (dt_ordinal start_date * us_per_day + ((23 * 60 + 0) * 60 + 0) * us_per_second + 0
           + jitter * 60 * us_per_second)
    with (dt_ordinal start_date * us_per_day + (82800 + jitter * 60) * us_per_second + 0)
    by lia.
  rewrite of_us_split by lia.
  cbn [dt_ordinal]. rewrite in_range_true by exact Ho.
  replace ((82800 + jitter * 60) mod 60) with 0; [reflexivity |].
  symmetry. replace (82800 + jitter * 60) with ((1380 + jitter) * 60) by lia.
  apply Z.mod_mul. lia.
Qed.

(** C10 (as the code has it): the scheduler is not total over post
    indices. For every index from 8 on the recomputed hour 9 + 2*index is
    at least 25, [replace] raises and no timestamp is returned: it raises
    ValueError up to index 1073741819, and OverflowError from index
    1073741820 on, where the hour no longer fits a C int. At index 7 it
    returns 23:00 of the start date with no jitter, and a time after 21:00
    with any jitter in [-15, 15]: the 2-hour step does not keep posts
    before 9 PM. *)
Theorem calculate_optimal_time_not_total (start_date : datetime) (jitter : Z) :
  valid_datetime start_date -> -15 <= jitter <= 15 ->
  (forall post_index, 8 <= post_index ->
     25 <= 9 + post_index * 2 /\
     exists e,
       _calculate_optimal_time start_date post_index jitter = Raises e /\
       (post_index <= 1073741819 -> e = Exception "ValueError" "hour must be in 0..23") /\
       (1073741820 <= post_index -> exists message, e = Exception "OverflowError" message)) /\
  _calculate_optimal_time start_date 7 0
  = Returns (mk_datetime (dt_ordinal start_date) 23 0 0 0) /\
  exists post_time,
    _calculate_optimal_time start_date 7 jitter = Returns post_time /\
    dt_ordinal post_time = dt_ordinal start_date /\
    21 * 60 < dt_hour post_time * 60 + dt_minute post_time.
Proof.
  intros Hv Hj. split; [| split].
  - intros post_index Hi. split; [lia |].
    exists (refused_hour (9 + post_index * 2)).
    split; [apply optimal_time_raises_from_8; assumption |].
    apply refused_hour_of_index. exact Hi.
  - apply optimal_time_at_hour; [assumption | lia | reflexivity].
  - eexists. split; [apply optimal_time_index7; assumption |].
    cbn [dt_ordinal dt_hour dt_minute]. split; [reflexivity |].
    assert (22 <= (82800 + jitter * 60) / 3600) by (apply Z.div_le_lower_bound; lia).
    assert (0 <= ((82800 + jitter * 60) / 60) mod 60) by (apply Z.mod_pos_bound; lia).
    lia.
Qed.

Lemma calculate_optimal_time_not_total_witness :
  valid_datetime a_start_date /\ -15 <= -15 <= 15 /\
  _calculate_optimal_time a_start_date 8 (-15)
  = Raises (Exception "ValueError" "hour must be in 0..23") /\
  _calculate_optimal_time a_start_date 7 0 = Returns (mk_datetime 739560 23 0 0 0).
Proof.
  assert (Hj : -15 <= -15 <= 15) by lia.
  destruct (calculate_optimal_time_not_total a_start_date (-15) a_start_date_valid Hj)
    as (H8 & H7 & _).
  split; [exact a_start_date_valid | split; [exact Hj | split; [| exact H7]]].
  destruct (H8 8 ltac:(lia)) as (_ & e & Hrun & Hvalue & _).
  rewrite Hrun, Hvalue by lia. reflexivity.
Defined.

(** C10 as the claim words it fails: from index 1073741820 on the
    exception is an OverflowError, not a ValueError. *)
Lemma calculate_optimal_time_overflow_not_value_error :
  _calculate_optimal_time a_start_date 1073741819 0
  = Raises (Exception "ValueError" "hour must be in 0..23") /\
  _calculate_optimal_time a_start_date 1073741820 0
  = Raises (Exception "OverflowError" "signed integer is greater than maximum") /\
  _calculate_optimal_time a_start_date 1073741820 0
  <> Raises (Exception "ValueError" "hour must be in 0..23").
Proof. repeat split; [vm_compute; reflexivity .. | vm_compute; discriminate]. Qed.

(** ** Retry policy of the tasks *)

Section RetryPolicy.

Variable A : Type.

Lemma retry_class_is_retrying_task (base_delay : Z) (task : outcome A -> Z -> task_end A) :
  In (base_delay, task) (retry_classes A) -> task = retrying_task base_delay.
Proof.
  unfold retry_classes. simpl.
  intros [H | [H | [H | [H | []]]]]; inversion H; reflexivity.
Qed.

Lemma on_exception_retry (base_delay retries : Z) (exc : exn) :
  retries < max_retries ->
  @on_exception A base_delay retries exc = Retry (2 ^ retries * base_delay) exc.
Proof.
  intros H. unfold on_exception.
  destruct (Z.ltb_spec retries max_retries); [reflexivity | lia].
Qed.

Lemma on_exception_exhausted (base_delay retries : Z) (exc : exn) :
  max_retries <= retries -> @on_exception A base_delay retries exc = Reraised exc.
Proof.
  intros H. unfold on_exception.
  destruct (Z.ltb_spec retries max_retries); [lia | reflexivity].
Qed.

(** The trace of an operation whose every attempt raises: the number
    of retries is counted down from [max_retries]. *)
Lemma drive_always_failing (base_delay : Z) (body : Z -> outcome A) (err : Z -> exn)
    (fuel : nat) :
  (forall k, body k = Raises (err k)) ->
  (4 <= fuel)%nat ->
  drive (retrying_task base_delay) body fuel 0
  = [Running 0; Retrying (1 * base_delay);
     Running 1; Retrying (2 * base_delay);
     Running 2; Retrying (4 * base_delay);
     Running 3; Failed (err 3)].
Proof.
  intros Hb Hf.
  destruct fuel as [| [| [| [| fuel]]]]; try lia.
  simpl. unfold retrying_task. rewrite !Hb. reflexivity.
Qed.

(** C5 (as the code has it): for each of the four retrying tasks, an
    attempt that raises after fewer than 3 retries is re-scheduled after
    exactly base * 2^retries seconds (base 60 daily, 300 weekly, 600
    campaign, 300 publish), carrying the exception; after 3 retries the
    exception of that last attempt is re-raised. An operation failing on
    every attempt goes Pending, Running, then Retrying three times (each
    followed by Running), then Failed with the error of the last
    attempt. *)
Theorem retry_policy (base_delay : Z) (task : outcome A -> Z -> task_end A)
    (body : Z -> outcome A) (err : Z -> exn) (fuel : nat) :
  In (base_delay, task) (retry_classes A) ->
  (forall k, body k = Raises (err k)) ->
  (4 <= fuel)%nat ->
  (forall retries exc, 0 <= retries < 3 ->
     task (Raises exc) retries = Retry (base_delay * 2 ^ retries) exc) /\
  (forall retries exc, 3 <= retries -> task (Raises exc) retries = Reraised exc) /\
  run_operation task body fuel
  = [Pending;
     Running 0; Retrying base_delay;
     Running 1; Retrying (base_delay * 2);
     Running 2; Retrying (base_delay * 4);
     Running 3; Failed (err 3)] /\
  List.length (filter is_retrying (run_operation task body fuel)) = 3%nat.
Proof.
  intros Hin Hb Hf. apply retry_class_is_retrying_task in Hin. subst task.
  assert (Htrace : run_operation (retrying_task base_delay) body fuel
                   = [Pending; Running 0; Retrying base_delay;
                      Running 1; Retrying (base_delay * 2);
                      Running 2; Retrying (base_delay * 4);
                      Running 3; Failed (err 3)]).
  { unfold run_operation. rewrite (drive_always_failing base_delay body err fuel Hb Hf).
    rewrite Z.mul_1_l, (Z.mul_comm 2), (Z.mul_comm 4). reflexivity. }
  split; [| split; [| split]].
  - intros retries exc Hr. unfold retrying_task.
    rewrite on_exception_retry by (unfold max_retries; lia).
    f_equal. apply Z.mul_comm.
  - intros retries exc Hr. unfold retrying_task.
    apply on_exception_exhausted. unfold max_retries. lia.
  - exact Htrace.
  - rewrite Htrace. reflexivity.
Qed.

End RetryPolicy.

Lemma retry_policy_witness :
  In (60, generate_daily_content) (retry_classes unit) /\
  (forall k, always_failing k = Raises (Exception "Exception" ("attempt " ++ (if k =? 3 then "last" else "early")))) /\
  (4 <= 4)%nat /\
  run_operation generate_daily_content always_failing 4
  = [Pending; Running 0; Retrying 60; Running 1; Retrying (60 * 2);
     Running 2; Retrying (60 * 4); Running 3;
     Failed (Exception "Exception" "attempt last")].
Proof.
  assert (Hin : In (60, generate_daily_content) (retry_classes unit)) by (left; reflexivity).
  assert (Hb : forall k, always_failing k
               = Raises (Exception "Exception" ("attempt " ++ (if k =? 3 then "last" else "early"))))
    by (intros k; reflexivity).
  assert (Hf : (4 <= 4)%nat) by lia.
  destruct (retry_policy unit 60 generate_daily_content always_failing _ 4 Hin Hb Hf)
    as (_ & _ & Htrace & _).
  split; [exact Hin | split; [exact Hb | split; [exact Hf | exact Htrace]]].
Defined.

(** C5 as the spec words it fails: the operation is in Retrying three
    times, not twice. *)
Lemma always_failing_retries_three_times :
  run_operation generate_daily_content always_failing 10
  = [Pending; Running 0; Retrying 60; Running 1; Retrying 120;
     Running 2; Retrying 240; Running 3;
     Failed (Exception "Exception" "attempt last")] /\
  List.length (filter is_retrying (run_operation generate_daily_content always_failing 10))
  <> 2%nat.
Proof. split; [reflexivity | discriminate]. Qed.

(** ** Reasoning about programs *)

Lemma bind_returns_inv {W A B : Type} (m : prog W A) (k : A -> prog W B) (w w' : W) (b : B) :
  bind m k w = (Returns b, w') ->
  exists a w1, m w = (Returns a, w1) /\ k a w1 = (Returns b, w').
Proof.
  unfold bind. destruct (m w) as [[a | e] w1]; intros H.
  - exists a, w1. split; [reflexivity | exact H].
  - discriminate H.
Qed.

Lemma bind_raises_inv {W A B : Type} (m : prog W A) (k : A -> prog W B) (w w' : W) (e : exn) :
  bind m k w = (Raises e, w') ->
  m w = (Raises e, w') \/ exists a w1, m w = (Returns a, w1) /\ k a w1 = (Raises e, w').
Proof.
  unfold bind. destruct (m w) as [[a | e0] w1]; intros H.
  - right. exists a, w1. split; [reflexivity | exact H].
  - left. inversion H. reflexivity.
Qed.

Lemma bind_step {W A B : Type} (m : prog W A) (k : A -> prog W B) (w w1 : W) (a : A) :
  m w = (Returns a, w1) -> bind m k w = k a w1.
Proof. intros H. unfold bind. rewrite H. reflexivity. Qed.

Lemma bind_raise_step {W A B : Type} (m : prog W A) (k : A -> prog W B) (w w1 : W) (e : exn) :
  m w = (Raises e, w1) -> bind m k w = (Raises e, w1).
Proof. intros H. unfold bind. rewrite H. reflexivity. Qed.

Lemma lift_returns_inv {W A : Type} (r : outcome A) (w w' : W) (a : A) :
  lift r w = (Returns a, w') -> r = Returns a /\ w' = w.
Proof. unfold lift. intros H. inversion H. split; reflexivity. Qed.

Lemma ret_returns_inv {W A : Type} (x a : A) (w w' : W) :
  ret x w = (Returns a, w') -> a = x /\ w' = w.
Proof. unfold ret. intros H. inversion H. split; reflexivity. Qed.

(** Takes a hypothesis [bind m k w = (Returns b, w')] apart, step by step. *)
Ltac bind_inv H :=
  let a := fresh "a" in
  let w := fresh "w" in
  let Hm := fresh "Hstep" in
  apply bind_returns_inv in H; destruct H as (a & w & Hm & H).

(** ** Hashtags *)

Lemma theme_hashtags_total (theme : DayTheme) :
  exists tag1 tag2, theme_dict_get theme_hashtags theme [] = [tag1; tag2].
Proof. destruct theme; eexists; eexists; reflexivity. Qed.

(** The list [_generate_hashtags] builds: the base tags, the three video
    tags for a video, two theme tags, two topic tags; the cut at 25 keeps
    all of them. *)
Lemma generate_hashtags_shape (topic : string) (theme : DayTheme) (is_video : bool) :
  exists tag1 tag2,
    theme_dict_get theme_hashtags theme [] = [tag1; tag2] /\
    _generate_hashtags topic theme is_video
    = (base_hashtags ++ (if is_video then video_hashtags else [])
       ++ [tag1; tag2] ++ topic_hashtags topic)%list.
Proof.
  destruct (theme_hashtags_total theme) as (tag1 & tag2 & Ht).
  exists tag1, tag2. split; [exact Ht |].
  unfold _generate_hashtags. rewrite Ht. destruct is_video; reflexivity.
Qed.

Lemma generate_hashtags_bounds (topic : string) (theme : DayTheme) (is_video : bool) :
  (List.length (_generate_hashtags topic theme is_video) <= 25)%nat /\
  firstn 9 (_generate_hashtags topic theme is_video) = base_hashtags.
Proof.
  destruct (generate_hashtags_shape topic theme is_video) as (tag1 & tag2 & _ & Hs).
  rewrite Hs. destruct is_video; split; simpl; try reflexivity; lia.
Qed.

(** ** Content engine *)

Section EngineProperties.

Variable json_loads : string -> outcome pyval.
Variable py_str : pyval -> string.
Variable chat_completion : list string -> string -> outcome string.
Variable rng : nat -> nat.
Variable clock : nat -> datetime.

Abbreviation draw := (random_choice rng).
Abbreviation topic_of := (choose_topic rng).
Abbreviation call_backend := (_call_openai chat_completion).
Abbreviation carousel_try := (carousel_attempt json_loads py_str chat_completion clock).
Abbreviation video_try := (video_attempt json_loads py_str chat_completion clock).
Abbreviation carousel_handler := (carousel_fallback clock).
Abbreviation video_handler := (video_fallback clock).
Abbreviation gen_carousel :=
  (generate_carousel_content json_loads py_str chat_completion rng clock).
Abbreviation gen_video :=
  (generate_video_content json_loads py_str chat_completion rng clock).

(** A draw from a bank that is not empty returns one of its entries and
    sends nothing to the backend. *)
Lemma random_choice_returns (l : list string) (w : EngineWorld) :
  l <> [] ->
  exists x w', draw l w = (Returns x, w') /\ In x l /\
               prompts_sent w' = prompts_sent w.
Proof.
  intros Hl. unfold random_choice.
  assert (Hlt : (Nat.modulo (rng (draws w)) (List.length l) < List.length l)%nat).
  { apply Nat.mod_upper_bound. destruct l; [congruence | simpl; lia]. }
  apply nth_error_Some in Hlt.
  destruct (nth_error l (Nat.modulo (rng (draws w)) (List.length l))) as [x |] eqn:Hx;
    [| congruence].
  eexists. eexists. split; [reflexivity |]. split; [| reflexivity].
  eapply nth_error_In. exact Hx.
Qed.

Lemma choose_topic_returns (topic : option string) (w : EngineWorld) :
  exists t w', topic_of topic w = (Returns t, w') /\ prompts_sent w' = prompts_sent w /\
               (forall given, topic = Some given -> given <> "" -> t = given).
Proof.
  unfold choose_topic. destruct topic as [given |].
  - destruct (String.eqb_spec given "") as [He | Hne].
    + destruct (random_choice_returns trending_topics w) as (x & w' & Hx & _ & Hp);
        [discriminate |].
      exists x, w'. split; [exact Hx | split; [exact Hp |]].
      intros g Hg Hn. inversion Hg. congruence.
    + exists given, w. split; [reflexivity | split; [reflexivity |]].
      intros g Hg _. inversion Hg. reflexivity.
  - destruct (random_choice_returns trending_topics w) as (x & w' & Hx & _ & Hp);
      [discriminate |].
    exists x, w'. split; [exact Hx | split; [exact Hp |]]. intros g Hg. discriminate Hg.
Qed.

(** Both generators start with the same three draws, then run their
    attempt under their handler. *)
Lemma generator_draws (theme : DayTheme) (topic : option string) (w : EngineWorld) :
  exists topic' concept element w1,
    prompts_sent w1 = prompts_sent w /\
    In concept psychology_concepts /\ In element magical_elements /\
    (forall given, topic = Some given -> given <> "" -> topic' = given) /\
    gen_carousel theme topic w
    = try_except (carousel_try theme topic' concept element)
        (carousel_handler theme topic') w1 /\
    gen_video theme topic w
    = try_except (video_try theme topic' concept element)
        (video_handler theme topic') w1.
Proof.
  destruct (choose_topic_returns topic w) as (topic' & wa & Ht & Hpa & Hgiven).
  destruct (random_choice_returns psychology_concepts wa) as (concept & wb & Hc & Hinc & Hpb);
    [discriminate |].
  destruct (random_choice_returns magical_elements wb) as (element & w1 & He & Hine & Hp1);
    [discriminate |].
  exists topic', concept, element, w1.
  split; [congruence |]. split; [exact Hinc |]. split; [exact Hine |]. split; [exact Hgiven |].
  unfold generate_carousel_content, generate_video_content.
  split.
  - rewrite (bind_step _ _ _ _ _ Ht), (bind_step _ _ _ _ _ Hc), (bind_step _ _ _ _ _ He).
    reflexivity.
  - rewrite (bind_step _ _ _ _ _ Ht), (bind_step _ _ _ _ _ Hc), (bind_step _ _ _ _ _ He).
    reflexivity.
Qed.

Lemma call_openai_run (prompt : string) (w : EngineWorld) :
  call_backend prompt w
  = (chat_completion (prompts_sent w) prompt,
     mk_EngineWorld (prompts_sent w ++ [prompt])%list (draws w) (engine_clock_reads w)).
Proof.
  unfold _call_openai, try_except, raise.
  destruct (chat_completion (prompts_sent w) prompt); reflexivity.
Qed.

(** What a piece that comes out of the [try] block of the carousel
    generator is made of. *)
Lemma carousel_attempt_returns (theme : DayTheme) (topic concept element : string)
    (w1 w' : EngineWorld) (piece : ContentPiece) :
  carousel_try theme topic concept element w1 = (Returns piece, w') ->
  exists response content_data,
    chat_completion (prompts_sent w1) (content_prompt topic theme concept element)
    = Returns response /\
    json_loads response = Returns content_data /\
    py_get content_data "slides" (PList []) = Returns (slides piece) /\
    hashtags piece = _generate_hashtags topic theme false /\
    content_type piece = CAROUSEL.
Proof.
  unfold carousel_attempt. intros H.
  bind_inv H. rewrite call_openai_run in Hstep. inversion Hstep as [[Hchat Hw]]. clear Hstep.
  bind_inv H. apply lift_returns_inv in Hstep. destruct Hstep as [Hjson ->].
  bind_inv H. bind_inv H. bind_inv H. apply ret_returns_inv in Hstep1. destruct Hstep1 as [-> ->].
  bind_inv H. bind_inv H. apply lift_returns_inv in Hstep2. destruct Hstep2 as [Hslides ->].
  bind_inv H. bind_inv H. apply ret_returns_inv in H. destruct H as [-> ->].
  exists a, a0. simpl. repeat split; assumption.
Qed.

Lemma video_attempt_returns (theme : DayTheme) (topic concept element : string)
    (w1 w' : EngineWorld) (piece : ContentPiece) :
  video_try theme topic concept element w1 = (Returns piece, w') ->
  exists response video_data,
    chat_completion (prompts_sent w1) (video_prompt topic theme concept element)
    = Returns response /\
    json_loads response = Returns video_data /\
    py_get video_data "script_sections" (PList []) = Returns (slides piece) /\
    hashtags piece = _generate_hashtags topic theme true /\
    content_type piece = VIDEO.
Proof.
  unfold video_attempt. intros H.
  bind_inv H. rewrite call_openai_run in Hstep. inversion Hstep as [[Hchat Hw]]. clear Hstep.
  bind_inv H. apply lift_returns_inv in Hstep. destruct Hstep as [Hjson ->].
  bind_inv H. bind_inv H. apply ret_returns_inv in Hstep0. destruct Hstep0 as [-> ->].
  bind_inv H. bind_inv H. apply lift_returns_inv in Hstep1. destruct Hstep1 as [Hslides ->].
  bind_inv H. bind_inv H. bind_inv H. apply ret_returns_inv in H. destruct H as [-> ->].
  exists a, a0. simpl. repeat split; assumption.
Qed.

(** A failing backend call, a failing JSON parse and a payload without
    [get] make the attempt raise. *)
Lemma carousel_attempt_raises (theme : DayTheme) (topic concept element : string)
    (w1 : EngineWorld) (e : exn) :
  sub_step_raises json_loads chat_completion (prompts_sent w1)
    (content_prompt topic theme concept element) e ->
  exists w2, carousel_try theme topic concept element w1 = (Raises e, w2).
Proof.
  intros [Hchat | [(response & Hchat & Hjson) | (response & payload & Hchat & Hjson & Hget)]];
    unfold carousel_attempt, bind; rewrite call_openai_run, Hchat.
  - eexists. reflexivity.
  - unfold lift. rewrite Hjson. eexists. reflexivity.
  - unfold lift. rewrite Hjson. cbv beta iota.
    unfold _generate_visual_prompts, bind, lift. rewrite Hget. eexists. reflexivity.
Qed.

Lemma video_attempt_raises (theme : DayTheme) (topic concept element : string)
    (w1 : EngineWorld) (e : exn) :
  sub_step_raises json_loads chat_completion (prompts_sent w1)
    (video_prompt topic theme concept element) e ->
  exists w2, video_try theme topic concept element w1 = (Raises e, w2).
Proof.
  intros [Hchat | [(response & Hchat & Hjson) | (response & payload & Hchat & Hjson & Hget)]];
    unfold video_attempt, bind; rewrite call_openai_run, Hchat.
  - eexists. reflexivity.
  - unfold lift. rewrite Hjson. eexists. reflexivity.
  - unfold lift. rewrite Hjson. cbv beta iota.
    unfold _generate_video_caption, bind, lift. rewrite Hget. eexists. reflexivity.
Qed.

(** The handler always returns the fallback piece. *)
Lemma try_except_fallback (attempt : prog EngineWorld ContentPiece)
    (fallback : datetime -> ContentPiece) (w1 : EngineWorld) :
  let handler := fun _ : exn => bind (engine_now clock) (fun now => ret (fallback now)) in
  (exists piece w', try_except attempt handler w1 = (Returns piece, w')) /\
  (forall e w2, attempt w1 = (Raises e, w2) ->
     exists w', try_except attempt handler w1
                = (Returns (fallback (clock (engine_clock_reads w2))), w')) /\
  (forall piece w', try_except attempt handler w1 = (Returns piece, w') ->
     attempt w1 = (Returns piece, w') \/
     exists e w2, attempt w1 = (Raises e, w2) /\
                  piece = fallback (clock (engine_clock_reads w2))).
Proof.
  intros handler. unfold try_except. destruct (attempt w1) as [[piece | e] w2] eqn:Ha.
  - split; [| split].
    + exists piece, w2. reflexivity.
    + intros e w3 H. discriminate H.
    + intros p w' H. left. exact H.
  - split; [| split].
    + eexists. eexists. reflexivity.
    + intros e0 w3 H. inversion H. subst. eexists. reflexivity.
    + intros p w' H. right. exists e, w2. split; [reflexivity |].
      unfold handler, bind, engine_now, ret in H. inversion H. reflexivity.
Qed.

(** Where a generated piece comes from: the attempt, or the fallback
    after the attempt raised. *)
Lemma generated_piece_cases (theme : DayTheme) (topic : option string)
    (w w' : EngineWorld) (piece : ContentPiece) :
  gen_carousel theme topic w = (Returns piece, w') \/
  gen_video theme topic w = (Returns piece, w') ->
  exists topic' concept element w1,
    prompts_sent w1 = prompts_sent w /\
    ((exists now,
        piece = _generate_fallback_content theme topic' now \/
        piece = _generate_fallback_video theme topic' now) \/
     carousel_try theme topic' concept element w1 = (Returns piece, w') \/
     video_try theme topic' concept element w1 = (Returns piece, w')).
Proof.
  intros H.
  destruct (generator_draws theme topic w)
    as (topic' & concept & element & w1 & Hp & _ & _ & _ & Hc & Hv).
  exists topic', concept, element, w1. split; [exact Hp |].
  destruct H as [H | H].
  - rewrite Hc in H.
    destruct (try_except_fallback (carousel_try theme topic' concept element)
                (_generate_fallback_content theme topic') w1) as (_ & _ & Hcases).
    destruct (Hcases piece w' H) as [Ha | (e & w2 & _ & Hf)].
    + right. left. exact Ha.
    + left. eexists. left. exact Hf.
  - rewrite Hv in H.
    destruct (try_except_fallback (video_try theme topic' concept element)
                (_generate_fallback_video theme topic') w1) as (_ & _ & Hcases).
    destruct (Hcases piece w' H) as [Ha | (e & w2 & _ & Hf)].
    + right. right. exact Ha.
    + left. eexists. right. exact Hf.
Qed.

(** C6 (as the code has it): every piece either generator returns has
    at most 25 hashtags. A piece built from the backend's answer has the
    9 fixed base tags first, in order, then the 3 video tags when it is a
    video, then the 2 tags of its theme, then the 2 tags derived from the
    topic, so base and theme tags precede the topic tags. A fallback
    piece has 3 fixed tags of its own instead. *)
Theorem hashtags_of_generated_pieces (theme : DayTheme) (topic : option string)
    (w w' : EngineWorld) (piece : ContentPiece) :
  gen_carousel theme topic w = (Returns piece, w') \/
  gen_video theme topic w = (Returns piece, w') ->
  (List.length (hashtags piece) <= 25)%nat /\
  ((exists topic' now,
      (piece = _generate_fallback_content theme topic' now \/
       piece = _generate_fallback_video theme topic' now) /\
      List.length (hashtags piece) = 3%nat) \/
   (exists topic' tag1 tag2,
      theme_dict_get theme_hashtags theme [] = [tag1; tag2] /\
      hashtags piece
      = (base_hashtags
         ++ (if ContentType_eqb (content_type piece) VIDEO then video_hashtags else [])
         ++ [tag1; tag2] ++ topic_hashtags topic')%list /\
      firstn 9 (hashtags piece) = base_hashtags)).
Proof.
  intros H.
  destruct (generated_piece_cases theme topic w w' piece H)
    as (topic' & concept & element & w1 & _ & [(now & Hf) | [Ha | Ha]]).
  - split.
    + destruct Hf as [-> | ->]; simpl; lia.
    + left. exists topic', now. split; [exact Hf |].
      destruct Hf as [-> | ->]; reflexivity.
  - apply carousel_attempt_returns in Ha.
    destruct Ha as (_ & _ & _ & _ & _ & Htags & Hkind).
    destruct (generate_hashtags_bounds topic' theme false) as (Hlen & Hfirst).
    destruct (generate_hashtags_shape topic' theme false) as (tag1 & tag2 & Ht & Hs).
    rewrite Htags. split; [exact Hlen |].
    right. exists topic', tag1, tag2. rewrite Hkind. simpl ContentType_eqb. cbv iota.
    repeat split; assumption.
  - apply video_attempt_returns in Ha.
    destruct Ha as (_ & _ & _ & _ & _ & Htags & Hkind).
    destruct (generate_hashtags_bounds topic' theme true) as (Hlen & Hfirst).
    destruct (generate_hashtags_shape topic' theme true) as (tag1 & tag2 & Ht & Hs).
    rewrite Htags. split; [exact Hlen |].
    right. exists topic', tag1, tag2. rewrite Hkind. simpl ContentType_eqb. cbv iota.
    repeat split; assumption.
Qed.

End EngineProperties.

(** *** Concrete runs of the engine *)

(** test_generate_carousel_content_fallback and
    test_generate_video_content_fallback of tests/test_content_engine.py. *)
Example test_generate_carousel_content_fallback :
  exists carousel w',
    run_carousel one_slide_payload failing_backend = (Returns carousel, w') /\
    title carousel = PStr "Quick Tips for test topic" /\
    slide_count carousel = Some 5%nat /\
    psychology_concept carousel = "general support" /\
    magical_element carousel = "gentle encouragement".
Proof. eexists. eexists. split; [vm_compute; reflexivity |]. repeat split. Qed.

Example test_generate_video_content_fallback :
  exists video w',
    run_video one_slide_payload failing_backend = (Returns video, w') /\
    title video = PStr "Quick Video: test topic" /\
    slide_count video = Some 4%nat /\
    psychology_concept video = "general support" /\
    magical_element video = "encouraging tone".
Proof. eexists. eexists. split; [vm_compute; reflexivity |]. repeat split. Qed.

(** C8, at an answer of the backend that holds one slide and no
    "script_sections": the carousel generator returns a carousel piece
    with the one slide of the answer, not the 5 slides of its docstring,
    of its prompt and of the fallback piece; the video generator returns a
    video piece without a slide, not 4. The number of slides of an answer
    is not checked. *)
Lemma generated_slide_count_not_fixed :
  (exists piece w',
     run_carousel one_slide_payload answering_backend = (Returns piece, w') /\
     content_type piece = CAROUSEL /\
     slide_count piece = Some 1%nat /\ slide_count piece <> Some 5%nat) /\
  (exists piece w',
     run_video one_slide_payload answering_backend = (Returns piece, w') /\
     content_type piece = VIDEO /\
     slide_count piece = Some 0%nat /\ slide_count piece <> Some 4%nat).
Proof.
  split; eexists; eexists; (split; [vm_compute; reflexivity |]);
    repeat split; discriminate.
Qed.

Lemma hashtags_of_generated_pieces_witness :
  exists piece w',
    (run_carousel one_slide_payload answering_backend = (Returns piece, w') \/
     run_video one_slide_payload answering_backend = (Returns piece, w')) /\
    (List.length (hashtags piece) <= 25)%nat.
Proof.
  destruct (run_video one_slide_payload answering_backend) as [[piece | e] w'] eqn:Hrun;
    [| vm_compute in Hrun; discriminate Hrun].
  exists piece, w'. split; [right; reflexivity |].
  apply (hashtags_of_generated_pieces one_slide_payload (fun _ => "") answering_backend
           (fun _ => O) (fun _ => a_time) MAGICAL_MONDAY (Some "test topic")
           fresh_engine w' piece (or_intror Hrun)).
Defined.

(** C6 as the spec words it fails: the hashtags of a fallback piece do
    not begin with the nine base tags. *)
Lemma fallback_hashtags_not_base :
  exists piece w',
    run_carousel one_slide_payload failing_backend = (Returns piece, w') /\
    hashtags piece = ["#ParentingTips"; "#ParentingSupport"; "#YouGotThis"] /\
    firstn 9 (hashtags piece) <> base_hashtags.
Proof.
  eexists. eexists. split; [vm_compute; reflexivity |].
  split; [reflexivity | discriminate].
Qed.

(** ** Engagement estimator *)

Lemma base_engagement_flags (content : ContentPiece) :
  base_engagement content = base_engagement (flags_of content).
Proof.
  unfold flags_of, base_engagement, has_concept_bonus, has_motif_bonus,
    has_video_bonus, has_weekend_bonus.
  destruct (str_in (psychology_concept content) high_engagement_concepts),
    (str_in (magical_element content) engaging_magical_elements),
    (ContentType_eqb (content_type content) VIDEO),
    (str_in (theme_value (theme content)) ["story_saturday"; "serene_sunday"]);
    reflexivity.
Qed.

Lemma rate_bp_flags (content : ContentPiece) : rate_bp content = rate_bp (flags_of content).
Proof.
  unfold flags_of, rate_bp.
  destruct (has_concept_bonus content), (has_motif_bonus content),
    (has_video_bonus content), (has_weekend_bonus content); reflexivity.
Qed.

Lemma flags_of_listed (content : ContentPiece) : In (flags_of content) all_flag_pieces.
Proof.
  unfold flags_of.
  destruct (has_concept_bonus content), (has_motif_bonus content),
    (has_video_bonus content), (has_weekend_bonus content); simpl; tauto.
Qed.

Lemma estimate_flags (content : ContentPiece) (reach : Z) :
  _estimate_engagement content reach = _estimate_engagement (flags_of content) reach /\
  estimated_engagement_count content reach
  = estimated_engagement_count (flags_of content) reach.
Proof.
  unfold _estimate_engagement, estimated_engagement_count.
  rewrite <- (base_engagement_flags content). split; reflexivity.
Qed.

Lemma reaches_complete (reach : Z) : 500 <= reach <= 2000 -> In reach reaches.
Proof.
  intros H. unfold reaches. apply in_map_iff. exists (Z.to_nat reach).
  split; [lia |]. apply in_seq. lia.
Qed.

(** The estimates of the 16 kinds of piece at the 1501 reaches, by
    evaluation of the binary64 arithmetic. *)
Lemma estimate_table :
  forallb (fun content => forallb (estimate_ok content) reaches) all_flag_pieces = true.
Proof. vm_cast_no_check (eq_refl true). Qed.

Lemma reported_rate_table (concept motif video weekend : bool) :
  let content := flag_piece concept motif video weekend in
  round2 (base_engagement content * 100)%float
  = (float_of_int (rate_bp content) / 100)%float.
Proof. destruct concept, motif, video, weekend; vm_compute; reflexivity. Qed.

Lemma rates_ordered_table :
  forallb (fun content => forallb (rates_ordered content) all_flag_pieces) all_flag_pieces
  = true.
Proof. vm_compute. reflexivity. Qed.

Lemma estimate_ok_everywhere (content : ContentPiece) (reach : Z) :
  500 <= reach <= 2000 -> estimate_ok (flags_of content) reach = true.
Proof.
  intros Hr. pose proof estimate_table as Ht.
  rewrite forallb_forall in Ht. specialize (Ht (flags_of content) (flags_of_listed content)).
  rewrite forallb_forall in Ht. apply Ht. apply reaches_complete. exact Hr.
Qed.

(** C7: for every piece and every reach the estimator can draw, the rate
    is 5% plus 2% iff the concept is one of the 4 high-performing ones,
    plus 1.5% iff the motif is one of the 4 engaging ones, plus 3% iff the
    kind is video, plus 1% iff the theme is story_saturday or
    serene_sunday: the rate reported is that sum exactly, and of two
    pieces the one with the higher sum has the strictly higher
    [base_engagement]. The engagement count is reach times rate truncated
    to an integer, the like, comment and save counts are 70%, 20% and 10%
    of it truncated, and their sum never exceeds the engagement count. *)
Theorem estimate_engagement_spec (content other : ContentPiece) (reach : Z) :
  500 <= reach <= 2000 ->
  exists est count,
    _estimate_engagement content reach = Returns est /\
    estimated_engagement_count content reach = Returns count /\
    List.length high_engagement_concepts = 4%nat /\
    List.length engaging_magical_elements = 4%nat /\
    estimated_reach est = reach /\
    estimated_engagement_rate est = (float_of_int (rate_bp content) / 100)%float /\
    (rate_bp content < rate_bp other ->
     PrimFloat.ltb (base_engagement content) (base_engagement other) = true) /\
    count = reach * rate_bp content / 10000 /\
    int_of_float (float_of_int count * 0.7)%float = Returns (estimated_likes est) /\
    int_of_float (float_of_int count * 0.2)%float = Returns (estimated_comments est) /\
    int_of_float (float_of_int count * 0.1)%float = Returns (estimated_saves est) /\
    0 <= estimated_likes est /\ 0 <= estimated_comments est /\ 0 <= estimated_saves est /\
    estimated_likes est + estimated_comments est + estimated_saves est <= count.
Proof.
  intros Hr.
  pose proof (estimate_ok_everywhere content reach Hr) as Hok.
  destruct (estimate_flags content reach) as [He Hc].
  unfold estimate_ok in Hok. rewrite <- He, <- Hc, <- rate_bp_flags in Hok.
  destruct (_estimate_engagement content reach) as [est |] eqn:Hest; [| discriminate Hok].
  destruct (estimated_engagement_count content reach) as [count |] eqn:Hcount;
    [| discriminate Hok].
  exists est, count.
  repeat (apply andb_prop in Hok; destruct Hok as [Hok ?]).
  split; [reflexivity |]. split; [reflexivity |]. split; [reflexivity |]. split; [reflexivity |].
  split; [apply Z.eqb_eq; assumption |].
  unfold _estimate_engagement in Hest. rewrite Hcount in Hest. simpl and_then in Hest.
  destruct (int_of_float (float_of_int count * 0.7)%float) as [likes |] eqn:Hl;
    [| discriminate Hest].
  destruct (int_of_float (float_of_int count * 0.2)%float) as [comments |] eqn:Hm;
    [| discriminate Hest].
  destruct (int_of_float (float_of_int count * 0.1)%float) as [saves |] eqn:Hs;
    [| discriminate Hest].
  simpl and_then in Hest. injection Hest as Hrec. subst est.
  cbn [estimated_likes estimated_comments estimated_saves estimated_engagement_rate
       estimated_reach] in *.
  split.
  { rewrite base_engagement_flags, rate_bp_flags. apply reported_rate_table. }
  split.
  { intros Hlt. pose proof rates_ordered_table as Ht.
    rewrite forallb_forall in Ht. specialize (Ht (flags_of content) (flags_of_listed content)).
    rewrite forallb_forall in Ht. specialize (Ht (flags_of other) (flags_of_listed other)).
    unfold rates_ordered in Ht.
    rewrite <- !rate_bp_flags, <- !base_engagement_flags in Ht.
    assert (Hb : (rate_bp content <? rate_bp other) = true) by (apply Z.ltb_lt; exact Hlt).
    rewrite Hb in Ht. exact Ht. }
  split; [apply Z.eqb_eq; assumption |].
  repeat split; try reflexivity; apply Z.leb_le; assumption.
Qed.

Lemma estimate_engagement_spec_witness :
  500 <= 1000 <= 2000 /\
  exists est count,
    _estimate_engagement a_plain_piece 1000 = Returns est /\
    estimated_engagement_count a_plain_piece 1000 = Returns count /\
    count = 1000 * rate_bp a_plain_piece / 10000 /\
    (rate_bp a_plain_piece < rate_bp a_video_piece ->
     PrimFloat.ltb (base_engagement a_plain_piece) (base_engagement a_video_piece) = true) /\
    estimated_likes est + estimated_comments est + estimated_saves est <= count.
Proof.
  assert (Hr : 500 <= 1000 <= 2000) by lia.
  split; [exact Hr |].
  destruct (estimate_engagement_spec a_plain_piece a_video_piece 1000 Hr)
    as (est & count & He & Hc & _ & _ & _ & _ & Hlt & Hcount & _ & _ & _ & _ & _ & _ & Hsum).
  exists est, count. repeat split; assumption.
Defined.

(** At reach 1000: 50 engagements for a plain piece, 110 for a video with
    a high-performing concept on a weekend theme. *)
Example estimate_plain_and_video :
  _estimate_engagement a_plain_piece 1000
  = Returns (mk_EngagementEstimate 1000 5 35 10 5) /\
  _estimate_engagement a_video_piece 1000
  = Returns (mk_EngagementEstimate 1000 11 77 22 11).
Proof. split; vm_compute; reflexivity. Qed.

(** ** Rate limiter *)

Section RateLimiterProperties.

Variable rate_limit : Z.
Variable clock : nat -> datetime.

Abbreviation check := (_check_rate_limit rate_limit clock).
Abbreviation checks := (check_rate_limit_times rate_limit clock).
Abbreviation limit_check := (limit_check_and_count rate_limit clock).

(** One step of a run of the limiter: reduces the world's fields and
    decides the next comparison from the hypotheses. *)
Ltac limiter_step :=
  cbn [request_count last_request_time exchanges sleeps publisher_clock_reads];
  match goal with
  | |- context [Z.ltb ?a ?b] => destruct (Z.ltb_spec a b); try lia
  | |- context [Z.leb ?a ?b] => destruct (Z.leb_spec a b); try lia
  end.

(** Under the limit, within the window: the call counts itself and
    proceeds. *)
Lemma check_under_limit (w : PublisherWorld) :
  elapsed_us (clock (publisher_clock_reads w)) (last_request_time w) <= hour_us ->
  request_count w < rate_limit ->
  check w
  = (Returns tt,
     mk_PublisherWorld (request_count w + 1) (last_request_time w) (exchanges w)
       (sleeps w) (S (publisher_clock_reads w))).
Proof.
  intros He Hc. destruct w as [count last ex sl reads]. simpl in He, Hc.
  unfold _check_rate_limit, reset_if_window_elapsed, wait_if_at_limit, bind,
    publisher_now, get_last_request_time, get_request_count, set_request_count, ret.
  repeat limiter_step. reflexivity.
Qed.

(** At the limit, before the window ends: the call sleeps for the rest
    of the window, then starts a new window and counts itself. *)
Lemma check_at_limit (w : PublisherWorld) :
  elapsed_us (clock (publisher_clock_reads w)) (last_request_time w) < hour_us ->
  rate_limit <= request_count w ->
  check w
  = (Returns tt,
     mk_PublisherWorld 1 (clock (S (publisher_clock_reads w))) (exchanges w)
       (sleeps w
        ++ [hour_us - elapsed_us (clock (publisher_clock_reads w)) (last_request_time w)])
       (S (S (publisher_clock_reads w)))).
Proof.
  intros He Hc. destruct w as [count last ex sl reads]. simpl in He, Hc.
  unfold _check_rate_limit, reset_if_window_elapsed, wait_if_at_limit, bind,
    publisher_now, get_last_request_time, get_request_count, set_request_count,
    set_last_request_time, sleep, ret.
  repeat limiter_step. reflexivity.
Qed.

(** At the limit, exactly one hour after the window start: neither
    branch fires, and the call proceeds past the limit. *)
Lemma check_at_limit_on_the_hour (w : PublisherWorld) :
  elapsed_us (clock (publisher_clock_reads w)) (last_request_time w) = hour_us ->
  rate_limit <= request_count w ->
  check w
  = (Returns tt,
     mk_PublisherWorld (request_count w + 1) (last_request_time w) (exchanges w)
       (sleeps w) (S (publisher_clock_reads w))).
Proof.
  intros He Hc. destruct w as [count last ex sl reads]. simpl in He, Hc.
  unfold _check_rate_limit, reset_if_window_elapsed, wait_if_at_limit, bind,
    publisher_now, get_last_request_time, get_request_count, set_request_count, ret.
  repeat limiter_step. reflexivity.
Qed.

(** After more than an hour the counter and the window start are reset
    first; the limit check runs on the new window. *)
Lemma check_after_window (w : PublisherWorld) :
  hour_us < elapsed_us (clock (publisher_clock_reads w)) (last_request_time w) ->
  check w
  = limit_check (clock (publisher_clock_reads w))
      (mk_PublisherWorld 0 (clock (publisher_clock_reads w)) (exchanges w) (sleeps w)
         (S (publisher_clock_reads w))).
Proof.
  intros He. destruct w as [count last ex sl reads]. simpl in He.
  unfold limit_check_and_count, _check_rate_limit, reset_if_window_elapsed, bind,
    publisher_now, get_last_request_time, set_request_count, set_last_request_time, ret.
  repeat limiter_step. reflexivity.
Qed.

Lemma limit_check_on_new_window (now : datetime) (ex : list exchange) (sl : list Z)
    (reads : nat) :
  0 < rate_limit ->
  limit_check now (mk_PublisherWorld 0 now ex sl reads)
  = (Returns tt, mk_PublisherWorld 1 now ex sl reads).
Proof.
  intros Hl.
  unfold limit_check_and_count, wait_if_at_limit, bind, get_request_count,
    set_request_count, ret.
  repeat limiter_step. reflexivity.
Qed.

(** [n] calls that stay under the limit and within the window. *)
Lemma checks_under_limit (n : nat) :
  forall w : PublisherWorld,
    request_count w + Z.of_nat n <= rate_limit ->
    (forall k, (k < n)%nat ->
       elapsed_us (clock (publisher_clock_reads w + k)) (last_request_time w) <= hour_us) ->
    checks n w
    = (Returns tt,
       mk_PublisherWorld (request_count w + Z.of_nat n) (last_request_time w) (exchanges w)
         (sleeps w) (publisher_clock_reads w + n)).
Proof.
  induction n as [| n IH]; intros w Hc Hk.
  - destruct w as [count last ex sl reads]. simpl.
    unfold ret. rewrite Z.add_0_r, Nat.add_0_r. reflexivity.
  - cbn [check_rate_limit_times].
    assert (H0 : elapsed_us (clock (publisher_clock_reads w)) (last_request_time w)
                 <= hour_us).
    { specialize (Hk O). rewrite Nat.add_0_r in Hk. apply Hk. lia. }
    rewrite (bind_step _ _ _ _ _ (check_under_limit w H0 ltac:(lia))).
    rewrite IH; cbn [request_count last_request_time exchanges sleeps publisher_clock_reads].
    + f_equal. f_equal; lia.
    + lia.
    + intros k Hlt. specialize (Hk (S k)).
      replace (S (publisher_clock_reads w) + k)%nat with (publisher_clock_reads w + S k)%nat
        by lia.
      apply Hk. lia.
Qed.

(** C4 (as the code has it): the rate limiter as a state machine over
    the counter and the window start. (a) From a fresh window, the first
    [n <= limit] calls made within one hour of the window start all
    proceed without a sleep, and each adds 1 to the counter. (b) A call
    that finds the counter at the limit less than 3600 seconds after the
    window start does not proceed at once: it sleeps for the time that
    remains of the window, then sets the counter to 0 and the window start
    to the time read after the sleep, and counts itself. (c) A call made
    more than 3600 seconds after the window start sets the counter to 0
    and the window start to now before the limit check runs. (d) A call
    that finds the counter at the limit exactly 3600 seconds after the
    window start meets neither condition (the elapsed time is not more
    than 3600 s, the wait time is not more than 0): it proceeds at once,
    without a sleep and without a reset, and counts itself. *)
Theorem rate_limiter_state_machine (w : PublisherWorld) :
  let now := clock (publisher_clock_reads w) in
  let window_start := last_request_time w in
  (forall n : nat,
     request_count w = 0 -> Z.of_nat n <= rate_limit ->
     (forall k, (k < n)%nat ->
        elapsed_us (clock (publisher_clock_reads w + k)) window_start <= hour_us) ->
     checks n w
     = (Returns tt,
        mk_PublisherWorld (Z.of_nat n) window_start (exchanges w) (sleeps w)
          (publisher_clock_reads w + n))) /\
  (request_count w = rate_limit -> elapsed_us now window_start < hour_us ->
     0 < hour_us - elapsed_us now window_start /\
     check w
     = (Returns tt,
        mk_PublisherWorld 1 (clock (S (publisher_clock_reads w))) (exchanges w)
          (sleeps w ++ [hour_us - elapsed_us now window_start])
          (S (S (publisher_clock_reads w))))) /\
  (hour_us < elapsed_us now window_start ->
     check w
     = limit_check now
         (mk_PublisherWorld 0 now (exchanges w) (sleeps w) (S (publisher_clock_reads w))) /\
     (0 < rate_limit ->
      check w
      = (Returns tt,
         mk_PublisherWorld 1 now (exchanges w) (sleeps w) (S (publisher_clock_reads w))))) /\
  (request_count w = rate_limit -> elapsed_us now window_start = hour_us ->
     check w
     = (Returns tt,
        mk_PublisherWorld (rate_limit + 1) window_start (exchanges w) (sleeps w)
          (S (publisher_clock_reads w)))).
Proof.
  intros now window_start. subst now window_start. split; [| split; [| split]].
  - intros n Hfresh Hn Hk.
    rewrite (checks_under_limit n w); [rewrite Hfresh; reflexivity | lia | exact Hk].
  - intros Hc He. split; [lia |]. apply check_at_limit; [exact He | lia].
  - intros He. split; [apply check_after_window; exact He |].
    intros Hl. rewrite check_after_window by exact He.
    apply limit_check_on_new_window. exact Hl.
  - intros Hc He. rewrite check_at_limit_on_the_hour; [rewrite Hc; reflexivity | exact He | lia].
Qed.

End RateLimiterProperties.

Lemma rate_limiter_state_machine_witness :
  check_rate_limit_times 2 minute_clock 2 (mk_PublisherWorld 0 window_start [] [] 1)
  = (Returns tt, mk_PublisherWorld 2 window_start [] [] 3) /\
  _check_rate_limit 2 half_hour_then_hour_clock (mk_PublisherWorld 2 window_start [] [] 0)
  = (Returns tt,
     mk_PublisherWorld 1 (mk_datetime 739560 11 0 0 0) [] [1800 * us_per_second] 2) /\
  _check_rate_limit 2 late_clock (mk_PublisherWorld 2 window_start [] [] 0)
  = (Returns tt, mk_PublisherWorld 1 (mk_datetime 739560 11 30 0 0) [] [] 1) /\
  _check_rate_limit 2 hour_later_clock (mk_PublisherWorld 2 window_start [] [] 0)
  = (Returns tt, mk_PublisherWorld 3 window_start [] [] 1).
Proof.
  split; [| split; [| split]].
  - destruct (rate_limiter_state_machine 2 minute_clock
                (mk_PublisherWorld 0 window_start [] [] 1)) as (Ha & _ & _ & _).
    apply (Ha 2%nat); [reflexivity | simpl; lia |].
    intros k Hk. destruct k as [| [| k]]; [vm_compute; discriminate .. | lia].
  - destruct (rate_limiter_state_machine 2 half_hour_then_hour_clock
                (mk_PublisherWorld 2 window_start [] [] 0)) as (_ & Hb & _ & _).
    destruct Hb as (_ & Hb); [reflexivity | vm_compute; reflexivity |]. exact Hb.
  - destruct (rate_limiter_state_machine 2 late_clock
                (mk_PublisherWorld 2 window_start [] [] 0)) as (_ & _ & Hc & _).
    destruct Hc as (_ & Hc); [vm_compute; reflexivity |]. apply Hc. lia.
  - destruct (rate_limiter_state_machine 2 hour_later_clock
                (mk_PublisherWorld 2 window_start [] [] 0)) as (_ & _ & _ & Hd).
    apply Hd; [reflexivity | vm_compute; reflexivity].
Defined.

(** C4 as the claim words it fails: after 200 calls within the hour, all
    let through without a sleep, the 201st call arrives exactly 3600
    seconds after the window start. It is inside the same hour-long window
    (no reset happens), and yet it proceeds at once: nothing is slept, the
    window start is kept, and the counter passes the limit of 200. *)
Lemma call_on_the_hour_is_not_suspended :
  check_rate_limit_times 200 busy_hour_clock 200 idle_publisher
  = (Returns tt, mk_PublisherWorld 200 window_start [] [] 200) /\
  elapsed_us (busy_hour_clock 200) window_start = 3600 * us_per_second /\
  _check_rate_limit 200 busy_hour_clock (mk_PublisherWorld 200 window_start [] [] 200)
  = (Returns tt, mk_PublisherWorld 201 window_start [] [] 201).
Proof. repeat split; vm_compute; reflexivity. Qed.

(** ** Publisher *)

Lemma append_inj_l (a x y : string) : a ++ x = a ++ y -> x = y.
Proof.
  induction a as [| c a IH]; simpl; intros H; [exact H |].
  injection H as H. apply IH. exact H.
Qed.

Section PublisherProperties.

Variable json_loads : string -> outcome pyval.
Variable py_str : pyval -> string.
Variable isoformat : datetime -> string.
Variable access_token : string.
Variable business_account_id : string.
Variable base_url : string.
Variable rate_limit : Z.
Variable platform : list exchange -> HttpRequest -> outcome HttpResponse.
Variable clock : nat -> datetime.

Abbreviation the_media_url := (media_url business_account_id base_url).
Abbreviation the_publish_url := (media_publish_url business_account_id base_url).
Abbreviation post := (requests_post platform).
Abbreviation media_loop :=
  (create_media json_loads access_token business_account_id base_url platform).
Abbreviation loop_requests := (media_requests access_token business_account_id base_url).
Abbreviation expected_requests :=
  (expected_media_requests access_token business_account_id base_url).
Abbreviation the_publish_request :=
  (publish_request access_token business_account_id base_url).
Abbreviation carousel :=
  (publish_carousel json_loads py_str isoformat access_token business_account_id base_url
     rate_limit platform clock).

Lemma media_url_not_publish_url : the_media_url <> the_publish_url.
Proof.
  unfold media_url, media_publish_url. intros H.
  apply append_inj_l in H. apply append_inj_l in H. apply append_inj_l in H.
  discriminate H.
Qed.

Lemma slide_caption_of_list (content : ContentPiece) (l : list pyval) (i : nat) :
  slides content = PList l -> slide_caption content i = Returns (caption_for l i).
Proof.
  intros Hl. unfold slide_caption, caption_for. rewrite Hl. simpl.
  destruct (Z.ltb_spec (Z.of_nat i) (Z.of_nat (List.length l))) as [Hlt | Hge].
  - assert (Hi : (i < List.length l)%nat) by lia.
    apply nth_error_Some in Hi. destruct (nth_error l i); [reflexivity | congruence].
  - assert (Hi : (List.length l <= i)%nat) by lia.
    apply nth_error_None in Hi. rewrite Hi. reflexivity.
Qed.

Lemma media_requests_of_list (content : ContentPiece) (l : list pyval)
    (image_urls : list string) :
  slides content = PList l ->
  forall i, loop_requests content i image_urls = expected_requests l i image_urls.
Proof.
  intros Hl. induction image_urls as [| u rest IH]; intros i; simpl; [reflexivity |].
  rewrite (slide_caption_of_list content l i Hl), IH. reflexivity.
Qed.

Lemma post_run (url : string) (data : list (string * pyval)) (w : PublisherWorld) :
  post url data w
  = (platform (exchanges w) (mk_HttpRequest "POST" url data),
     mk_PublisherWorld (request_count w) (last_request_time w)
       (exchanges w
        ++ [(mk_HttpRequest "POST" url data,
             platform (exchanges w) (mk_HttpRequest "POST" url data))])
       (sleeps w) (publisher_clock_reads w)).
Proof. reflexivity. Qed.

(** The rate-limit check returns and sends nothing. *)
Lemma check_rate_limit_sends_nothing (w : PublisherWorld) :
  exists w1, _check_rate_limit rate_limit clock w = (Returns tt, w1) /\
             exchanges w1 = exchanges w.
Proof.
  destruct w as [count last ex sl reads].
  unfold _check_rate_limit, reset_if_window_elapsed, wait_if_at_limit, bind,
    publisher_now, get_last_request_time, get_request_count, set_request_count,
    set_last_request_time, sleep, ret.
  cbn [request_count last_request_time exchanges sleeps publisher_clock_reads].
  destruct (hour_us <? elapsed_us (clock reads) last);
    cbn [request_count last_request_time exchanges sleeps publisher_clock_reads];
    destruct (rate_limit <=? _);
    cbn [request_count last_request_time exchanges sleeps publisher_clock_reads];
    try destruct (0 <? _);
    cbn [request_count last_request_time exchanges sleeps publisher_clock_reads];
    eexists; split; reflexivity.
Qed.

(** What the loop over the asset URLs does: the exchanges it adds are
    the requests for the first URLs, in list order and one per URL; all of
    them were answered with status 200, but possibly the last one, which
    ends the loop. *)
Lemma media_loop_run (content : ContentPiece) (image_urls : list string) :
  forall (i : nat) (media_ids : list pyval) (w w' : PublisherWorld)
         (r : outcome (pydict + list pyval)),
    media_loop content i image_urls media_ids w = (r, w') ->
    exists new,
      exchanges w' = (exchanges w ++ new)%list /\
      (List.length new <= List.length image_urls)%nat /\
      map fst new = firstn (List.length new) (loop_requests content i image_urls) /\
      match r with
      | Returns (inr _) =>
          List.length new = List.length image_urls /\ Forall answered_200 new
      | Returns (inl early) =>
          exists before req response,
            new = (before ++ [(req, Returns response)])%list /\
            Forall answered_200 before /\
            status_code response <> 200 /\
            early = [("error", PStr ("Media creation failed: " ++ text response))]
      | Raises e =>
          Forall answered_200 new \/
          exists before req,
            new = (before ++ [(req, Raises e)])%list /\ Forall answered_200 before
      end.
Proof.
  induction image_urls as [| image_url rest IH]; intros i media_ids w w' r H.
  - cbn [create_media] in H. unfold ret in H. inversion H. subst.
    exists []. rewrite app_nil_r. simpl. repeat split; [lia | constructor].
  - cbn [create_media media_requests] in H |- *.
    unfold bind at 1 in H. unfold lift in H.
    destruct (slide_caption content i) as [caption | e] eqn:Hcap.
    + unfold bind at 1 in H. rewrite post_run in H.
      set (req := mk_HttpRequest "POST" the_media_url
                    (media_data access_token image_url caption)) in *.
      destruct (platform (exchanges w) req) as [response | e] eqn:Hans.
      * assert (Hone : forall x : exchange, answered_200 x -> Forall answered_200 [x])
          by (intros x Hx; constructor; [exact Hx | constructor]).
        destruct (status_code response =? 200) eqn:Hstatus.
        -- assert (Hok : answered_200 (req, Returns response)).
           { exists response. split; [reflexivity | apply Z.eqb_eq; exact Hstatus]. }
           unfold bind at 1 in H.
           destruct (response_json json_loads response) as [body | e] eqn:Hjson.
           ++ unfold bind at 1 in H.
              destruct (py_get body "id" PNone) as [media_id | e] eqn:Hid.
              ** apply IH in H. destruct H as (new & Hex & Hlen & Hreq & Hr).
                 cbn [exchanges] in Hex.
                 exists ((req, Returns response) :: new).
                 split; [rewrite Hex, <- app_assoc; reflexivity |].
                 split; [simpl; lia |].
                 split; [simpl; f_equal; exact Hreq |].
                 destruct r as [[early | ids] | e].
                 --- destruct Hr as (before & req0 & response0 & Hnew & Hf & Hs & He).
                     exists ((req, Returns response) :: before), req0, response0.
                     split; [rewrite Hnew; reflexivity |].
                     split; [constructor; assumption |]. split; assumption.
                 --- destruct Hr as (Hl & Hf). split; [simpl; lia |].
                     constructor; assumption.
                 --- destruct Hr as [Hf | (before & req0 & Hnew & Hf)].
                     +++ left. constructor; assumption.
                     +++ right. exists ((req, Returns response) :: before), req0.
                         split; [rewrite Hnew; reflexivity | constructor; assumption].
              ** inversion H. subst. exists [(req, Returns response)].
                 cbn [exchanges]. repeat split; [simpl; lia |]. left. apply Hone. exact Hok.
           ++ inversion H. subst. exists [(req, Returns response)].
              cbn [exchanges]. repeat split; [simpl; lia |]. left. apply Hone. exact Hok.
        -- unfold ret in H. inversion H. subst. exists [(req, Returns response)].
           cbn [exchanges]. repeat split; [simpl; lia |].
           exists [], req, response. repeat split; [constructor |].
           apply Z.eqb_neq. exact Hstatus.
      * inversion H. subst. exists [(req, Raises e)].
        cbn [exchanges]. repeat split; [simpl; lia |].
        right. exists [], req. split; [reflexivity | constructor].
    + inversion H. subst. exists []. rewrite app_nil_r.
      repeat split; [simpl; lia |]. left. constructor.
Qed.

Lemma media_requests_url (content : ContentPiece) (image_urls : list string) :
  forall i req, In req (loop_requests content i image_urls) -> req_url req = the_media_url.
Proof.
  induction image_urls as [| u rest IH]; intros i req Hin; simpl in Hin; [contradiction |].
  destruct (slide_caption content i); [| contradiction].
  destruct Hin as [<- | Hin]; [reflexivity | exact (IH _ _ Hin)].
Qed.

Lemma in_firstn {A : Type} (n : nat) (l : list A) (x : A) : In x (firstn n l) -> In x l.
Proof.
  intros Hin. rewrite <- (firstn_skipn n l). apply in_or_app. left. exact Hin.
Qed.

Lemma sent_by_loop_url (content : ContentPiece) (image_urls : list string) (i : nat)
    (new : list exchange) :
  map fst new = firstn (List.length new) (loop_requests content i image_urls) ->
  forall x, In x new -> req_url (fst x) = the_media_url.
Proof.
  intros Hmap x Hin.
  apply (media_requests_url content image_urls i).
  apply (in_firstn (List.length new)). rewrite <- Hmap. apply in_map. exact Hin.
Qed.

Lemma failed_not_200 (req : HttpRequest) (answer : outcome HttpResponse) :
  answer_failed answer -> ~ answered_200 (req, answer).
Proof.
  intros Hf (response & Hr & Hs). simpl in Hr. subst answer. simpl in Hf. contradiction.
Qed.

(** In a run of exchanges that were all answered 200 but possibly the
    last one, an exchange that was not is the last one. *)
Lemma failed_exchange_is_last (before earlier later : list exchange) (x y : exchange) :
  (before ++ [x] = earlier ++ y :: later)%list ->
  Forall answered_200 before -> ~ answered_200 y ->
  later = [] /\ earlier = before /\ y = x.
Proof.
  revert earlier. induction before as [| b bs IH]; intros earlier Heq Hall Hy.
  - destruct earlier as [| e es]; simpl in Heq.
    + inversion Heq. repeat split.
    + inversion Heq as [[He Hrest]]. destruct es; discriminate Hrest.
  - inversion Hall as [| ? ? Hb Hbs]. subst. destruct earlier as [| e es]; simpl in Heq.
    + inversion Heq. subst. contradiction.
    + inversion Heq as [[He Hrest]]. subst e.
      destruct (IH es Hrest Hbs Hy) as (Hl & He & Hx). subst. repeat split.
Qed.

Lemma all_200_no_failure (new earlier later : list exchange) (y : exchange) :
  new = (earlier ++ y :: later)%list -> Forall answered_200 new -> answered_200 y.
Proof.
  intros -> Hall. rewrite Forall_forall in Hall. apply Hall.
  apply in_or_app. right. left. reflexivity.
Qed.

(** [published] only reads the clock. *)
Lemma published_sends_nothing (post_result : pyval) (w w' : PublisherWorld)
    (r : outcome pydict) :
  published py_str isoformat clock post_result w = (r, w') ->
  exchanges w' = exchanges w /\
  match r with
  | Returns d => assoc_lookup "error" d = None /\ assoc_lookup "status" d = Some (PStr "published")
  | Raises _ => True
  end.
Proof.
  unfold published, bind, lift, publisher_now, ret.
  destruct (py_get post_result "id" PNone); intros H; inversion H; subst;
    split; try reflexivity; split; reflexivity.
Qed.

(** A run of [publish_carousel]: the rate-limit check, the loop, and
    then either the early return, or the handler, or the publish call. *)
Lemma carousel_run (content : ContentPiece) (image_urls : list string)
    (w w' : PublisherWorld) (r : outcome pydict) :
  carousel content image_urls w = (r, w') ->
  exists (media : list exchange) (created : outcome (pydict + list pyval)),
    (List.length media <= List.length image_urls)%nat /\
    map fst media = firstn (List.length media) (loop_requests content 0 image_urls) /\
    match created with
    | Returns (inr media_ids) =>
        List.length media = List.length image_urls /\ Forall answered_200 media /\
        exists answer,
          exchanges w'
          = (exchanges w ++ media ++ [(the_publish_request content media_ids, answer)])%list /\
          exists d, r = Returns d /\
            (assoc_lookup "error" d = None ->
             assoc_lookup "status" d = Some (PStr "published") /\
             answered_200 (the_publish_request content media_ids, answer))
    | Returns (inl early) =>
        (exists before req response,
           media = (before ++ [(req, Returns response)])%list /\
           Forall answered_200 before /\
           status_code response <> 200 /\
           early = [("error", PStr ("Media creation failed: " ++ text response))]) /\
        exchanges w' = (exchanges w ++ media)%list /\ r = Returns early
    | Raises e =>
        (Forall answered_200 media \/
         exists before req,
           media = (before ++ [(req, Raises e)])%list /\ Forall answered_200 before) /\
        exchanges w' = (exchanges w ++ media)%list /\
        r = Returns [("error", PStr (exn_str e))]
    end.
Proof.
  intros H. unfold publish_carousel, try_except in H.
  unfold bind at 1 in H.
  destruct (check_rate_limit_sends_nothing w) as (w1 & Hcheck & Hex1).
  rewrite Hcheck in H. unfold bind at 1 in H.
  destruct (media_loop content 0 image_urls [] w1) as [created w2] eqn:Hloop.
  destruct (media_loop_run content image_urls 0 [] w1 w2 created Hloop)
    as (media & Hex2 & Hlen & Hreq & Hend).
  rewrite Hex1 in Hex2.
  exists media, created. split; [exact Hlen |]. split; [exact Hreq |].
  destruct created as [[early | media_ids] | e].
  - unfold ret in H. inversion H. subst. split; [exact Hend |]. split; [exact Hex2 | reflexivity].
  - destruct Hend as (Hl & Hall). split; [exact Hl |]. split; [exact Hall |].
    unfold bind at 1 in H. rewrite post_run in H.
    fold (the_publish_request content media_ids) in H.
    exists (platform (exchanges w2) (the_publish_request content media_ids)).
    destruct (platform (exchanges w2) (the_publish_request content media_ids))
      as [response | e] eqn:Hans.
    + destruct (status_code response =? 200) eqn:Hstatus.
      * unfold bind at 1 in H. unfold lift at 1 in H.
        destruct (response_json json_loads response) as [post_result | e] eqn:Hjson.
        -- destruct (published py_str isoformat clock post_result _) as [r' w3] eqn:Hpub in H.
           apply published_sends_nothing in Hpub. destruct Hpub as (Hex3 & Hr').
           cbn [exchanges] in Hex3.
           destruct r' as [d | e]; unfold ret in H; inversion H; subst.
           ++ split; [rewrite Hex3, Hex2, <- app_assoc; reflexivity |].
              exists d. split; [reflexivity |]. intros _. split; [apply Hr' |].
              exists response. split; [reflexivity | apply Z.eqb_eq; exact Hstatus].
           ++ split; [rewrite Hex3, Hex2, <- app_assoc; reflexivity |].
              eexists. split; [reflexivity |]. intros Hno. discriminate Hno.
        -- unfold ret in H. inversion H. subst. cbn [exchanges].
           split; [rewrite Hex2, <- app_assoc; reflexivity |].
           eexists. split; [reflexivity |]. intros Hno. discriminate Hno.
      * unfold ret in H. inversion H. subst. cbn [exchanges].
        split; [rewrite Hex2, <- app_assoc; reflexivity |].
        eexists. split; [reflexivity |]. intros Hno. discriminate Hno.
    + unfold ret in H. inversion H. subst. cbn [exchanges].
      split; [rewrite Hex2, <- app_assoc; reflexivity |].
      eexists. split; [reflexivity |]. intros Hno. discriminate Hno.
  - unfold ret in H. inversion H. subst. split; [exact Hend |]. split; [exact Hex2 | reflexivity].
Qed.

(** C2: for every piece and every list of asset URLs, if during
    [publish_carousel] a media-creation call fails (the call raises, or
    the answer has a status other than 200), then the result is the
    failure [{"error": ...}] of that step ("Media creation failed: " and
    the text of the answer, or the text of the exception), the failing
    call is the last exchange of the publish, every exchange before it is
    a media creation answered with 200, and no call to media_publish is
    made: the carousel is not committed. *)
Theorem publish_carousel_aborts_on_media_failure (content : ContentPiece)
    (image_urls : list string) (w w' : PublisherWorld) (r : outcome pydict)
    (earlier later : list exchange) (req : HttpRequest) (answer : outcome HttpResponse) :
  carousel content image_urls w = (r, w') ->
  exchanges w' = (exchanges w ++ earlier ++ (req, answer) :: later)%list ->
  req_url req = the_media_url ->
  answer_failed answer ->
  r = Returns [("error", PStr (media_failure_text answer))] /\
  later = [] /\
  (forall x, In x earlier -> req_url (fst x) = the_media_url /\ answered_200 x) /\
  (forall x, In x (earlier ++ (req, answer) :: later) ->
     req_url (fst x) <> the_publish_url).
Proof.
  intros Hrun Hex Hurl Hfail.
  pose proof (failed_not_200 req answer Hfail) as Hnot.
  destruct (carousel_run content image_urls w w' r Hrun)
    as (media & created & _ & Hreq & Hend).
  pose proof (sent_by_loop_url content image_urls 0 media Hreq) as Hmedia_url.
  assert (Hfinish :
    forall before x,
      media = (before ++ [x])%list -> Forall answered_200 before ->
      exchanges w' = (exchanges w ++ media)%list ->
      later = [] /\ earlier = before /\ (req, answer) = x /\
      (forall y, In y earlier -> req_url (fst y) = the_media_url /\ answered_200 y) /\
      (forall y, In y (earlier ++ (req, answer) :: later) ->
         req_url (fst y) <> the_publish_url)).
  { intros before x Hm Hall Hex'.
    rewrite Hex' in Hex. apply app_inv_head in Hex.
    assert (Hsplit : (before ++ [x])%list = (earlier ++ (req, answer) :: later)%list)
      by congruence.
    destruct (failed_exchange_is_last before earlier later x (req, answer) Hsplit Hall Hnot)
      as (Hl & He & Hx).
    split; [exact Hl |]. split; [exact He |]. split; [exact Hx |]. split.
    - intros y Hy. split.
      + apply Hmedia_url. rewrite Hm. apply in_or_app. left. rewrite <- He. exact Hy.
      + rewrite Forall_forall in Hall. apply Hall. rewrite <- He. exact Hy.
    - intros y Hy. rewrite <- Hex in Hy. rewrite (Hmedia_url y Hy).
      apply media_url_not_publish_url. }
  destruct created as [[early | media_ids] | e].
  - destruct Hend as ((before & req0 & response & Hm & Hall & Hstatus & Hearly) & Hex' & Hr).
    destruct (Hfinish before _ Hm Hall Hex') as (Hl & _ & Hx & Hbefore & Hno).
    injection Hx as _ Ha. subst answer. simpl.
    split; [rewrite Hr, Hearly; reflexivity |].
    split; [exact Hl | split; [exact Hbefore | exact Hno]].
  - exfalso. destruct Hend as (_ & Hall & panswer & Hex' & _).
    rewrite Hex' in Hex. apply app_inv_head in Hex.
    destruct (failed_exchange_is_last media earlier later _ (req, answer) Hex Hall Hnot)
      as (_ & _ & Hx).
    inversion Hx as [[Hreq' Hans']]. rewrite Hreq' in Hurl. simpl in Hurl.
    apply media_url_not_publish_url. symmetry. exact Hurl.
  - destruct Hend as ([Hall | (before & req0 & Hm & Hall)] & Hex' & Hr).
    + exfalso. rewrite Hex' in Hex. apply app_inv_head in Hex.
      apply Hnot. exact (all_200_no_failure media earlier later _ Hex Hall).
    + destruct (Hfinish before _ Hm Hall Hex') as (Hl & _ & Hx & Hbefore & Hno).
      injection Hx as _ Ha. subst answer. simpl.
      split; [exact Hr |].
      split; [exact Hl | split; [exact Hbefore | exact Hno]].
Qed.

Lemma caption_for_slide (l : list pyval) (i : nat) :
  ((i < List.length l)%nat -> nth_error l i = Some (caption_for l i)) /\
  ((List.length l <= i)%nat -> caption_for l i = PStr "").
Proof.
  unfold caption_for. split; intros Hi.
  - apply nth_error_Some in Hi. destruct (nth_error l i); [reflexivity | congruence].
  - apply nth_error_None in Hi. rewrite Hi. reflexivity.
Qed.

(** The requests expected for a list of slides, by index. *)
Lemma expected_requests_nth (l : list pyval) (image_urls : list string) :
  forall (i k : nat) (req : HttpRequest),
    nth_error (expected_requests l i image_urls) k = Some req ->
    exists image_url,
      nth_error image_urls k = Some image_url /\
      req = mk_HttpRequest "POST" the_media_url
              (media_data access_token image_url (caption_for l (i + k))).
Proof.
  induction image_urls as [| u rest IH]; intros i k req H.
  - destruct k; discriminate H.
  - destruct k as [| k]; simpl in H.
    + injection H as <-. exists u. split; [reflexivity |]. rewrite Nat.add_0_r. reflexivity.
    + destruct (IH (S i) k req H) as (u' & Hu & Hr). exists u'. split; [exact Hu |].
      rewrite Hr. replace (S i + k)%nat with (i + S k)%nat by lia. reflexivity.
Qed.

(** The loop over the asset URLs when the slides are a list: it sends
    the expected requests in list order, one per URL, as long as the media
    are created. Either every URL got its call and every medium was
    created, and the loop ends with the media ids; or the loop ends at the
    first creation that fails, whose call is the last one sent. *)
Lemma media_loop_calls (content : ContentPiece) (l : list pyval)
    (image_urls : list string) :
  slides content = PList l ->
  forall (i : nat) (media_ids : list pyval) (w w' : PublisherWorld)
         (r : outcome (pydict + list pyval)),
    media_loop content i image_urls media_ids w = (r, w') ->
    exists new,
      exchanges w' = (exchanges w ++ new)%list /\
      (List.length new <= List.length image_urls)%nat /\
      map fst new = firstn (List.length new) (expected_requests l i image_urls) /\
      ((List.length new = List.length image_urls /\
        Forall (media_created json_loads) new /\
        exists all_ids, r = Returns (inr all_ids)) \/
       (exists before x,
          new = (before ++ [x])%list /\
          Forall (media_created json_loads) before /\
          creation_fails json_loads x /\
          forall all_ids, r <> Returns (inr all_ids))).
Proof.
  intros Hl. induction image_urls as [| image_url rest IH]; intros i media_ids w w' r H.
  - cbn [create_media] in H. unfold ret in H. inversion H. subst.
    exists []. rewrite app_nil_r. split; [reflexivity |]. split; [simpl; lia |].
    split; [reflexivity |]. left. split; [reflexivity |]. split; [constructor |].
    eexists. reflexivity.
  - cbn [create_media expected_media_requests] in H |- *.
    unfold bind at 1 in H. unfold lift in H.
    rewrite (slide_caption_of_list content l i Hl) in H.
    unfold bind at 1 in H. rewrite post_run in H.
    set (req := mk_HttpRequest "POST" the_media_url
                  (media_data access_token image_url (caption_for l i))) in *.
    assert (Hlast : forall answer : outcome HttpResponse,
               creation_fails json_loads (req, answer) ->
               (forall all_ids, r <> Returns (inr all_ids)) ->
               exchanges w' = (exchanges w ++ [(req, answer)])%list ->
               exists new,
                 exchanges w' = (exchanges w ++ new)%list /\
                 (List.length new <= S (List.length rest))%nat /\
                 map fst new
                 = firstn (List.length new) (req :: expected_requests l (S i) rest) /\
                 ((List.length new = S (List.length rest) /\
                   Forall (media_created json_loads) new /\
                   exists all_ids, r = Returns (inr all_ids)) \/
                  (exists before x,
                     new = (before ++ [x])%list /\
                     Forall (media_created json_loads) before /\
                     creation_fails json_loads x /\
                     forall all_ids, r <> Returns (inr all_ids)))).
    { intros answer Hfail Hr Hex. exists [(req, answer)].
      split; [exact Hex |]. split; [simpl; lia |]. split; [reflexivity |].
      right. exists [], (req, answer). split; [reflexivity |]. split; [constructor |].
      split; assumption. }
    destruct (platform (exchanges w) req) as [response | e] eqn:Hans.
    + destruct (status_code response =? 200) eqn:Hstatus.
      * unfold bind at 1 in H.
        destruct (response_json json_loads response) as [body | e] eqn:Hjson.
        -- unfold bind at 1 in H.
           destruct (py_get body "id" PNone) as [media_id | e] eqn:Hid.
           ++ apply IH in H. destruct H as (new & Hex & Hlen & Hreq & Hend).
              cbn [exchanges] in Hex.
              assert (Hok : media_created json_loads (req, Returns response)).
              { exists media_id, response, body. split; [reflexivity |].
                split; [apply Z.eqb_eq; exact Hstatus |]. split; [exact Hjson | exact Hid]. }
              exists ((req, Returns response) :: new).
              split; [rewrite Hex, <- app_assoc; reflexivity |].
              split; [simpl; lia |].
              split; [simpl; f_equal; exact Hreq |].
              destruct Hend as [(Hn & Hall & ids & Hr) | (before & x & Hnew & Hall & Hfail & Hr)].
              ** left. split; [simpl; lia |]. split; [constructor; assumption |].
                 exists ids. exact Hr.
              ** right. exists ((req, Returns response) :: before), x.
                 split; [rewrite Hnew; reflexivity |].
                 split; [constructor; assumption |]. split; assumption.
           ++ inversion H. subst. apply (Hlast (Returns response)).
              ** unfold creation_fails. cbn [snd]. right.
                 unfold response_json in Hjson. rewrite Hjson. exists e. exact Hid.
              ** intros ids Hr. discriminate Hr.
              ** reflexivity.
        -- inversion H. subst. apply (Hlast (Returns response)).
           ++ unfold creation_fails. cbn [snd]. right.
              unfold response_json in Hjson. rewrite Hjson. exact I.
           ++ intros ids Hr. discriminate Hr.
           ++ reflexivity.
      * unfold ret in H. inversion H. subst. apply (Hlast (Returns response)).
        -- unfold creation_fails. cbn [snd]. left. apply Z.eqb_neq. exact Hstatus.
        -- intros ids Hr. discriminate Hr.
        -- reflexivity.
    + inversion H. subst. apply (Hlast (Raises e)).
      * exact I.
      * intros ids Hr. discriminate Hr.
      * reflexivity.
Qed.

(** What [publish_carousel] does after its loop: the publish call when
    the loop ended with the media ids, and nothing otherwise; only a
    publish call can lead to a result without an error. *)
Lemma carousel_after_loop (content : ContentPiece) (image_urls : list string)
    (w w' : PublisherWorld) (r : outcome pydict) :
  carousel content image_urls w = (r, w') ->
  exists w1 created w2,
    exchanges w1 = exchanges w /\
    media_loop content 0 image_urls [] w1 = (created, w2) /\
    match created with
    | Returns (inr media_ids) =>
        exists answer,
          exchanges w' = (exchanges w2 ++ [(the_publish_request content media_ids, answer)])%list /\
          forall d, r = Returns d -> assoc_lookup "error" d = None ->
                    assoc_lookup "status" d = Some (PStr "published")
    | _ =>
        exchanges w' = exchanges w2 /\
        forall d, r = Returns d -> assoc_lookup "error" d <> None
    end.
Proof.
  intros H. unfold publish_carousel, try_except in H.
  unfold bind at 1 in H.
  destruct (check_rate_limit_sends_nothing w) as (w1 & Hcheck & Hex1).
  rewrite Hcheck in H. unfold bind at 1 in H.
  destruct (media_loop content 0 image_urls [] w1) as [created w2] eqn:Hloop.
  exists w1, created, w2. split; [exact Hex1 |]. split; [exact Hloop |].
  destruct (media_loop_run content image_urls 0 [] w1 w2 created Hloop)
    as (media & _ & _ & _ & Hend).
  destruct created as [[early | media_ids] | e].
  - unfold ret in H. inversion H. subst. split; [reflexivity |].
    destruct Hend as (before & req0 & response & _ & _ & _ & Hearly).
    intros d Hd. injection Hd as <-. rewrite Hearly. discriminate.
  - unfold bind at 1 in H. rewrite post_run in H.
    fold (the_publish_request content media_ids) in H.
    exists (platform (exchanges w2) (the_publish_request content media_ids)).
    destruct (platform (exchanges w2) (the_publish_request content media_ids))
      as [response | e] eqn:Hans.
    + destruct (status_code response =? 200) eqn:Hstatus.
      * unfold bind at 1 in H. unfold lift at 1 in H.
        destruct (response_json json_loads response) as [post_result | e] eqn:Hjson.
        -- destruct (published py_str isoformat clock post_result _) as [r' w3] eqn:Hpub in H.
           apply published_sends_nothing in Hpub. destruct Hpub as (Hex3 & Hr').
           cbn [exchanges] in Hex3.
           destruct r' as [d | e]; unfold ret in H; inversion H; subst.
           ++ split; [exact Hex3 |]. intros d' Hd _. injection Hd as <-. apply Hr'.
           ++ split; [exact Hex3 |]. intros d' Hd Hno. injection Hd as <-. discriminate Hno.
        -- unfold ret in H. inversion H. subst. cbn [exchanges].
           split; [reflexivity |]. intros d' Hd Hno. injection Hd as <-. discriminate Hno.
      * unfold ret in H. inversion H. subst. cbn [exchanges].
        split; [reflexivity |]. intros d' Hd Hno. injection Hd as <-. discriminate Hno.
    + unfold ret in H. inversion H. subst. cbn [exchanges].
      split; [reflexivity |]. intros d' Hd Hno. injection Hd as <-. discriminate Hno.
  - unfold ret in H. inversion H. subst. split; [reflexivity |].
    intros d Hd. injection Hd as <-. discriminate.
Qed.

(** C9 (as the code has it): when the slides of the piece are a list,
    the exchanges of [publish_carousel] are media-creation calls followed
    by at most one publish call. The media-creation calls are the calls
    for the first asset URLs, in list order and one per URL: call [i] is a
    POST to the media URL for asset URL [i], and its caption is slide [i]
    when [i] is below the number of slides and the empty string when it is
    not, that is for the assets beyond the last slide. Either every URL
    got its call and every medium was created, and then the publish call
    is made; or the calls stop with the first creation that fails (the
    call raises, the status is not 200, or the body of the answer cannot
    be read), which is the last call made, and no publish call follows.
    The publish call goes to another URL than the media calls, and a
    result without an error comes from a publish call. *)
Theorem publish_carousel_media_calls (content : ContentPiece) (l : list pyval)
    (image_urls : list string) (w w' : PublisherWorld) (r : outcome pydict) :
  slides content = PList l ->
  carousel content image_urls w = (r, w') ->
  exists (media publishing : list exchange),
    exchanges w' = (exchanges w ++ media ++ publishing)%list /\
    (List.length media <= List.length image_urls)%nat /\
    map fst media = firstn (List.length media) (expected_requests l 0 image_urls) /\
    (forall i x, nth_error media i = Some x ->
       req_method (fst x) = "POST" /\
       req_url (fst x) = the_media_url /\
       assoc_lookup "image_url" (req_data (fst x)) = option_map PStr (nth_error image_urls i) /\
       ((i < List.length l)%nat ->
        assoc_lookup "caption" (req_data (fst x)) = nth_error l i) /\
       ((List.length l <= i)%nat ->
        assoc_lookup "caption" (req_data (fst x)) = Some (PStr ""))) /\
    (forall x, In x publishing ->
       req_url (fst x) = the_publish_url /\ req_url (fst x) <> the_media_url) /\
    ((List.length media = List.length image_urls /\
      Forall (media_created json_loads) media /\
      exists media_ids answer,
        publishing = [(the_publish_request content media_ids, answer)]) \/
     (exists before x,
        media = (before ++ [x])%list /\
        Forall (media_created json_loads) before /\
        creation_fails json_loads x /\
        publishing = [])) /\
    (forall d, r = Returns d -> assoc_lookup "error" d = None ->
       publishing <> [] /\ assoc_lookup "status" d = Some (PStr "published")).
Proof.
  intros Hl Hrun.
  destruct (carousel_after_loop content image_urls w w' r Hrun)
    as (w1 & created & w2 & Hex1 & Hloop & Hafter).
  destruct (media_loop_calls content l image_urls Hl 0 [] w1 w2 created Hloop)
    as (media & Hex2 & Hlen & Hreq & Hend).
  rewrite Hex1 in Hex2.
  assert (Hcalls :
    forall i x, nth_error media i = Some x ->
      req_method (fst x) = "POST" /\
      req_url (fst x) = the_media_url /\
      assoc_lookup "image_url" (req_data (fst x)) = option_map PStr (nth_error image_urls i) /\
      ((i < List.length l)%nat ->
       assoc_lookup "caption" (req_data (fst x)) = nth_error l i) /\
      ((List.length l <= i)%nat ->
       assoc_lookup "caption" (req_data (fst x)) = Some (PStr ""))).
  { intros i x Hx.
    assert (Hi : (i < List.length media)%nat) by (apply nth_error_Some; congruence).
    pose proof (map_nth_error fst i media Hx) as Hfst.
    rewrite Hreq, nth_error_firstn in Hfst.
    destruct (Nat.ltb_spec i (List.length media)) as [_ | Hge]; [| lia].
    destruct (expected_requests_nth l image_urls 0 i (fst x) Hfst) as (u & Hu & Hr).
    rewrite Hr, Hu. cbn [req_method req_url req_data Nat.add option_map].
    split; [reflexivity |]. split; [reflexivity |]. split; [reflexivity |].
    destruct (caption_for_slide l i) as (Hin & Hout).
    split; intros Hb.
    - rewrite (Hin Hb). reflexivity.
    - simpl. rewrite (Hout Hb). reflexivity. }
  destruct Hend as [(Hn & Hall & ids & Hr) | (before & x & Hnew & Hall & Hfail & Hr)].
  - subst created. destruct Hafter as (answer & Hex & Hstatus).
    exists media, [(the_publish_request content ids, answer)].
    split; [rewrite Hex, Hex2, <- app_assoc; reflexivity |].
    split; [exact Hlen |]. split; [exact Hreq |]. split; [exact Hcalls |].
    split.
    { intros x0 [<- | []]. split; [reflexivity |].
      intros Hsame. apply media_url_not_publish_url. symmetry. exact Hsame. }
    split.
    + left. split; [exact Hn |]. split; [exact Hall |]. exists ids, answer. reflexivity.
    + intros d Hd Hno. split; [discriminate | exact (Hstatus d Hd Hno)].
  - assert (Hrest : exchanges w' = exchanges w2 /\
                    forall d, r = Returns d -> assoc_lookup "error" d <> None).
    { destruct created as [[early | media_ids] | e]; [exact Hafter | | exact Hafter].
      exfalso. exact (Hr media_ids eq_refl). }
    destruct Hrest as (Hex & Herr).
    exists media, []. rewrite app_nil_r.
    split; [rewrite Hex, Hex2; reflexivity |].
    split; [exact Hlen |]. split; [exact Hreq |]. split; [exact Hcalls |].
    split; [intros x0 [] |].
    split.
    + right. exists before, x. split; [exact Hnew |]. split; [exact Hall |].
      split; [exact Hfail | reflexivity].
    + intros d Hd Hno. exfalso. exact (Herr d Hd Hno).
Qed.

End PublisherProperties.

(** *** Concrete runs of the publisher *)

(** Five assets, the third media creation refused: the publish ends with
    the failure of that step after three calls, none to media_publish. *)
Lemma publish_carousel_aborts_on_media_failure_witness :
  fst (run_publish (platform_refusing 2) five_slides five_urls)
  = Returns [("error", PStr "Media creation failed: bad image")] /\
  List.length (exchanges (snd (run_publish (platform_refusing 2) five_slides five_urls)))
  = 3%nat /\
  forall x, In x (exchanges (snd (run_publish (platform_refusing 2) five_slides five_urls))) ->
            req_url (fst x) <> media_publish_url "acct" graph_url.
Proof.
  set (run := run_publish (platform_refusing 2) five_slides five_urls).
  set (req := mk_HttpRequest "POST" (media_url "acct" graph_url)
                (media_data "token" "u3" (PStr "s3"))).
  set (answer := Returns (mk_HttpResponse 400 "bad image")).
  assert (Hrun : publish_carousel id_payload str_of an_isoformat "token" "acct" graph_url 200
                   (platform_refusing 2) minute_clock (piece_with_slides five_slides)
                   five_urls idle_publisher = (fst run, snd run))
    by apply surjective_pairing.
  assert (Hex : exchanges (snd run)
                = (exchanges idle_publisher
                   ++ firstn 2 (exchanges (snd run)) ++ (req, answer) :: [])%list)
    by (vm_compute; reflexivity).
  assert (Hurl : req_url req = media_url "acct" graph_url) by reflexivity.
  assert (Hfail : answer_failed answer) by (simpl; discriminate).
  destruct (publish_carousel_aborts_on_media_failure id_payload str_of an_isoformat
              "token" "acct" graph_url 200 (platform_refusing 2) minute_clock
              (piece_with_slides five_slides) five_urls idle_publisher (snd run) (fst run)
              (firstn 2 (exchanges (snd run))) [] req answer Hrun Hex Hurl Hfail)
    as (Hr & _ & _ & Hno).
  split; [exact Hr |]. split; [vm_compute; reflexivity |].
  intros x Hx. apply Hno. rewrite Hex in Hx. exact Hx.
Defined.

(** Three assets for a piece of two slides, every creation accepted:
    three media calls with the captions "s1", "s2" and the empty string,
    then the publish call. Five assets for five slides, the third creation
    refused: three calls, the last one the failed creation, and no publish
    call. *)
Lemma publish_carousel_media_calls_witness :
  slides (piece_with_slides two_slides) = PList two_slides /\
  (exists media publishing,
     exchanges (snd (run_publish accepting_platform two_slides three_urls))
     = (media ++ publishing)%list /\
     map (fun x : exchange => assoc_lookup "image_url" (req_data (fst x))) media
     = [Some (PStr "u1"); Some (PStr "u2"); Some (PStr "u3")] /\
     map (fun x : exchange => assoc_lookup "caption" (req_data (fst x))) media
     = [Some (PStr "s1"); Some (PStr "s2"); Some (PStr "")] /\
     List.length publishing = 1%nat) /\
  (exists before x,
     exchanges (snd (run_publish (platform_refusing 2) five_slides five_urls))
     = (before ++ [x])%list /\
     List.length before = 2%nat /\
     Forall (media_created id_payload) before /\
     creation_fails id_payload x).
Proof.
  split; [reflexivity |]. split.
  - set (run := run_publish accepting_platform two_slides three_urls).
    assert (Hrun : publish_carousel id_payload str_of an_isoformat "token" "acct" graph_url 200
                     accepting_platform minute_clock (piece_with_slides two_slides)
                     three_urls idle_publisher = (fst run, snd run))
      by apply surjective_pairing.
    destruct (publish_carousel_media_calls id_payload str_of an_isoformat
                "token" "acct" graph_url 200 accepting_platform minute_clock
                (piece_with_slides two_slides) two_slides three_urls idle_publisher
                (snd run) (fst run) eq_refl Hrun)
      as (media & publishing & Hex & Hlen & Hreq & _ & _ & Hcases & _).
    change (exchanges idle_publisher ++ media ++ publishing)%list
      with (media ++ publishing)%list in Hex.
    destruct Hcases as [(Hn & _ & ids & answer & Hp) | (before & x & _ & _ & _ & Hp)].
    + exists media, publishing. split; [exact Hex |].
      rewrite Hn in Hreq.
      assert (Hfield : forall key,
                 map (fun x : exchange => assoc_lookup key (req_data (fst x))) media
                 = map (fun req => assoc_lookup key (req_data req)) (map fst media))
        by (intros key; rewrite map_map; reflexivity).
      rewrite !Hfield, Hreq, Hp. repeat split.
    + exfalso. rewrite Hp, app_nil_r in Hex.
      assert (Hfour : List.length media = 4%nat) by (rewrite <- Hex; vm_compute; reflexivity).
      simpl in Hlen. lia.
  - set (run := run_publish (platform_refusing 2) five_slides five_urls).
    assert (Hrun : publish_carousel id_payload str_of an_isoformat "token" "acct" graph_url 200
                     (platform_refusing 2) minute_clock (piece_with_slides five_slides)
                     five_urls idle_publisher = (fst run, snd run))
      by apply surjective_pairing.
    destruct (publish_carousel_media_calls id_payload str_of an_isoformat
                "token" "acct" graph_url 200 (platform_refusing 2) minute_clock
                (piece_with_slides five_slides) five_slides five_urls idle_publisher
                (snd run) (fst run) eq_refl Hrun)
      as (media & publishing & Hex & _ & _ & _ & _ & Hcases & _).
    change (exchanges idle_publisher ++ media ++ publishing)%list
      with (media ++ publishing)%list in Hex.
    assert (Hthree : List.length (exchanges (snd run)) = 3%nat) by (vm_compute; reflexivity).
    destruct Hcases as [(Hn & _ & ids & answer & Hp) | (before & x & Hm & Hall & Hfail & Hp)].
    + exfalso. rewrite Hex, Hp, length_app, Hn in Hthree. simpl in Hthree. lia.
    + exists before, x. rewrite Hp, app_nil_r in Hex. rewrite Hex, Hm.
      split; [reflexivity |].
      rewrite Hex, Hm, length_app in Hthree. simpl in Hthree.
      split; [lia |]. split; assumption.
Defined.

(** The publish that the witness describes, evaluated: five media
    creations, then the publish call, and a result without an error. *)
Example publish_five_assets :
  captions_sent_to (media_url "acct" graph_url)
    (snd (run_publish accepting_platform five_slides five_urls))
  = map Some five_slides /\
  List.length (exchanges (snd (run_publish accepting_platform five_slides five_urls)))
  = 6%nat /\
  option_map (assoc_lookup "status")
    (returned (fst (run_publish accepting_platform five_slides five_urls)))
  = Some (Some (PStr "published")).
Proof. repeat split; vm_compute; reflexivity. Qed.

(** C9 as the spec words it fails. With one asset and two slides the
    asset list is shorter than the slide list, and the caption sent is the
    first slide, not the empty string. With two assets and one slide the
    asset list is not shorter, and the second caption is the empty string.
    With two assets and the first creation refused, the second asset gets
    no media-creation call. *)
Lemma empty_caption_not_for_shorter_asset_list :
  (List.length ["u1"] < List.length [PStr "s1"; PStr "s2"])%nat /\
  captions_sent_to (media_url "acct" graph_url)
    (snd (run_publish accepting_platform [PStr "s1"; PStr "s2"] ["u1"]))
  = [Some (PStr "s1")] /\
  ~ (List.length ["u1"; "u2"] < List.length [PStr "s1"])%nat /\
  captions_sent_to (media_url "acct" graph_url)
    (snd (run_publish accepting_platform [PStr "s1"] ["u1"; "u2"]))
  = [Some (PStr "s1"); Some (PStr "")] /\
  captions_sent_to (media_url "acct" graph_url)
    (snd (run_publish (platform_refusing 0) [PStr "s1"; PStr "s2"] ["u1"; "u2"]))
  = [Some (PStr "s1")].
Proof.
  split; [simpl; lia |]. split; [vm_compute; reflexivity |].
  split; [simpl; lia |]. split; vm_compute; reflexivity.
Qed.

(** ** More on the rate limiter *)

Section RateLimiterCalls.

Variable rate_limit : Z.
Variable clock : nat -> datetime.

(** X1: One call of the rate limiter never raises and sends nothing; it
    reads the clock once, or twice when it sleeps; it sleeps at most once,
    for a positive time that is at most one hour when the clock is not
    behind the window start; and it leaves the counter one higher, or at 1
    after a reset. *)
Theorem check_rate_limit_summary (w : PublisherWorld) :
  let now := clock (publisher_clock_reads w) in
  exists w',
    _check_rate_limit rate_limit clock w = (Returns tt, w') /\
    exchanges w' = exchanges w /\
    (request_count w' = request_count w + 1 \/ request_count w' = 1) /\
    ((sleeps w' = sleeps w /\ publisher_clock_reads w' = S (publisher_clock_reads w)) \/
     exists d,
       sleeps w' = (sleeps w ++ [d])%list /\
       publisher_clock_reads w' = S (S (publisher_clock_reads w)) /\
       request_count w' = 1 /\
       last_request_time w' = clock (S (publisher_clock_reads w)) /\
       0 < d /\
       (0 <= elapsed_us now (last_request_time w) -> d <= hour_us)).
Proof.
  intros now. subst now. destruct w as [count last ex sl reads].
  unfold _check_rate_limit, reset_if_window_elapsed, wait_if_at_limit, bind,
    publisher_now, get_last_request_time, get_request_count, set_request_count,
    set_last_request_time, sleep, ret.
  cbn [request_count last_request_time exchanges sleeps publisher_clock_reads].
  destruct (Z.ltb_spec hour_us (elapsed_us (clock reads) last)) as [Hover | Hin];
    cbn [request_count last_request_time exchanges sleeps publisher_clock_reads].
  - destruct (Z.leb_spec rate_limit 0) as [Hlim | Hlim];
      cbn [request_count last_request_time exchanges sleeps publisher_clock_reads].
    + assert (Hself : elapsed_us (clock reads) (clock reads) = 0)
        by (unfold elapsed_us; lia).
      rewrite Hself.
      destruct (Z.ltb_spec 0 (hour_us - 0)) as [Hpos | Hneg];
        cbn [request_count last_request_time exchanges sleeps publisher_clock_reads].
      * eexists. split; [reflexivity |]. split; [reflexivity |].
        split; [right; reflexivity |]. right. eexists.
        split; [reflexivity |]. split; [reflexivity |]. split; [reflexivity |].
        split; [reflexivity |]. split; [exact Hpos | intros _; lia].
      * exfalso. unfold hour_us, us_per_second in Hneg. lia.
    + eexists. split; [reflexivity |]. split; [reflexivity |].
      split; [right; reflexivity |]. left. split; reflexivity.
  - destruct (Z.leb_spec rate_limit count) as [Hlim | Hlim];
      cbn [request_count last_request_time exchanges sleeps publisher_clock_reads].
    + destruct (Z.ltb_spec 0 (hour_us - elapsed_us (clock reads) last)) as [Hpos | Hneg];
        cbn [request_count last_request_time exchanges sleeps publisher_clock_reads].
      * eexists. split; [reflexivity |]. split; [reflexivity |].
        split; [right; reflexivity |]. right. eexists.
        split; [reflexivity |]. split; [reflexivity |]. split; [reflexivity |].
        split; [reflexivity |]. split; [exact Hpos | intros He; lia].
      * eexists. split; [reflexivity |]. split; [reflexivity |].
        split; [left; reflexivity |]. left. split; reflexivity.
    + eexists. split; [reflexivity |]. split; [reflexivity |].
      split; [left; reflexivity |]. left. split; reflexivity.
Qed.

(** X2: At the limit exactly one hour after the window start the call
    neither resets (the elapsed time is not more than an hour) nor sleeps
    (no time remains): it proceeds at once and the counter passes the
    limit, and so does every further call read at the same instant. *)
Theorem limit_passed_on_the_hour (w : PublisherWorld) (n : nat) :
  (forall k, (k < n)%nat ->
     elapsed_us (clock (publisher_clock_reads w + k)) (last_request_time w) = hour_us) ->
  rate_limit <= request_count w ->
  check_rate_limit_times rate_limit clock n w
  = (Returns tt,
     mk_PublisherWorld (request_count w + Z.of_nat n) (last_request_time w) (exchanges w)
       (sleeps w) (publisher_clock_reads w + n)).
Proof.
  revert w. induction n as [| n IH]; intros w Hk Hc.
  - destruct w as [count last ex sl reads]. simpl. unfold ret.
    rewrite Z.add_0_r, Nat.add_0_r. reflexivity.
  - cbn [check_rate_limit_times].
    assert (H0 : elapsed_us (clock (publisher_clock_reads w)) (last_request_time w) = hour_us).
    { specialize (Hk O). rewrite Nat.add_0_r in Hk. apply Hk. lia. }
    rewrite (bind_step _ _ _ _ _ (check_at_limit_on_the_hour rate_limit clock w H0 Hc)).
    rewrite IH; cbn [request_count last_request_time exchanges sleeps publisher_clock_reads].
    + f_equal. f_equal; lia.
    + intros k Hlt. specialize (Hk (S k)).
      replace (S (publisher_clock_reads w) + k)%nat with (publisher_clock_reads w + S k)%nat
        by lia.
      apply Hk. lia.
    + lia.
Qed.

(** X3: With a limit of zero or less every call made at another time than
    exactly one hour after the window start sleeps: for what remains of
    the window, or for a full hour when the window had elapsed. *)
Theorem nonpositive_limit_always_sleeps (w : PublisherWorld) :
  let now := clock (publisher_clock_reads w) in
  rate_limit <= 0 -> 0 <= request_count w ->
  elapsed_us now (last_request_time w) <> hour_us ->
  exists d,
    _check_rate_limit rate_limit clock w
    = (Returns tt,
       mk_PublisherWorld 1 (clock (S (publisher_clock_reads w))) (exchanges w)
         (sleeps w ++ [d]) (S (S (publisher_clock_reads w)))) /\
    d = (if hour_us <? elapsed_us now (last_request_time w) then hour_us
         else hour_us - elapsed_us now (last_request_time w)) /\
    0 < d.
Proof.
  intros now Hl Hc Hne. subst now.
  destruct (Z.ltb_spec hour_us (elapsed_us (clock (publisher_clock_reads w))
                                  (last_request_time w))) as [Hover | Hin].
  - exists hour_us. split; [| split; [reflexivity | unfold hour_us, us_per_second; lia]].
    rewrite check_after_window by exact Hover.
    unfold limit_check_and_count, wait_if_at_limit, bind, get_request_count,
      get_last_request_time, set_request_count, set_last_request_time, sleep,
      publisher_now, ret.
    cbn [request_count last_request_time exchanges sleeps publisher_clock_reads].
    destruct (Z.leb_spec rate_limit 0); [| lia].
    assert (Hself : forall t, elapsed_us t t = 0) by (intros t; unfold elapsed_us; lia).
    rewrite Hself. rewrite Z.sub_0_r.
    destruct (Z.ltb_spec 0 hour_us) as [_ | Hneg];
      [reflexivity | unfold hour_us, us_per_second in Hneg; lia].
  - eexists. split; [apply check_at_limit; lia |]. split; [reflexivity | lia].
Qed.

End RateLimiterCalls.

Lemma limit_passed_on_the_hour_witness :
  (forall k, (k < 3)%nat ->
     elapsed_us (hour_later_clock (publisher_clock_reads publisher_at_limit + k))
       (last_request_time publisher_at_limit) = hour_us) /\
  200 <= request_count publisher_at_limit /\
  check_rate_limit_times 200 hour_later_clock 3 publisher_at_limit
  = (Returns tt, mk_PublisherWorld 203 window_start [] [] 3).
Proof.
  assert (Hk : forall k, (k < 3)%nat ->
            elapsed_us (hour_later_clock (publisher_clock_reads publisher_at_limit + k))
              (last_request_time publisher_at_limit) = hour_us)
    by (intros k _; reflexivity).
  assert (Hc : 200 <= request_count publisher_at_limit) by (simpl; lia).
  split; [exact Hk | split; [exact Hc |]].
  rewrite (limit_passed_on_the_hour 200 hour_later_clock publisher_at_limit 3 Hk Hc).
  reflexivity.
Defined.

Lemma nonpositive_limit_always_sleeps_witness :
  0 <= 0 /\ 0 <= request_count idle_publisher /\
  elapsed_us (minute_clock (publisher_clock_reads idle_publisher))
    (last_request_time idle_publisher) <> hour_us /\
  _check_rate_limit 0 minute_clock idle_publisher
  = (Returns tt, mk_PublisherWorld 1 (minute_clock 1) [] [hour_us] 2).
Proof.
  assert (Hl : 0 <= 0) by lia.
  assert (Hc : 0 <= request_count idle_publisher) by (simpl; lia).
  assert (Hne : elapsed_us (minute_clock (publisher_clock_reads idle_publisher))
                  (last_request_time idle_publisher) <> hour_us)
    by (vm_compute; discriminate).
  split; [exact Hl | split; [exact Hc | split; [exact Hne |]]].
  destruct (nonpositive_limit_always_sleeps 0 minute_clock idle_publisher Hl Hc Hne)
    as (d & Hrun & Hd & _).
  rewrite Hrun, Hd. vm_compute. reflexivity.
Defined.

(** ** More on the scheduler *)

(** The base hour the scheduler computes for an index. *)
Lemma base_hour_cases (post_index : Z) :
  0 <= post_index <= 7 ->
  9 <= (if 21 <? 9 + post_index * 3 then 9 + post_index * 2 else 9 + post_index * 3) <= 23.
Proof. intros H. destruct (Z.ltb_spec 21 (9 + post_index * 3)); lia. Qed.

Lemma add_minutes_same_day (ord h jitter : Z) :
  1 <= ord <= max_ordinal -> 9 <= h <= 23 -> -15 <= jitter <= 15 ->
  datetime_add_minutes (mk_datetime ord h 0 0 0) jitter
  = Returns (mk_datetime ord ((h * 60 + jitter) / 60) ((h * 60 + jitter) mod 60) 0 0).
Proof.
  intros Ho Hh Hj. unfold datetime_add_minutes, to_us.
  cbn [dt_ordinal dt_hour dt_minute dt_second dt_microsecond].
  replace (ord * us_per_day + ((h * 60 + 0) * 60 + 0) * us_per_second + 0
           + jitter * 60 * us_per_second)
    with (ord * us_per_day + ((h * 60 + jitter) * 60) * us_per_second + 0) by lia.
  rewrite of_us_split by lia.
  cbn [dt_ordinal]. rewrite in_range_true by exact Ho.
  assert (H1 : (h * 60 + jitter) * 60 / 3600 = (h * 60 + jitter) / 60).
  { replace 3600 with (60 * 60) by reflexivity.
    rewrite <- Z.div_div by lia. rewrite Z.div_mul by lia. reflexivity. }
  assert (H2 : (h * 60 + jitter) * 60 / 60 = h * 60 + jitter) by (apply Z.div_mul; lia).
  assert (H3 : (h * 60 + jitter) * 60 mod 60 = 0) by (apply Z.mod_mul; lia).
  rewrite H1, H2, H3. reflexivity.
Qed.

(** X4: For the indices 0 to 7, a valid start date and a jitter in
    [-15, 15], the scheduler returns a time on the start date, at the base
    hour shifted by the jitter: between 08:45 and 23:15, with seconds and
    microseconds zero. *)
Theorem calculate_optimal_time_in_day (start_date : datetime) (post_index jitter : Z) :
  valid_datetime start_date -> 0 <= post_index <= 7 -> -15 <= jitter <= 15 ->
  exists post_time,
    _calculate_optimal_time start_date post_index jitter = Returns post_time /\
    valid_datetime post_time /\
    dt_ordinal post_time = dt_ordinal start_date /\
    dt_hour post_time * 60 + dt_minute post_time
    = (if 21 <? 9 + post_index * 3 then 9 + post_index * 2 else 9 + post_index * 3) * 60
      + jitter /\
    8 * 60 + 45 <= dt_hour post_time * 60 + dt_minute post_time <= 23 * 60 + 15 /\
    dt_second post_time = 0 /\ dt_microsecond post_time = 0.
Proof.
  intros Hv Hi Hj. pose proof (base_hour_cases post_index Hi) as Hh.
  unfold _calculate_optimal_time.
  set (h := if 21 <? 9 + post_index * 3 then 9 + post_index * 2 else 9 + post_index * 3) in *.
  rewrite datetime_replace_accepts by lia. cbn [and_then].
  assert (Ho : 1 <= dt_ordinal start_date <= max_ordinal) by apply Hv.
  rewrite add_minutes_same_day by assumption.
  eexists. split; [reflexivity |].
  cbn [dt_ordinal dt_hour dt_minute dt_second dt_microsecond].
  pose proof (Z.div_mod (h * 60 + jitter) 60 ltac:(lia)) as Hdm.
  pose proof (Z.mod_pos_bound (h * 60 + jitter) 60 ltac:(lia)) as Hm.
  assert (Hq : 8 <= (h * 60 + jitter) / 60 <= 23).
  { split; [apply Z.div_le_lower_bound; lia |].
    assert ((h * 60 + jitter) / 60 < 24) by (apply Z.div_lt_upper_bound; lia). lia. }
  unfold valid_datetime. cbn [dt_ordinal dt_hour dt_minute dt_second dt_microsecond].
  repeat split; try lia.
Qed.

Lemma calculate_optimal_time_in_day_witness :
  valid_datetime a_start_date /\ 0 <= 5 <= 7 /\ -15 <= 15 <= 15 /\
  _calculate_optimal_time a_start_date 5 15 = Returns (mk_datetime 739560 19 15 0 0).
Proof.
  assert (Hi : 0 <= 5 <= 7) by lia. assert (Hj : -15 <= 15 <= 15) by lia.
  split; [exact a_start_date_valid | split; [exact Hi | split; [exact Hj |]]].
  destruct (calculate_optimal_time_in_day a_start_date 5 15 a_start_date_valid Hi Hj)
    as (post_time & Hrun & _).
  rewrite Hrun. vm_compute in Hrun. inversion Hrun. reflexivity.
Defined.

(** X5: The schedule of a batch is neither in index order nor free of
    collisions: with no jitter, index 6 gets the same time as index 4
    (21:00), and index 5 (19:00) comes before index 4. *)
Theorem schedule_collides_and_reorders (start_date : datetime) :
  valid_datetime start_date ->
  _calculate_optimal_time start_date 6 0 = _calculate_optimal_time start_date 4 0 /\
  exists t4 t5,
    _calculate_optimal_time start_date 4 0 = Returns t4 /\
    _calculate_optimal_time start_date 5 0 = Returns t5 /\
    elapsed_us t4 t5 = 2 * hour_us.
Proof.
  intros Hv.
  rewrite (optimal_time_at_hour start_date 6 21 Hv ltac:(lia) eq_refl).
  rewrite (optimal_time_at_hour start_date 4 21 Hv ltac:(lia) eq_refl).
  split; [reflexivity |].
  rewrite (optimal_time_at_hour start_date 5 19 Hv ltac:(lia) eq_refl).
  eexists. eexists. split; [reflexivity |]. split; [reflexivity |].
  unfold elapsed_us, to_us, hour_us.
  cbn [dt_ordinal dt_hour dt_minute dt_second dt_microsecond]. lia.
Qed.

Lemma schedule_collides_and_reorders_witness :
  valid_datetime a_start_date /\
  _calculate_optimal_time a_start_date 6 0 = _calculate_optimal_time a_start_date 4 0.
Proof.
  split; [exact a_start_date_valid |].
  apply (schedule_collides_and_reorders a_start_date a_start_date_valid).
Defined.

(** ** More on the retry policy *)

Section RetryRuns.

Variable A : Type.

(** X6: Whatever the attempts of a retrying task do, the operation ends:
    with fuel for four attempts the trace is complete (more fuel changes
    nothing), its last state is Success or Failed and no earlier state is,
    and it holds at most four attempts and three waits. *)
Theorem retry_always_ends (base_delay : Z) (task : outcome A -> Z -> task_end A)
    (body : Z -> outcome A) (fuel : nat) :
  In (base_delay, task) (retry_classes A) ->
  (4 <= fuel)%nat ->
  let trace := run_operation task body fuel in
  trace = run_operation task body 4 /\
  ended (last trace Pending) = true /\
  existsb ended (removelast trace) = false /\
  (List.length (filter is_running trace) <= 4)%nat /\
  (List.length (filter is_retrying trace) <= 3)%nat.
Proof.
  intros Hin Hf trace. subst trace.
  apply retry_class_is_retrying_task in Hin. subst task.
  destruct fuel as [| [| [| [| fuel]]]]; try lia.
  unfold run_operation. cbn [drive]. unfold retrying_task, on_exception, max_retries.
  cbn [Z.add Z.ltb Z.compare Pos.compare Pos.compare_cont Pos.add Pos.succ].
  destruct (body 0); [cbn; repeat split; lia |].
  destruct (body 1); [cbn; repeat split; lia |].
  destruct (body 2); [cbn; repeat split; lia |].
  destruct (body 3); cbn; repeat split; lia.
Qed.

(** X7: When attempt [k] (after [k <= 3] retries) is the first that
    returns, the operation ends in Success after [k] waits of base,
    2*base, ... seconds. *)
Theorem retry_succeeds_at (base_delay : Z) (task : outcome A -> Z -> task_end A)
    (body : Z -> outcome A) (k fuel : nat) :
  In (base_delay, task) (retry_classes A) ->
  (k <= 3)%nat -> (k < fuel)%nat ->
  (forall j, (j < k)%nat -> exists e, body (Z.of_nat j) = Raises e) ->
  (exists result, body (Z.of_nat k) = Returns result) ->
  run_operation task body fuel
  = (Pending :: failed_attempts base_delay k ++ [Running (Z.of_nat k); Success])%list.
Proof.
  intros Hin Hk Hf Hfail (result & Hok).
  apply retry_class_is_retrying_task in Hin. subst task.
  assert (H0 : (0 < k)%nat -> exists e, body 0 = Raises e) by (intros; apply (Hfail 0%nat); lia).
  assert (H1 : (1 < k)%nat -> exists e, body 1 = Raises e) by (intros; apply (Hfail 1%nat); lia).
  assert (H2 : (2 < k)%nat -> exists e, body 2 = Raises e) by (intros; apply (Hfail 2%nat); lia).
  unfold run_operation.
  destruct k as [| [| [| [| k]]]]; try lia; cbn [Z.of_nat Pos.of_succ_nat Pos.succ] in Hok.
  - destruct fuel as [| fuel]; [lia |]. cbn [drive]. unfold retrying_task. rewrite Hok.
    reflexivity.
  - destruct H0 as (e0 & He0); [lia |].
    destruct fuel as [| [| fuel]]; try lia. cbn [drive]. unfold retrying_task, on_exception.
    rewrite He0. cbn. rewrite Hok. reflexivity.
  - destruct H0 as (e0 & He0); [lia |]. destruct H1 as (e1 & He1); [lia |].
    destruct fuel as [| [| [| fuel]]]; try lia. cbn [drive].
    unfold retrying_task, on_exception.
    rewrite He0. cbn. rewrite He1. cbn. rewrite Hok. reflexivity.
  - destruct H0 as (e0 & He0); [lia |]. destruct H1 as (e1 & He1); [lia |].
    destruct H2 as (e2 & He2); [lia |].
    destruct fuel as [| [| [| [| fuel]]]]; try lia. cbn [drive].
    unfold retrying_task, on_exception.
    rewrite He0. cbn. rewrite He1. cbn. rewrite He2. cbn. rewrite Hok. reflexivity.
Qed.

End RetryRuns.

Lemma retry_always_ends_witness :
  In (300, generate_weekly_content) (retry_classes string) /\ (4 <= 6)%nat /\
  run_operation generate_weekly_content second_time_lucky 6
  = run_operation generate_weekly_content second_time_lucky 4.
Proof.
  assert (Hin : In (300, generate_weekly_content) (retry_classes string))
    by (right; left; reflexivity).
  assert (Hf : (4 <= 6)%nat) by lia.
  split; [exact Hin | split; [exact Hf |]].
  apply (retry_always_ends string 300 generate_weekly_content second_time_lucky 6 Hin Hf).
Defined.

Lemma retry_succeeds_at_witness :
  In (300, generate_weekly_content) (retry_classes string) /\
  run_operation generate_weekly_content second_time_lucky 4
  = [Pending; Running 0; Retrying 300; Running 1; Success].
Proof.
  assert (Hin : In (300, generate_weekly_content) (retry_classes string))
    by (right; left; reflexivity).
  split; [exact Hin |].
  apply (retry_succeeds_at string 300 generate_weekly_content second_time_lucky 1 4 Hin);
    [lia | lia | | exists "done"; reflexivity].
  intros j Hj. assert (j = 0%nat) by lia. subst j. eexists. reflexivity.
Defined.

(** ** More on the hashtags *)

Lemma contains_char_app (c : ascii) (a b : string) :
  contains_char c (a ++ b) = contains_char c a || contains_char c b.
Proof.
  induction a as [| x a IH]; simpl; [reflexivity |].
  rewrite IH. apply orb_assoc.
Qed.

(** Replacing a character removes it, when the replacement is free of it. *)
Lemma str_replace_removes (c : ascii) (by_ s : string) :
  contains_char c by_ = false -> contains_char c (str_replace c by_ s) = false.
Proof.
  intros Hby. induction s as [| a s IH]; simpl; [reflexivity |].
  destruct (Ascii.eqb a c) eqn:Hac.
  - rewrite contains_char_app, Hby, IH. reflexivity.
  - simpl. rewrite Hac, IH. reflexivity.
Qed.

(** Replacing a character brings in no other character that neither the
    text nor the replacement holds. *)
Lemma str_replace_keeps_free (c c' : ascii) (by_ s : string) :
  contains_char c' by_ = false -> contains_char c' s = false ->
  contains_char c' (str_replace c by_ s) = false.
Proof.
  intros Hby. induction s as [| a s IH]; simpl; intros Hs; [reflexivity |].
  apply orb_false_elim in Hs. destruct Hs as [Ha Hs].
  destruct (Ascii.eqb a c).
  - rewrite contains_char_app, Hby, (IH Hs). reflexivity.
  - simpl. rewrite Ha, (IH Hs). reflexivity.
Qed.

Lemma hash_prefix (s : string) : String.prefix "#" ("#" ++ s) = true.
Proof.
  simpl. destruct (ascii_dec "#" "#") as [_ | Hne]; [destruct s; reflexivity | congruence].
Qed.

Lemma topic_hashtags_well_formed (topic : string) :
  Forall well_formed_tag (topic_hashtags topic).
Proof.
  unfold topic_hashtags, well_formed_tag.
  constructor; [| constructor; [| constructor]].
  - split; [apply hash_prefix |]. split.
    + cbn [append contains_char Ascii.eqb Bool.eqb orb].
      apply str_replace_keeps_free; [reflexivity |].
      apply str_replace_removes. reflexivity.
    + cbn [append contains_char Ascii.eqb Bool.eqb orb].
      apply str_replace_removes. reflexivity.
  - split; [apply hash_prefix |]. split.
    + cbn [append contains_char Ascii.eqb Bool.eqb orb].
      apply str_replace_keeps_free; [reflexivity |].
      apply str_replace_removes. reflexivity.
    + cbn [append contains_char Ascii.eqb Bool.eqb orb].
      apply str_replace_removes. reflexivity.
Qed.

(** X8: For every topic, theme and kind the hashtags are exactly 13 (16
    for a video), so the cut at 25 never removes one; and every one of
    them starts with '#' and holds neither a space nor an underscore,
    whatever the topic contains. *)
Theorem hashtags_well_formed (topic : string) (theme : DayTheme) (is_video : bool) :
  List.length (_generate_hashtags topic theme is_video)
  = (if is_video then 16%nat else 13%nat) /\
  Forall well_formed_tag (_generate_hashtags topic theme is_video).
Proof.
  destruct (generate_hashtags_shape topic theme is_video) as (tag1 & tag2 & Ht & Hs).
  rewrite Hs. split; [destruct is_video; reflexivity |].
  apply Forall_app. split.
  { unfold base_hashtags, well_formed_tag. repeat constructor. }
  apply Forall_app. split.
  { destruct is_video; unfold video_hashtags, well_formed_tag; repeat constructor. }
  apply Forall_app. split; [| apply topic_hashtags_well_formed].
  destruct theme; simpl in Ht; inversion Ht; subst;
    unfold well_formed_tag; repeat constructor.
Qed.

(** ** The daily theme *)

Lemma theme_of_weekday (k : Z) :
  0 <= k < 7 ->
  exists t, nth_error all_themes (Z.to_nat k) = Some t /\
            (t = MAGICAL_MONDAY <-> k = 0).
Proof.
  intros Hk.
  assert (Hcases : k = 0 \/ k = 1 \/ k = 2 \/ k = 3 \/ k = 4 \/ k = 5 \/ k = 6) by lia.
  destruct Hcases as [-> | [-> | [-> | [-> | [-> | [-> | ->]]]]]];
    eexists; (split; [reflexivity |]); split; intros H; try reflexivity; discriminate H.
Qed.

Lemma theme_of_weekday_inj (k1 k2 : Z) :
  0 <= k1 < 7 -> 0 <= k2 < 7 ->
  nth_error all_themes (Z.to_nat k1) = nth_error all_themes (Z.to_nat k2) -> k1 = k2.
Proof.
  intros H1 H2.
  assert (C1 : k1 = 0 \/ k1 = 1 \/ k1 = 2 \/ k1 = 3 \/ k1 = 4 \/ k1 = 5 \/ k1 = 6) by lia.
  assert (C2 : k2 = 0 \/ k2 = 1 \/ k2 = 2 \/ k2 = 3 \/ k2 = 4 \/ k2 = 5 \/ k2 = 6) by lia.
  destruct C1 as [-> | [-> | [-> | [-> | [-> | [-> | ->]]]]]];
    destruct C2 as [-> | [-> | [-> | [-> | [-> | [-> | ->]]]]]];
    simpl; intros H; try reflexivity; discriminate H.
Qed.

(** X9: [get_daily_theme] never raises; it reads the clock once; the
    theme is MAGICAL_MONDAY exactly on Mondays; and two readings get the
    same theme exactly when their dates are a multiple of 7 days apart, so
    seven days in a row get the seven themes. *)
Theorem daily_theme_cycles (clock : nat -> datetime) (w1 w2 : EngineWorld) :
  let d1 := clock (engine_clock_reads w1) in
  let d2 := clock (engine_clock_reads w2) in
  exists t1 t2,
    get_daily_theme clock w1
    = (Returns t1,
       mk_EngineWorld (prompts_sent w1) (draws w1) (S (engine_clock_reads w1))) /\
    get_daily_theme clock w2
    = (Returns t2,
       mk_EngineWorld (prompts_sent w2) (draws w2) (S (engine_clock_reads w2))) /\
    (t1 = MAGICAL_MONDAY <-> weekday d1 = 0) /\
    (t1 = t2 <-> (dt_ordinal d1 - dt_ordinal d2) mod 7 = 0).
Proof.
  intros d1 d2.
  assert (Hw : forall d, 0 <= weekday d < 7)
    by (intros d; unfold weekday; apply Z.mod_pos_bound; lia).
  destruct (theme_of_weekday (weekday d1) (Hw d1)) as (t1 & Ht1 & Hmon).
  destruct (theme_of_weekday (weekday d2) (Hw d2)) as (t2 & Ht2 & _).
  exists t1, t2.
  unfold get_daily_theme, bind, engine_now, ret. fold d1 d2. rewrite Ht1, Ht2.
  split; [reflexivity |]. split; [reflexivity |]. split; [exact Hmon |].
  assert (Hcong : weekday d1 = weekday d2 <-> (dt_ordinal d1 - dt_ordinal d2) mod 7 = 0).
  { unfold weekday. rewrite Z.cong_iff_0.
    replace (dt_ordinal d1 + 6 - (dt_ordinal d2 + 6)) with (dt_ordinal d1 - dt_ordinal d2)
      by lia. reflexivity. }
  rewrite <- Hcong. split.
  - intros ->. apply theme_of_weekday_inj; [apply Hw | apply Hw | congruence].
  - intros He. rewrite He in Ht1. congruence.
Qed.

(** ** More on the content engine *)

Lemma py_get_returns_dict (v : pyval) (key : string) (default x : pyval) :
  py_get v key default = Returns x -> is_dict v = true.
Proof. destruct v; simpl; intros H; try discriminate H; reflexivity. Qed.

Lemma py_get_dict (d : list (string * pyval)) (key : string) (default : pyval) :
  exists x, py_get (PDict d) key default = Returns x.
Proof. simpl. destruct (assoc_lookup key d); eexists; reflexivity. Qed.

(** A non-empty string has a first character. *)
Lemma utf8_chars_cons (c : ascii) (s : string) :
  exists ch rest, utf8_chars (String c s) = ch :: rest.
Proof.
  simpl. destruct (utf8_chars s) as [| ch rest]; [eauto |].
  destruct (continues s); eauto.
Qed.

(** When [_extract_hooks] returns on a dict. *)
Lemma extract_hooks_returns_iff (d : list (string * pyval)) :
  (exists hooks, _extract_hooks (PDict d) = Returns hooks) <-> usable_payload (PDict d) = true.
Proof.
  unfold _extract_hooks, usable_payload. simpl.
  destruct (assoc_lookup "slides" d) as [s |] eqn:Hs; simpl.
  - destruct (py_truthy s) eqn:Ht; simpl.
    + destruct s as [| b | n | f | str | l | d']; simpl in *; try discriminate Ht.
      * split; [intros (h & Hh); discriminate Hh | intros H; discriminate H].
      * split; [intros (h & Hh); discriminate Hh | intros H; discriminate H].
      * split; [intros (h & Hh); discriminate Hh | intros H; discriminate H].
      * destruct str as [| c str]; [discriminate Ht |].
        destruct (utf8_chars_cons c str) as (ch & rest & Hch). rewrite Hch. simpl.
        split; [reflexivity | eexists; reflexivity].
      * destruct l; [discriminate Ht |]. simpl. split; [reflexivity | eexists; reflexivity].
      * split; [intros (h & Hh); discriminate Hh | intros H; discriminate H].
    + split; [reflexivity | eexists; reflexivity].
  - split; [reflexivity | eexists; reflexivity].
Qed.

Section EngineAttempts.

Variable json_loads : string -> outcome pyval.
Variable py_str : pyval -> string.
Variable chat_completion : list string -> string -> outcome string.
Variable rng : nat -> nat.
Variable clock : nat -> datetime.

Abbreviation try_carousel := (carousel_attempt json_loads py_str chat_completion clock).
Abbreviation try_video := (video_attempt json_loads py_str chat_completion clock).
Abbreviation make_carousel :=
  (generate_carousel_content json_loads py_str chat_completion rng clock).
Abbreviation visual_step := (_generate_visual_prompts json_loads py_str chat_completion).
Abbreviation caption_step := (_generate_caption py_str chat_completion).
Abbreviation video_caption_step := (_generate_video_caption py_str chat_completion).

(** The prompt-writing steps on a dict payload: one prompt is sent, and a
    failure of the call (or of the parse of its answer) is replaced by the
    step's own default, so the step returns. *)
Lemma visual_prompts_run (d : list (string * pyval)) (element : string) (w : EngineWorld) :
  exists title v,
    py_get (PDict d) "title" (PStr "") = Returns title /\
    visual_step (PDict d) element w
    = (Returns v,
       mk_EngineWorld (prompts_sent w ++ [visual_prompt py_str title element])%list
         (draws w) (engine_clock_reads w)) /\
    (forall e, chat_completion (prompts_sent w) (visual_prompt py_str title element) = Raises e ->
       v = fallback_visual_prompts element).
Proof.
  destruct (py_get_dict d "title" (PStr "")) as (title & Ht).
  exists title. unfold _generate_visual_prompts, bind, lift. rewrite Ht. cbv beta iota.
  unfold try_except. rewrite call_openai_run.
  destruct (chat_completion (prompts_sent w) (visual_prompt py_str title element))
    as [response | e].
  - destruct (json_loads response) as [data | e].
    + destruct (py_get data "prompts" (PList [])) as [v | e].
      * exists v. split; [reflexivity | split; [reflexivity |]]. intros e H; discriminate H.
      * eexists. split; [reflexivity | split; [reflexivity |]]. intros e' H; discriminate H.
    + eexists. split; [reflexivity | split; [reflexivity |]]. intros e' H; discriminate H.
  - eexists. split; [reflexivity | split; [reflexivity |]]. intros e' _. reflexivity.
Qed.

Lemma caption_run (d : list (string * pyval)) (topic : string) (theme : DayTheme)
    (w : EngineWorld) :
  exists title c,
    py_get (PDict d) "title" (PStr "") = Returns title /\
    caption_step (PDict d) topic theme w
    = (Returns c,
       mk_EngineWorld (prompts_sent w ++ [caption_prompt py_str title topic theme])%list
         (draws w) (engine_clock_reads w)) /\
    (forall response,
       chat_completion (prompts_sent w) (caption_prompt py_str title topic theme)
       = Returns response -> c = response).
Proof.
  destruct (py_get_dict d "title" (PStr "")) as (title & Ht).
  exists title. unfold _generate_caption, bind, lift. rewrite Ht. cbv beta iota.
  unfold try_except. rewrite call_openai_run.
  destruct (chat_completion (prompts_sent w) (caption_prompt py_str title topic theme))
    as [response | e].
  - exists response. split; [reflexivity | split; [reflexivity |]].
    intros r H. injection H as H. exact H.
  - eexists. split; [reflexivity | split; [reflexivity |]]. intros r H. discriminate H.
Qed.

Lemma video_caption_run (d : list (string * pyval)) (topic : string) (w : EngineWorld) :
  exists title c,
    py_get (PDict d) "title" (PStr "") = Returns title /\
    video_caption_step (PDict d) topic w
    = (Returns c,
       mk_EngineWorld (prompts_sent w ++ [video_caption_prompt py_str title topic])%list
         (draws w) (engine_clock_reads w)) /\
    (forall response,
       chat_completion (prompts_sent w) (video_caption_prompt py_str title topic)
       = Returns response -> c = response).
Proof.
  destruct (py_get_dict d "title" (PStr "")) as (title & Ht).
  exists title. unfold _generate_video_caption, bind, lift. rewrite Ht. cbv beta iota.
  unfold try_except. rewrite call_openai_run.
  destruct (chat_completion (prompts_sent w) (video_caption_prompt py_str title topic))
    as [response | e].
  - exists response. split; [reflexivity | split; [reflexivity |]].
    intros r H. injection H as H. exact H.
  - eexists. split; [reflexivity | split; [reflexivity |]]. intros r H. discriminate H.
Qed.

(** The [try] block of the carousel generator on a dict payload, run to
    its end: only [_extract_hooks] can still raise. *)
Lemma carousel_attempt_on_dict (day : DayTheme) (topic concept element response : string)
    (d : list (string * pyval)) (w1 : EngineWorld) :
  chat_completion (prompts_sent w1) (content_prompt topic day concept element)
  = Returns response ->
  json_loads response = Returns (PDict d) ->
  exists shown v c s,
    py_get (PDict d) "title" (PStr "") = Returns shown /\
    try_carousel day topic concept element w1
    = (and_then (_extract_hooks (PDict d)) (fun engagement_hooks =>
         Returns {| theme := day; content_type := CAROUSEL; title := shown;
                    slides := s; caption := c;
                    hashtags := _generate_hashtags topic day false;
                    visual_prompts := v; psychology_concept := concept;
                    magical_element := element; target_age := "3-10";
                    engagement_hooks := engagement_hooks;
                    created_at := clock (engine_clock_reads w1) |}),
       mk_EngineWorld
         (prompts_sent w1 ++ [content_prompt topic day concept element;
                              visual_prompt py_str shown element;
                              caption_prompt py_str shown topic day])%list
         (draws w1)
         (match _extract_hooks (PDict d) with
          | Returns _ => S (engine_clock_reads w1)
          | Raises _ => engine_clock_reads w1
          end)).
Proof.
  intros Hchat Hjson.
  set (wa := mk_EngineWorld (prompts_sent w1 ++ [content_prompt topic day concept element])%list
               (draws w1) (engine_clock_reads w1)).
  destruct (visual_prompts_run d element wa) as (shown & v & Ht & Hv & _).
  set (wb := mk_EngineWorld (prompts_sent wa ++ [visual_prompt py_str shown element])%list
               (draws wa) (engine_clock_reads wa)) in *.
  destruct (caption_run d topic day wb) as (shown' & c & Ht' & Hc & _).
  assert (shown' = shown) by congruence. subst shown'.
  destruct (py_get_dict d "slides" (PList [])) as (s & Hs).
  exists shown, v, c, s. split; [exact Ht |].
  unfold carousel_attempt.
  unfold bind at 1. rewrite call_openai_run, Hchat. fold wa.
  unfold bind at 1. unfold lift at 1. rewrite Hjson.
  unfold bind at 1. rewrite Hv.
  unfold bind at 1. rewrite Hc.
  unfold bind at 1. unfold ret at 1.
  unfold bind at 1. unfold lift at 1. rewrite Ht.
  unfold bind at 1. unfold lift at 1. rewrite Hs.
  unfold bind at 1. unfold lift at 1.
  destruct (_extract_hooks (PDict d)) as [h | e]; simpl; rewrite <- !app_assoc; reflexivity.
Qed.

(** What any run of the carousel [try] block does to the world: it sends
    the content prompt first and then either nothing more or the two
    secondary prompts; it draws nothing; it reads the clock once when it
    returns and not at all when it raises. *)
Lemma carousel_attempt_run (day : DayTheme) (topic concept element : string)
    (w1 : EngineWorld) :
  exists out w2 later,
    try_carousel day topic concept element w1 = (out, w2) /\
    prompts_sent w2
    = (prompts_sent w1 ++ content_prompt topic day concept element :: later)%list /\
    (later = [] \/ List.length later = 2%nat) /\
    draws w2 = draws w1 /\
    engine_clock_reads w2
    = match out with
      | Returns _ => S (engine_clock_reads w1)
      | Raises _ => engine_clock_reads w1
      end /\
    (forall piece, out = Returns piece ->
       theme piece = day /\ content_type piece = CAROUSEL /\
       created_at piece = clock (engine_clock_reads w1) /\
       hashtags piece = _generate_hashtags topic day false /\
       List.length later = 2%nat).
Proof.
  destruct (chat_completion (prompts_sent w1) (content_prompt topic day concept element))
    as [response | e] eqn:Hchat.
  - destruct (json_loads response) as [payload | e] eqn:Hjson.
    + destruct payload as [| b | n | f | str | l | d].
      7: { destruct (carousel_attempt_on_dict day topic concept element response d w1 Hchat Hjson)
             as (shown & v & c & s & _ & Hr).
           rewrite Hr. eexists. eexists. eexists. split; [reflexivity |]. simpl.
           split; [reflexivity |]. split; [right; reflexivity |]. split; [reflexivity |].
           destruct (_extract_hooks (PDict d)) as [h | e]; simpl.
           - split; [reflexivity |]. intros piece H. injection H as <-. repeat split.
           - split; [reflexivity |]. intros piece H. discriminate H. }
      all: unfold carousel_attempt, bind; rewrite call_openai_run, Hchat; unfold lift;
        rewrite Hjson; cbv beta iota; unfold _generate_visual_prompts, bind, lift; simpl;
        eexists; eexists; exists []; split; [reflexivity |]; simpl;
        split; [reflexivity |]; split; [left; reflexivity |]; split; [reflexivity |];
        split; [reflexivity |]; intros piece H; discriminate H.
    + unfold carousel_attempt, bind. rewrite call_openai_run, Hchat. unfold lift.
      rewrite Hjson. eexists. eexists. exists []. split; [reflexivity |]. simpl.
      split; [reflexivity |]. split; [left; reflexivity |]. split; [reflexivity |].
      split; [reflexivity |]. intros piece H. discriminate H.
  - unfold carousel_attempt, bind. rewrite call_openai_run, Hchat.
    eexists. eexists. exists []. split; [reflexivity |]. simpl.
    split; [reflexivity |]. split; [left; reflexivity |]. split; [reflexivity |].
    split; [reflexivity |]. intros piece H. discriminate H.
Qed.

(** X10: The [try] block of the carousel generator returns a piece exactly
    when the first backend call returns, its answer parses to a dict, and
    what the dict holds under "slides" is absent, empty (falsy) or a
    sequence (a list or a string). The two later backend calls (visual
    prompts, caption) may fail without consequence: a returning attempt
    has always sent three prompts, the two later ones built from the
    title of the piece, has read the clock once for [created_at], and
    carries the requested theme, concept and element. *)
Theorem carousel_attempt_returns_iff (day : DayTheme) (topic concept element : string)
    (w1 : EngineWorld) :
  ((exists piece w', try_carousel day topic concept element w1 = (Returns piece, w')) <->
   (exists response d,
      chat_completion (prompts_sent w1) (content_prompt topic day concept element)
      = Returns response /\
      json_loads response = Returns (PDict d) /\
      usable_payload (PDict d) = true)) /\
  (forall piece w',
     try_carousel day topic concept element w1 = (Returns piece, w') ->
     prompts_sent w'
     = (prompts_sent w1 ++ [content_prompt topic day concept element;
                            visual_prompt py_str (title piece) element;
                            caption_prompt py_str (title piece) topic day])%list /\
     theme piece = day /\
     psychology_concept piece = concept /\
     magical_element piece = element /\
     created_at piece = clock (engine_clock_reads w1) /\
     engine_clock_reads w' = S (engine_clock_reads w1) /\
     draws w' = draws w1).
Proof.
  split; [split |].
  - intros (piece & w' & H).
    destruct (carousel_attempt_returns _ _ _ _ _ _ _ _ _ _ _ H)
      as (response & content_data & Hchat & Hjson & Hslides & _).
    pose proof (py_get_returns_dict _ _ _ _ Hslides) as Hd.
    destruct content_data as [| | | | | | d]; try discriminate Hd.
    exists response, d. split; [exact Hchat | split; [exact Hjson |]].
    apply extract_hooks_returns_iff.
    destruct (carousel_attempt_on_dict day topic concept element response d w1 Hchat Hjson)
      as (t & v & c & s & _ & Hr).
    rewrite Hr in H.
    destruct (_extract_hooks (PDict d)) as [h | e]; [exists h; reflexivity | discriminate H].
  - intros (response & d & Hchat & Hjson & Hu).
    apply extract_hooks_returns_iff in Hu. destruct Hu as (h & Hh).
    destruct (carousel_attempt_on_dict day topic concept element response d w1 Hchat Hjson)
      as (t & v & c & s & _ & Hr).
    rewrite Hh in Hr. eexists. eexists. exact Hr.
  - intros piece w' H.
    destruct (carousel_attempt_returns _ _ _ _ _ _ _ _ _ _ _ H)
      as (response & content_data & Hchat & Hjson & Hslides & _).
    pose proof (py_get_returns_dict _ _ _ _ Hslides) as Hd.
    destruct content_data as [| | | | | | d]; try discriminate Hd.
    destruct (carousel_attempt_on_dict day topic concept element response d w1 Hchat Hjson)
      as (t & v & c & s & _ & Hr).
    rewrite Hr in H.
    destruct (_extract_hooks (PDict d)) as [h | e]; [| discriminate H].
    simpl in H. injection H as Hp Hw. subst piece w'. simpl. repeat split.
Qed.

(** The [try] block of the video generator, run on any world. *)
Lemma video_attempt_run (day : DayTheme) (topic concept element : string)
    (w1 : EngineWorld) :
  exists out w2 later,
    try_video day topic concept element w1 = (out, w2) /\
    prompts_sent w2
    = (prompts_sent w1 ++ video_prompt topic day concept element :: later)%list /\
    draws w2 = draws w1 /\
    engine_clock_reads w2
    = match out with
      | Returns _ => S (engine_clock_reads w1)
      | Raises _ => engine_clock_reads w1
      end /\
    match out with
    | Returns piece =>
        exists response d,
          chat_completion (prompts_sent w1) (video_prompt topic day concept element)
          = Returns response /\
          json_loads response = Returns (PDict d) /\
          later = [video_caption_prompt py_str (title piece) topic] /\
          theme piece = day /\ content_type piece = VIDEO /\
          created_at piece = clock (engine_clock_reads w1) /\
          psychology_concept piece = concept /\ magical_element piece = element
    | Raises e =>
        later = [] /\
        sub_step_raises json_loads chat_completion (prompts_sent w1)
          (video_prompt topic day concept element) e
    end.
Proof.
  unfold sub_step_raises.
  destruct (chat_completion (prompts_sent w1) (video_prompt topic day concept element))
    as [response | e] eqn:Hchat.
  - destruct (json_loads response) as [payload | e] eqn:Hjson.
    + destruct payload as [| b | n | f | str | l | d].
      7: { set (wa := mk_EngineWorld
                        (prompts_sent w1 ++ [video_prompt topic day concept element])%list
                        (draws w1) (engine_clock_reads w1)).
           destruct (video_caption_run d topic wa) as (shown & c & Ht & Hc & _).
           destruct (py_get_dict d "script_sections" (PList [])) as (s & Hs).
           destruct (py_get_dict d "scene_descriptions" (PList [])) as (v & Hv).
           destruct (py_get_dict d "hook" (PStr "")) as (h & Hh).
           unfold video_attempt.
           unfold bind at 1. rewrite call_openai_run, Hchat. fold wa.
           unfold bind at 1. unfold lift at 1. rewrite Hjson.
           unfold bind at 1. rewrite Hc.
           unfold bind at 1. unfold ret at 1.
           unfold bind at 1. unfold lift at 1. rewrite Ht.
           unfold bind at 1. unfold lift at 1. rewrite Hs.
           unfold bind at 1. unfold lift at 1. rewrite Hv.
           unfold bind at 1. unfold lift at 1. rewrite Hh.
           unfold bind, engine_now, ret. simpl.
           eexists. eexists. eexists. split; [reflexivity |]. simpl.
           split; [rewrite <- app_assoc; reflexivity |]. split; [reflexivity |].
           split; [reflexivity |]. exists response, d.
           split; [reflexivity | split; [exact Hjson | repeat split]]. }
      all: unfold video_attempt, bind; rewrite call_openai_run, Hchat; unfold lift;
        rewrite Hjson; cbv beta iota; unfold _generate_video_caption, bind, lift; simpl;
        eexists; eexists; exists []; split; [reflexivity |]; simpl;
        split; [reflexivity |]; split; [reflexivity |]; split; [reflexivity |];
        split; [reflexivity |]; right; right; eexists; eexists;
        split; [reflexivity |]; split; [exact Hjson |]; reflexivity.
    + unfold video_attempt, bind. rewrite call_openai_run, Hchat. unfold lift.
      rewrite Hjson. eexists. eexists. exists []. split; [reflexivity |]. simpl.
      split; [reflexivity |]. split; [reflexivity |]. split; [reflexivity |].
      split; [reflexivity |]. right. left. exists response. split; [reflexivity | exact Hjson].
  - unfold video_attempt, bind. rewrite call_openai_run, Hchat.
    eexists. eexists. exists []. split; [reflexivity |]. simpl.
    split; [reflexivity |]. split; [reflexivity |]. split; [reflexivity |].
    split; [reflexivity |]. left. reflexivity.
Qed.

Lemma random_choice_world (l : list string) (w w' : EngineWorld) (out : outcome string) :
  random_choice rng l w = (out, w') ->
  w' = mk_EngineWorld (prompts_sent w) (S (draws w)) (engine_clock_reads w).
Proof.
  unfold random_choice.
  destruct (nth_error l (Nat.modulo (rng (draws w)) (List.length l)));
    intros H; injection H as _ H; symmetry; exact H.
Qed.

Lemma generator_start (day : DayTheme) (topic : option string) (w : EngineWorld) :
  exists topic' concept element,
    let w1 := mk_EngineWorld (prompts_sent w) (topic_draws topic + 2 + draws w)
                (engine_clock_reads w) in
    In concept psychology_concepts /\ In element magical_elements /\
    (forall given, topic = Some given -> given <> "" -> topic' = given) /\
    (topic_draws topic = 1%nat -> In topic' trending_topics) /\
    make_carousel day topic w
    = try_except (try_carousel day topic' concept element)
        (carousel_fallback clock day topic') w1 /\
    generate_video_content json_loads py_str chat_completion rng clock day topic w
    = try_except (try_video day topic' concept element)
        (video_fallback clock day topic') w1.
Proof.
  assert (Ht : exists topic' wa,
            choose_topic rng topic w = (Returns topic', wa) /\
            wa = mk_EngineWorld (prompts_sent w) (topic_draws topic + draws w)
                   (engine_clock_reads w) /\
            (forall given, topic = Some given -> given <> "" -> topic' = given) /\
            (topic_draws topic = 1%nat -> In topic' trending_topics)).
  { unfold choose_topic, topic_draws. destruct topic as [given |].
    - destruct (String.eqb_spec given "") as [He | Hne].
      + destruct (random_choice_returns rng trending_topics w) as (x & w' & Hx & Hin & _);
          [discriminate |].
        exists x, w'. split; [exact Hx |]. split; [exact (random_choice_world _ _ _ _ Hx) |].
        split; [intros g Hg Hn; inversion Hg; congruence | intros _; exact Hin].
      + exists given, w. split; [reflexivity |]. split; [destruct w; reflexivity |].
        split; [intros g Hg _; inversion Hg; reflexivity | intros H; discriminate H].
    - destruct (random_choice_returns rng trending_topics w) as (x & w' & Hx & Hin & _);
        [discriminate |].
      exists x, w'. split; [exact Hx |]. split; [exact (random_choice_world _ _ _ _ Hx) |].
      split; [intros g Hg; discriminate Hg | intros _; exact Hin]. }
  destruct Ht as (topic' & wa & Ht & Hwa & Hgiven & Hdrawn).
  destruct (random_choice_returns rng psychology_concepts wa) as (concept & wb & Hc & Hinc & _);
    [discriminate |].
  destruct (random_choice_returns rng magical_elements wb) as (element & w1 & He & Hine & _);
    [discriminate |].
  pose proof (random_choice_world _ _ _ _ Hc) as Hwb.
  pose proof (random_choice_world _ _ _ _ He) as Hw1.
  exists topic', concept, element. cbv zeta.
  assert (Hw : w1 = mk_EngineWorld (prompts_sent w) (topic_draws topic + 2 + draws w)
                      (engine_clock_reads w)).
  { rewrite Hw1, Hwb, Hwa. simpl. f_equal. lia. }
  rewrite <- Hw.
  split; [exact Hinc |]. split; [exact Hine |]. split; [exact Hgiven |]. split; [exact Hdrawn |].
  unfold generate_carousel_content, generate_video_content.
  split.
  - rewrite (bind_step _ _ _ _ _ Ht), (bind_step _ _ _ _ _ Hc), (bind_step _ _ _ _ _ He).
    reflexivity.
  - rewrite (bind_step _ _ _ _ _ Ht), (bind_step _ _ _ _ _ Hc), (bind_step _ _ _ _ _ He).
    reflexivity.
Qed.

(** A run of the carousel generator, with where its piece comes from. *)
Lemma carousel_generator_run (day : DayTheme) (topic : option string)
    (w : EngineWorld) :
  exists piece w' topic' concept element later,
    make_carousel day topic w = (Returns piece, w') /\
    theme piece = day /\ content_type piece = CAROUSEL /\
    created_at piece = clock (engine_clock_reads w) /\
    engine_clock_reads w' = S (engine_clock_reads w) /\
    draws w' = (topic_draws topic + 2 + draws w)%nat /\
    prompts_sent w'
    = (prompts_sent w ++ content_prompt topic' day concept element :: later)%list /\
    (later = [] \/ List.length later = 2%nat) /\
    In concept psychology_concepts /\ In element magical_elements /\
    (forall given, topic = Some given -> given <> "" -> topic' = given) /\
    (topic_draws topic = 1%nat -> In topic' trending_topics) /\
    (hashtags piece = _generate_hashtags topic' day false \/
     piece = _generate_fallback_content day topic' (clock (engine_clock_reads w))).
Proof.
  destruct (generator_start day topic w)
    as (topic' & concept & element & Hinc & Hine & Hgiven & Hdrawn & Hc & _).
  set (w1 := mk_EngineWorld (prompts_sent w) (topic_draws topic + 2 + draws w)
               (engine_clock_reads w)) in *.
  destruct (carousel_attempt_run day topic' concept element w1)
    as (out & w2 & later & Hrun & Hsent & Hlater & Hdraws & Hreads & Hpiece).
  rewrite Hc. unfold try_except. rewrite Hrun.
  destruct out as [piece | e].
  - destruct (Hpiece piece eq_refl) as (Hth & Hty & Hcreated & Htags & _).
    exists piece, w2, topic', concept, element, later.
    split; [reflexivity |]. split; [exact Hth |]. split; [exact Hty |]. split; [exact Hcreated |].
    split; [exact Hreads |]. split; [exact Hdraws |]. split; [exact Hsent |].
    split; [exact Hlater |]. split; [exact Hinc |]. split; [exact Hine |].
    split; [exact Hgiven |]. split; [exact Hdrawn |]. left. exact Htags.
  - unfold carousel_fallback, bind, engine_now, ret.
    eexists. eexists. exists topic', concept, element, later.
    split; [reflexivity |]. simpl. rewrite Hreads, Hdraws, Hsent.
    split; [reflexivity |]. split; [reflexivity |]. split; [reflexivity |].
    split; [reflexivity |]. split; [reflexivity |]. split; [reflexivity |].
    split; [exact Hlater |]. split; [exact Hinc |]. split; [exact Hine |].
    split; [exact Hgiven |]. split; [exact Hdrawn |]. right. reflexivity.
Qed.

(** X11: Every run of the carousel generator returns a carousel piece of the
    requested theme, stamped with the one clock reading it makes. It
    draws a concept and an element, and a topic only when none (or the
    empty one) was given, so a given topic is the one used. It sends the
    backend the content prompt and then either nothing (fallback after a
    failed first step) or exactly two more prompts. *)
Theorem generate_carousel_content_run (day : DayTheme) (topic : option string)
    (w : EngineWorld) :
  exists piece w' topic' concept element later,
    make_carousel day topic w = (Returns piece, w') /\
    theme piece = day /\ content_type piece = CAROUSEL /\
    created_at piece = clock (engine_clock_reads w) /\
    engine_clock_reads w' = S (engine_clock_reads w) /\
    draws w' = (topic_draws topic + 2 + draws w)%nat /\
    prompts_sent w'
    = (prompts_sent w ++ content_prompt topic' day concept element :: later)%list /\
    (later = [] \/ List.length later = 2%nat) /\
    In concept psychology_concepts /\ In element magical_elements /\
    (forall given, topic = Some given -> given <> "" -> topic' = given) /\
    (topic_draws topic = 1%nat -> In topic' trending_topics).
Proof.
  destruct (carousel_generator_run day topic w)
    as (piece & w' & topic' & concept & element & later & H1 & H2 & H3 & H4 & H5 & H6 & H7
        & H8 & H9 & H10 & H11 & H12 & _).
  exists piece, w', topic', concept, element, later.
  repeat (split; [assumption |]). assumption.
Qed.

(** A run of the video generator. *)
Lemma video_generator_run (day : DayTheme) (topic : option string)
    (w : EngineWorld) :
  exists piece w' topic' concept element later,
    generate_video_content json_loads py_str chat_completion rng clock day topic w
    = (Returns piece, w') /\
    theme piece = day /\ content_type piece = VIDEO /\
    created_at piece = clock (engine_clock_reads w) /\
    engine_clock_reads w' = S (engine_clock_reads w) /\
    draws w' = (topic_draws topic + 2 + draws w)%nat /\
    prompts_sent w'
    = (prompts_sent w ++ video_prompt topic' day concept element :: later)%list /\
    (forall given, topic = Some given -> given <> "" -> topic' = given) /\
    ((exists response d,
        chat_completion (prompts_sent w) (video_prompt topic' day concept element)
        = Returns response /\
        json_loads response = Returns (PDict d) /\
        later = [video_caption_prompt py_str (title piece) topic'] /\
        psychology_concept piece = concept /\ magical_element piece = element) \/
     (exists e,
        sub_step_raises json_loads chat_completion (prompts_sent w)
          (video_prompt topic' day concept element) e /\
        later = [] /\
        piece = _generate_fallback_video day topic' (clock (engine_clock_reads w)))).
Proof.
  destruct (generator_start day topic w)
    as (topic' & concept & element & Hinc & Hine & Hgiven & Hdrawn & _ & Hv).
  set (w1 := mk_EngineWorld (prompts_sent w) (topic_draws topic + 2 + draws w)
               (engine_clock_reads w)) in *.
  destruct (video_attempt_run day topic' concept element w1)
    as (out & w2 & later & Hrun & Hsent & Hdraws & Hreads & Hout).
  rewrite Hv. unfold try_except. rewrite Hrun.
  destruct out as [piece | e].
  - destruct Hout as (response & d & Hchat & Hjson & Hlater & Hth & Hty & Hcreated & Hfields).
    exists piece, w2, topic', concept, element, later.
    split; [reflexivity |]. split; [exact Hth |]. split; [exact Hty |]. split; [exact Hcreated |].
    split; [exact Hreads |]. split; [exact Hdraws |]. split; [exact Hsent |].
    split; [exact Hgiven |]. left. exists response, d.
    split; [exact Hchat |]. split; [exact Hjson |]. split; [exact Hlater |].
    exact Hfields.
  - destruct Hout as (Hlater & Hraises).
    unfold video_fallback, bind, engine_now, ret.
    eexists. eexists. exists topic', concept, element, later.
    split; [reflexivity |]. simpl. rewrite Hreads, Hdraws, Hsent.
    split; [reflexivity |]. split; [reflexivity |]. split; [reflexivity |].
    split; [reflexivity |]. split; [reflexivity |]. split; [reflexivity |].
    split; [exact Hgiven |]. right. exists e.
    split; [exact Hraises |]. split; [exact Hlater | reflexivity].
Qed.

(** X12: Every run of the video generator returns a video piece of the
    requested theme, after one clock reading and the same draws as the
    carousel generator. Either the first backend answer parses to a dict:
    then the piece is built from it, whatever the caption call did, and
    two prompts were sent; or the first step raised: then the piece is the
    fallback video and only the video prompt was sent. *)
Theorem generate_video_content_run (day : DayTheme) (topic : option string)
    (w : EngineWorld) :
  exists piece w' topic' concept element later,
    generate_video_content json_loads py_str chat_completion rng clock day topic w
    = (Returns piece, w') /\
    theme piece = day /\ content_type piece = VIDEO /\
    created_at piece = clock (engine_clock_reads w) /\
    engine_clock_reads w' = S (engine_clock_reads w) /\
    draws w' = (topic_draws topic + 2 + draws w)%nat /\
    prompts_sent w'
    = (prompts_sent w ++ video_prompt topic' day concept element :: later)%list /\
    (forall given, topic = Some given -> given <> "" -> topic' = given) /\
    ((exists response d,
        chat_completion (prompts_sent w) (video_prompt topic' day concept element)
        = Returns response /\
        json_loads response = Returns (PDict d) /\
        later = [video_caption_prompt py_str (title piece) topic'] /\
        psychology_concept piece = concept /\ magical_element piece = element) \/
     (exists e,
        sub_step_raises json_loads chat_completion (prompts_sent w)
          (video_prompt topic' day concept element) e /\
        later = [] /\
        piece = _generate_fallback_video day topic' (clock (engine_clock_reads w)))).
Proof. exact (video_generator_run day topic w). Qed.

(** The caption steps on a dict payload: the answer of the call, or the
    default of the step when the call raises. *)
Lemma caption_answer (d : list (string * pyval)) (topic : string) (theme : DayTheme)
    (w : EngineWorld) :
  exists shown,
    py_get (PDict d) "title" (PStr "") = Returns shown /\
    caption_step (PDict d) topic theme w
    = (Returns (answer_or (fallback_caption topic)
                  (chat_completion (prompts_sent w) (caption_prompt py_str shown topic theme))),
       mk_EngineWorld (prompts_sent w ++ [caption_prompt py_str shown topic theme])%list
         (draws w) (engine_clock_reads w)).
Proof.
  destruct (py_get_dict d "title" (PStr "")) as (shown & Ht).
  exists shown. split; [exact Ht |].
  unfold _generate_caption, bind, lift. rewrite Ht. cbv beta iota.
  unfold try_except. rewrite call_openai_run.
  destruct (chat_completion (prompts_sent w) (caption_prompt py_str shown topic theme));
    reflexivity.
Qed.

Lemma video_caption_answer (d : list (string * pyval)) (topic : string) (w : EngineWorld) :
  exists shown,
    py_get (PDict d) "title" (PStr "") = Returns shown /\
    video_caption_step (PDict d) topic w
    = (Returns (answer_or (fallback_video_caption topic)
                  (chat_completion (prompts_sent w) (video_caption_prompt py_str shown topic))),
       mk_EngineWorld (prompts_sent w ++ [video_caption_prompt py_str shown topic])%list
         (draws w) (engine_clock_reads w)).
Proof.
  destruct (py_get_dict d "title" (PStr "")) as (shown & Ht).
  exists shown. split; [exact Ht |].
  unfold _generate_video_caption, bind, lift. rewrite Ht. cbv beta iota.
  unfold try_except. rewrite call_openai_run.
  destruct (chat_completion (prompts_sent w) (video_caption_prompt py_str shown topic));
    reflexivity.
Qed.

(** The drawn concept is never the concept of the fallback pieces. *)
Lemma drawn_concept_not_general (concept : string) :
  In concept psychology_concepts -> concept <> "general support".
Proof.
  intros Hin He. subst concept. unfold psychology_concepts in Hin. simpl in Hin.
  repeat (destruct Hin as [Hin | Hin]; [discriminate Hin |]). exact Hin.
Qed.

(** The [try] block of the carousel generator: either one of its steps
    raises, and so does the block, without reading the clock; or it
    returns a piece built from the answer to the content prompt. *)
Lemma carousel_attempt_cases (day : DayTheme) (topic concept element : string)
    (w1 : EngineWorld) :
  (exists e w2,
     try_carousel day topic concept element w1 = (Raises e, w2) /\
     engine_clock_reads w2 = engine_clock_reads w1 /\
     carousel_step_raises json_loads chat_completion (prompts_sent w1)
       (content_prompt topic day concept element) e) \/
  (exists piece w2 response d,
     try_carousel day topic concept element w1 = (Returns piece, w2) /\
     chat_completion (prompts_sent w1) (content_prompt topic day concept element)
     = Returns response /\
     json_loads response = Returns (PDict d) /\
     carousel_from_answer py_str chat_completion (prompts_sent w1) day topic concept element
       d piece).
Proof.
  unfold carousel_step_raises, sub_step_raises.
  destruct (chat_completion (prompts_sent w1) (content_prompt topic day concept element))
    as [response | e] eqn:Hchat.
  - destruct (json_loads response) as [payload | e] eqn:Hjson.
    + destruct payload as [| b | n | f | str | l | d].
      7: { set (wa := mk_EngineWorld
                        (prompts_sent w1 ++ [content_prompt topic day concept element])%list
                        (draws w1) (engine_clock_reads w1)).
           destruct (visual_prompts_run d element wa) as (shown & v & Ht & Hv & Hvf).
           set (wb := mk_EngineWorld (prompts_sent wa ++ [visual_prompt py_str shown element])%list
                        (draws wa) (engine_clock_reads wa)) in *.
           destruct (caption_answer d topic day wb) as (shown' & Ht' & Hc).
           assert (shown' = shown) by congruence. subst shown'.
           destruct (py_get_dict d "slides" (PList [])) as (s & Hs).
           assert (Hrun :
             try_carousel day topic concept element w1
             = (and_then (_extract_hooks (PDict d)) (fun engagement_hooks =>
                  Returns {| theme := day; content_type := CAROUSEL; title := shown;
                             slides := s;
                             caption :=
                               answer_or (fallback_caption topic)
                                 (chat_completion (prompts_sent wb)
                                    (caption_prompt py_str shown topic day));
                             hashtags := _generate_hashtags topic day false;
                             visual_prompts := v; psychology_concept := concept;
                             magical_element := element; target_age := "3-10";
                             engagement_hooks := engagement_hooks;
                             created_at := clock (engine_clock_reads w1) |}),
                mk_EngineWorld
                  (prompts_sent wb ++ [caption_prompt py_str shown topic day])%list
                  (draws w1)
                  (match _extract_hooks (PDict d) with
                   | Returns _ => S (engine_clock_reads w1)
                   | Raises _ => engine_clock_reads w1
                   end))).
           { unfold carousel_attempt.
             unfold bind at 1. rewrite call_openai_run, Hchat. fold wa.
             unfold bind at 1. unfold lift at 1. rewrite Hjson.
             unfold bind at 1. rewrite Hv. fold wb.
             unfold bind at 1. rewrite Hc.
             unfold bind at 1. unfold ret at 1.
             unfold bind at 1. unfold lift at 1. rewrite Ht.
             unfold bind at 1. unfold lift at 1. rewrite Hs.
             unfold bind at 1. unfold lift at 1.
             destruct (_extract_hooks (PDict d)) as [h | e]; reflexivity. }
           destruct (_extract_hooks (PDict d)) as [h | e] eqn:Hhooks.
           - right. eexists. eexists. exists response, d.
             split; [exact Hrun |]. split; [reflexivity |]. split; [exact Hjson |].
             unfold carousel_from_answer.
             cbn [title slides content_type psychology_concept magical_element hashtags
                  caption visual_prompts].
             split; [exact Ht |]. split; [exact Hs |].
             split; [reflexivity |]. split; [reflexivity |]. split; [reflexivity |].
             split; [reflexivity |].
             split; [subst wb wa; cbn [prompts_sent]; rewrite <- app_assoc; reflexivity |].
             intros e He. apply (Hvf e). exact He.
           - left. exists e. eexists. split; [exact Hrun |]. split; [reflexivity |].
             right. exists response, d. split; [reflexivity |]. split; [exact Hjson |].
             exact Hhooks. }
      all: left; unfold carousel_attempt, bind; rewrite call_openai_run, Hchat; unfold lift;
        rewrite Hjson; cbv beta iota; unfold _generate_visual_prompts, bind, lift; simpl;
        eexists; eexists; split; [reflexivity |]; split; [reflexivity |];
        left; right; right; eexists; eexists;
        split; [reflexivity |]; split; [exact Hjson |]; reflexivity.
    + left. unfold carousel_attempt, bind. rewrite call_openai_run, Hchat. unfold lift.
      rewrite Hjson. exists e. eexists. split; [reflexivity |]. split; [reflexivity |].
      left. right. left. exists response. split; [reflexivity | exact Hjson].
  - left. unfold carousel_attempt, bind. rewrite call_openai_run, Hchat.
    exists e. eexists. split; [reflexivity |]. split; [reflexivity |].
    left. left. reflexivity.
Qed.

(** A step that raises makes the [try] block raise the same exception. *)
Lemma carousel_step_raises_attempt (day : DayTheme) (topic concept element : string)
    (w1 : EngineWorld) (e : exn) :
  carousel_step_raises json_loads chat_completion (prompts_sent w1)
    (content_prompt topic day concept element) e ->
  exists w2, try_carousel day topic concept element w1 = (Raises e, w2).
Proof.
  intros [Hsub | (response & d & Hchat & Hjson & Hhooks)].
  - apply carousel_attempt_raises. exact Hsub.
  - destruct (carousel_attempt_on_dict day topic concept element response d w1 Hchat Hjson)
      as (shown & v & c & s & _ & Hr).
    rewrite Hhooks in Hr. eexists. exact Hr.
Qed.

(** The same for the [try] block of the video generator. *)
Lemma video_attempt_cases (day : DayTheme) (topic concept element : string)
    (w1 : EngineWorld) :
  (exists e w2,
     try_video day topic concept element w1 = (Raises e, w2) /\
     engine_clock_reads w2 = engine_clock_reads w1 /\
     sub_step_raises json_loads chat_completion (prompts_sent w1)
       (video_prompt topic day concept element) e) \/
  (exists piece w2 response d,
     try_video day topic concept element w1 = (Returns piece, w2) /\
     chat_completion (prompts_sent w1) (video_prompt topic day concept element)
     = Returns response /\
     json_loads response = Returns (PDict d) /\
     video_from_answer py_str chat_completion (prompts_sent w1) day topic concept element
       d piece).
Proof.
  unfold sub_step_raises.
  destruct (chat_completion (prompts_sent w1) (video_prompt topic day concept element))
    as [response | e] eqn:Hchat.
  - destruct (json_loads response) as [payload | e] eqn:Hjson.
    + destruct payload as [| b | n | f | str | l | d].
      7: { set (wa := mk_EngineWorld
                        (prompts_sent w1 ++ [video_prompt topic day concept element])%list
                        (draws w1) (engine_clock_reads w1)).
           destruct (video_caption_answer d topic wa) as (shown & Ht & Hc).
           destruct (py_get_dict d "script_sections" (PList [])) as (s & Hs).
           destruct (py_get_dict d "scene_descriptions" (PList [])) as (v & Hv).
           destruct (py_get_dict d "hook" (PStr "")) as (h & Hh).
           right. eexists. eexists. exists response, d.
           split.
           { unfold video_attempt.
             unfold bind at 1. rewrite call_openai_run, Hchat. fold wa.
             unfold bind at 1. unfold lift at 1. rewrite Hjson.
             unfold bind at 1. rewrite Hc.
             unfold bind at 1. unfold ret at 1.
             unfold bind at 1. unfold lift at 1. rewrite Ht.
             unfold bind at 1. unfold lift at 1. rewrite Hs.
             unfold bind at 1. unfold lift at 1. rewrite Hv.
             unfold bind at 1. unfold lift at 1. rewrite Hh.
             unfold bind, engine_now, ret. reflexivity. }
           split; [reflexivity |]. split; [exact Hjson |].
           unfold video_from_answer.
           cbn [title slides content_type psychology_concept magical_element hashtags caption].
           split; [exact Ht |]. split; [exact Hs |].
           split; [reflexivity |]. split; [reflexivity |]. split; [reflexivity |].
           split; reflexivity. }
      all: left; unfold video_attempt, bind; rewrite call_openai_run, Hchat; unfold lift;
        rewrite Hjson; cbv beta iota; unfold _generate_video_caption, bind, lift; simpl;
        eexists; eexists; split; [reflexivity |]; split; [reflexivity |];
        right; right; eexists; eexists;
        split; [reflexivity |]; split; [exact Hjson |]; reflexivity.
    + left. unfold video_attempt, bind. rewrite call_openai_run, Hchat. unfold lift.
      rewrite Hjson. exists e. eexists. split; [reflexivity |]. split; [reflexivity |].
      right. left. exists response. split; [reflexivity | exact Hjson].
  - left. unfold video_attempt, bind. rewrite call_openai_run, Hchat.
    exists e. eexists. split; [reflexivity |]. split; [reflexivity |].
    left. reflexivity.
Qed.

(** C1 (as the code has it): single-piece generation never fails
    outward. After its draws (a topic when none is given, a concept, an
    element) each generator returns a piece, in every world. Whenever a
    step of the [try] block raises, that is the call for the content (or
    video) prompt, the JSON parse of its answer, the reading of a parsed
    answer that is not a dict, or for a carousel the extraction of the
    hooks, the carousel generator returns the fallback piece, which has
    exactly 5 slides and the concept "general support", and the video
    generator returns the fallback video piece, which has exactly 4
    slides. In every other run the piece is built from the parsed answer
    and carries the drawn concept, never "general support": a failure of
    the caption call or of the visual-prompt call does not lead to the
    fallback piece, it is replaced inside its step by the default caption
    or the default visual prompts. The hashtags are computed without a
    call and their step does not raise. *)
Theorem generation_never_fails_outward (day : DayTheme) (topic : option string)
    (w : EngineWorld) :
  exists topic' concept element,
    (forall given, topic = Some given -> given <> "" -> topic' = given) /\
    In concept psychology_concepts /\ In element magical_elements /\
    (exists carousel wc,
       make_carousel day topic w = (Returns carousel, wc) /\
       (forall e,
          carousel_step_raises json_loads chat_completion (prompts_sent w)
            (content_prompt topic' day concept element) e ->
          carousel = _generate_fallback_content day topic' (clock (engine_clock_reads w)) /\
          slide_count carousel = Some 5%nat /\
          psychology_concept carousel = "general support") /\
       ((exists e,
           carousel_step_raises json_loads chat_completion (prompts_sent w)
             (content_prompt topic' day concept element) e) \/
        (exists response d,
           chat_completion (prompts_sent w) (content_prompt topic' day concept element)
           = Returns response /\
           json_loads response = Returns (PDict d) /\
           carousel_from_answer py_str chat_completion (prompts_sent w) day topic' concept
             element d carousel /\
           psychology_concept carousel <> "general support"))) /\
    (exists video wv,
       generate_video_content json_loads py_str chat_completion rng clock day topic w
       = (Returns video, wv) /\
       (forall e,
          sub_step_raises json_loads chat_completion (prompts_sent w)
            (video_prompt topic' day concept element) e ->
          video = _generate_fallback_video day topic' (clock (engine_clock_reads w)) /\
          slide_count video = Some 4%nat /\
          psychology_concept video = "general support") /\
       ((exists e,
           sub_step_raises json_loads chat_completion (prompts_sent w)
             (video_prompt topic' day concept element) e) \/
        (exists response d,
           chat_completion (prompts_sent w) (video_prompt topic' day concept element)
           = Returns response /\
           json_loads response = Returns (PDict d) /\
           video_from_answer py_str chat_completion (prompts_sent w) day topic' concept
             element d video /\
           psychology_concept video <> "general support"))).
Proof.
  destruct (generator_start day topic w)
    as (topic' & concept & element & Hinc & Hine & Hgiven & _ & Hc & Hv).
  set (w1 := mk_EngineWorld (prompts_sent w) (topic_draws topic + 2 + draws w)
               (engine_clock_reads w)) in *.
  exists topic', concept, element.
  split; [exact Hgiven |]. split; [exact Hinc |]. split; [exact Hine |].
  pose proof (drawn_concept_not_general concept Hinc) as Hnot.
  split.
  - rewrite Hc. unfold try_except.
    destruct (carousel_attempt_cases day topic' concept element w1)
      as [(e & w2 & Hrun & Hreads & Hraises)
         | (piece & w2 & response & d & Hrun & Hchat & Hjson & Hbuilt)];
      rewrite Hrun.
    + unfold carousel_fallback, bind, engine_now, ret. rewrite Hreads.
      eexists. eexists. split; [reflexivity |].
      split; [intros _ _; repeat split | left; exists e; exact Hraises].
    + exists piece, w2. split; [reflexivity |]. split.
      * intros e He. destruct (carousel_step_raises_attempt day topic' concept element w1 e He)
          as (w3 & Hr). rewrite Hrun in Hr. discriminate Hr.
      * right. exists response, d.
        split; [exact Hchat |]. split; [exact Hjson |]. split; [exact Hbuilt |].
        destruct Hbuilt as (_ & _ & _ & Hconcept & _). rewrite Hconcept. exact Hnot.
  - rewrite Hv. unfold try_except.
    destruct (video_attempt_cases day topic' concept element w1)
      as [(e & w2 & Hrun & Hreads & Hraises)
         | (piece & w2 & response & d & Hrun & Hchat & Hjson & Hbuilt)];
      rewrite Hrun.
    + unfold video_fallback, bind, engine_now, ret. rewrite Hreads.
      eexists. eexists. split; [reflexivity |].
      split; [intros _ _; repeat split | left; exists e; exact Hraises].
    + exists piece, w2. split; [reflexivity |]. split.
      * intros e He.
        destruct (video_attempt_raises json_loads py_str chat_completion clock
                    day topic' concept element w1 e He) as (w3 & Hr).
        rewrite Hrun in Hr. discriminate Hr.
      * right. exists response, d.
        split; [exact Hchat |]. split; [exact Hjson |]. split; [exact Hbuilt |].
        destruct Hbuilt as (_ & _ & _ & Hconcept & _). rewrite Hconcept. exact Hnot.
Qed.

(** The campaign loop over any topics that are not empty. *)
Lemma campaign_loop_run (topics : list string) :
  Forall (fun topic => topic <> "") topics ->
  forall (campaign_content : list ContentPiece) (w : EngineWorld),
  exists pieces w' sent,
    ContentEngine.campaign_loop json_loads py_str chat_completion rng clock
      topics campaign_content w
    = (Returns (campaign_content ++ pieces)%list, w') /\
    Forall2 teaser_piece topics pieces /\
    map created_at pieces
    = map clock (seq (engine_clock_reads w) (List.length topics)) /\
    engine_clock_reads w' = (List.length topics + engine_clock_reads w)%nat /\
    draws w' = (2 * List.length topics + draws w)%nat /\
    prompts_sent w' = (prompts_sent w ++ sent)%list /\
    (List.length topics <= List.length sent <= 3 * List.length topics)%nat.
Proof.
  induction 1 as [| topic rest Htopic _ IH]; intros campaign_content w.
  - exists [], w, []. simpl. rewrite !app_nil_r.
    repeat split; try reflexivity; try lia. constructor.
  - destruct (carousel_generator_run STORY_SATURDAY (Some topic) w)
      as (piece & w1 & topic' & concept & element & later & Hrun & Hth & Hty & Hcreated
          & Hreads & Hdraws & Hsent & Hlater & _ & _ & Hgiven & _ & Hfrom).
    assert (topic' = topic) by (apply Hgiven; [reflexivity | exact Htopic]). subst topic'.
    assert (Hno_draw : topic_draws (Some topic) = 0%nat).
    { unfold topic_draws. destruct (String.eqb_spec topic ""); [contradiction | reflexivity]. }
    destruct (IH (campaign_content ++ [piece])%list w1)
      as (pieces & w' & sent & Hloop & Hall & Htimes & Hreads' & Hdraws' & Hsent' & Hcount).
    exists (piece :: pieces), w', (content_prompt topic STORY_SATURDAY concept element
                                   :: later ++ sent)%list.
    split; [| split; [| split; [| split; [| split; [| split]]]]].
    + cbn [ContentEngine.campaign_loop]. unfold bind at 1. rewrite Hrun, Hloop.
      rewrite <- app_assoc. reflexivity.
    + constructor; [| exact Hall]. unfold teaser_piece.
      split; [exact Hth |]. split; [exact Hty |].
      destruct Hfrom as [Hf | Hf]; [left; exact Hf | right].
      rewrite Hcreated. exact Hf.
    + cbn [map List.length seq]. rewrite Hcreated, Htimes, Hreads. reflexivity.
    + rewrite Hreads', Hreads. simpl. lia.
    + rewrite Hdraws', Hdraws, Hno_draw. simpl. lia.
    + rewrite Hsent', Hsent. rewrite <- app_assoc. reflexivity.
    + simpl. rewrite length_app.
      destruct Hlater as [-> | Hl]; [simpl; lia | rewrite Hl; lia].
Qed.

(** X13: The teaser campaign never fails and returns exactly four pieces, one
    per teaser topic in the order of the list: each is a carousel of theme
    story_saturday, built from the backend's answer for that topic or the
    fallback piece of that topic. The i-th piece is stamped with the i-th
    clock reading; eight random draws are made (no topic is drawn) and
    between 4 and 12 prompts are sent. *)
Theorem bot_teaser_campaign_run (w : EngineWorld) :
  exists p1 p2 p3 p4 w' sent,
    ContentEngine.generate_bot_teaser_campaign json_loads py_str chat_completion rng clock w
    = (Returns [p1; p2; p3; p4], w') /\
    Forall2 teaser_piece teaser_topics [p1; p2; p3; p4] /\
    map created_at [p1; p2; p3; p4] = map clock (seq (engine_clock_reads w) 4) /\
    engine_clock_reads w' = (4 + engine_clock_reads w)%nat /\
    draws w' = (8 + draws w)%nat /\
    prompts_sent w' = (prompts_sent w ++ sent)%list /\
    (4 <= List.length sent <= 12)%nat.
Proof.
  assert (Htopics : Forall (fun topic => topic <> "") teaser_topics).
  { repeat constructor; discriminate. }
  destruct (campaign_loop_run teaser_topics Htopics [] w)
    as (pieces & w' & sent & Hloop & Hall & Htimes & Hreads & Hdraws & Hsent & Hcount).
  pose proof (Forall2_length Hall) as Hlen.
  destruct pieces as [| p1 [| p2 [| p3 [| p4 [| p5 more]]]]]; try discriminate Hlen.
  exists p1, p2, p3, p4, w', sent.
  split; [exact Hloop |]. split; [exact Hall |]. split; [exact Htimes |].
  split; [exact Hreads |]. split; [exact Hdraws |]. split; [exact Hsent |]. exact Hcount.
Qed.

(** *** The weekly batch *)

Lemma datetime_add_days_valid (d : datetime) (n : Z) :
  valid_datetime d -> 1 <= dt_ordinal d + n <= max_ordinal ->
  datetime_add_days d n
  = Returns (mk_datetime (dt_ordinal d + n) (dt_hour d) (dt_minute d) (dt_second d)
               (dt_microsecond d)).
Proof.
  intros Hv Hn. unfold datetime_add_days.
  set (r := mk_datetime (dt_ordinal d + n) (dt_hour d) (dt_minute d) (dt_second d)
              (dt_microsecond d)).
  assert (Hr : valid_datetime r).
  { destruct Hv as (_ & Hh & Hm & Hs & Hu). repeat split; simpl; lia. }
  replace (to_us d + n * us_per_day) with (to_us r) by (unfold to_us, r; simpl; lia).
  rewrite (of_us_to_us r Hr). rewrite in_range_true by exact Hn. reflexivity.
Qed.

Lemma dict_set_length {A : Type} (key : string) (value : A) (d : list (string * A)) :
  (List.length d <= List.length (dict_set key value d) <= S (List.length d))%nat.
Proof.
  induction d as [| [k v] rest IH]; simpl; [lia |].
  destruct (String.eqb k key); simpl; lia.
Qed.

Lemma dict_set_new {A : Type} (key : string) (value : A) (d : list (string * A)) :
  ~ In key (map fst d) -> dict_set key value d = (d ++ [(key, value)])%list.
Proof.
  induction d as [| [k v] rest IH]; simpl; intros Hn; [reflexivity |].
  destruct (String.eqb_spec k key) as [-> | _]; [exfalso; apply Hn; left; reflexivity |].
  rewrite IH; [reflexivity |]. intros Hin. apply Hn. right. exact Hin.
Qed.

Lemma assign_all_length {A : Type} (assignments d : list (string * A)) :
  (List.length d <= List.length (assign_all assignments d)
   <= List.length assignments + List.length d)%nat.
Proof.
  revert d. induction assignments as [| [k v] rest IH]; intros d; simpl; [lia |].
  unfold assign_all in *. simpl.
  specialize (IH (dict_set k v d)). pose proof (dict_set_length k v d). lia.
Qed.

Lemma assign_all_distinct {A : Type} (assignments d : list (string * A)) :
  NoDup (map fst (d ++ assignments)) ->
  assign_all assignments d = (d ++ assignments)%list.
Proof.
  revert d. induction assignments as [| [k v] rest IH]; intros d Hnd.
  - simpl. rewrite app_nil_r. reflexivity.
  - unfold assign_all in *. simpl.
    assert (Hnew : ~ In k (map fst d)).
    { rewrite map_app in Hnd. simpl in Hnd. apply NoDup_remove_2 in Hnd.
      intros Hin. apply Hnd. apply in_or_app. left. exact Hin. }
    rewrite (dict_set_new k v d Hnew).
    rewrite IH; rewrite <- app_assoc; [reflexivity | exact Hnd].
Qed.

Section WeeklyBatch.

Variable strftime_ymd : datetime -> string.

Abbreviation weekly_from :=
  (ContentEngine.weekly_loop json_loads py_str chat_completion rng clock strftime_ymd).

Lemma weekly_loop_run (themes : list DayTheme) :
  (forall n, valid_datetime (clock n) /\ dt_ordinal (clock n) + 6 <= max_ordinal) ->
  forall (day_num : nat) (weekly_content : list (string * list ContentPiece))
         (w : EngineWorld),
  (day_num + List.length themes <= 7)%nat ->
  exists assignments w' sent,
    weekly_from day_num themes weekly_content w
    = (Returns (assign_all assignments weekly_content), w') /\
    List.length assignments = List.length themes /\
    (forall i theme0, nth_error themes i = Some theme0 ->
       exists entry,
         nth_error assignments i = Some entry /\
         weekly_entry strftime_ymd (day_num + i) theme0
           (clock (weekly_reads day_num i + engine_clock_reads w)) entry) /\
    engine_clock_reads w'
    = (weekly_reads day_num (List.length themes) + engine_clock_reads w)%nat /\
    (draws w' + 3 * List.length themes
     = 3 * weekly_reads day_num (List.length themes) + draws w)%nat /\
    prompts_sent w' = (prompts_sent w ++ sent)%list /\
    (weekly_reads day_num (List.length themes)
     <= List.length sent + List.length themes
     <= 2 * weekly_reads day_num (List.length themes))%nat.
Proof.
  intros Hclock. induction themes as [| theme0 rest IH]; intros day_num weekly_content w Hdays.
  - exists [], w, []. simpl. rewrite app_nil_r.
    split; [reflexivity |]. split; [reflexivity |].
    split; [intros i t H; destruct i; discriminate H |].
    split; [reflexivity |]. split; [lia |]. split; [reflexivity | lia].
  - simpl in Hdays.
    destruct (Hclock (engine_clock_reads w)) as (Hvalid & Hmax).
    assert (Hord : 1 <= dt_ordinal (clock (engine_clock_reads w)) + Z.of_nat day_num
                   <= max_ordinal).
    { destruct Hvalid as (Ho & _). lia. }
    pose proof (datetime_add_days_valid _ _ Hvalid Hord) as Hdate.
    set (date := mk_datetime (dt_ordinal (clock (engine_clock_reads w)) + Z.of_nat day_num)
                   (dt_hour (clock (engine_clock_reads w)))
                   (dt_minute (clock (engine_clock_reads w)))
                   (dt_second (clock (engine_clock_reads w)))
                   (dt_microsecond (clock (engine_clock_reads w)))) in *.
    set (w0 := mk_EngineWorld (prompts_sent w) (draws w) (S (engine_clock_reads w))).
    destruct (carousel_generator_run theme0 None w0)
      as (carousel & w1 & topic1 & concept1 & element1 & later1 & Hrun1 & Hth1 & Hty1 & _
          & Hreads1 & Hdraws1 & Hsent1 & Hlater1 & _).
    simpl in Hreads1, Hdraws1, Hsent1.
    destruct (video_generator_run theme0 None w1)
      as (video & w2 & topic2 & concept2 & element2 & later2 & Hrun2 & Hth2 & Hty2 & _
          & Hreads2 & Hdraws2 & Hsent2 & _ & Hlater2).
    simpl in Hdraws2.
    assert (Hl2 : (List.length later2 <= 1)%nat).
    { destruct Hlater2 as [(r & d & _ & _ & -> & _) | (e & _ & -> & _)]; simpl; lia. }
    assert (Hl1 : (List.length later1 <= 2)%nat).
    { destruct Hlater1 as [-> | ->]; simpl; lia. }
    cbn [ContentEngine.weekly_loop].
    unfold bind at 1. unfold engine_now at 1. fold w0.
    unfold bind at 1. unfold lift at 1. rewrite Hdate.
    unfold bind at 1. rewrite Hrun1.
    destruct (video_day day_num) eqn:Hvideo.
    + destruct (IH (S day_num) (dict_set (strftime_ymd date) [carousel; video] weekly_content) w2)
        as (assignments & w' & sent & Hloop & Hlen & Hentries & Hreads & Hdraws & Hsent & Hcount);
        [lia |].
      exists ((strftime_ymd date, [carousel; video]) :: assignments), w',
        (content_prompt topic1 theme0 concept1 element1 :: later1
         ++ video_prompt topic2 theme0 concept2 element2 :: later2 ++ sent)%list.
      split; [| split; [| split; [| split; [| split; [| split]]]]].
      * unfold bind at 1. unfold bind at 1. rewrite Hrun2. unfold ret at 1.
        rewrite Hloop. reflexivity.
      * simpl. rewrite Hlen. reflexivity.
      * intros i t Hi. destruct i as [| i].
        -- injection Hi as <-. exists (strftime_ymd date, [carousel; video]).
           split; [reflexivity |]. rewrite Nat.add_0_r. simpl weekly_reads.
           exists date. split; [exact Hdate |]. split; [reflexivity |]. split; [reflexivity |].
           split; [repeat constructor; assumption |].
           rewrite Hvideo. simpl. rewrite Hty1, Hty2. reflexivity.
        -- destruct (Hentries i t Hi) as (entry & Hnth & Hentry).
           exists entry. split; [exact Hnth |].
           replace (day_num + S i)%nat with (S day_num + i)%nat by lia.
           replace (weekly_reads day_num (S i) + engine_clock_reads w)%nat
             with (weekly_reads (S day_num) i + engine_clock_reads w2)%nat; [exact Hentry |].
           simpl weekly_reads. rewrite Hvideo, Hreads2, Hreads1. lia.
      * rewrite Hreads, Hreads2, Hreads1. simpl. rewrite Hvideo. lia.
      * simpl List.length. simpl weekly_reads. rewrite Hvideo. lia.
      * rewrite Hsent, Hsent2, Hsent1. rewrite <- !app_assoc. reflexivity.
      * simpl List.length. simpl weekly_reads. rewrite Hvideo.
        rewrite !length_app. simpl List.length. rewrite !length_app. lia.
    + destruct (IH (S day_num) (dict_set (strftime_ymd date) [carousel] weekly_content) w1)
        as (assignments & w' & sent & Hloop & Hlen & Hentries & Hreads & Hdraws & Hsent & Hcount);
        [lia |].
      exists ((strftime_ymd date, [carousel]) :: assignments), w',
        (content_prompt topic1 theme0 concept1 element1 :: later1 ++ sent)%list.
      split; [| split; [| split; [| split; [| split; [| split]]]]].
      * unfold bind at 1. unfold ret at 1. rewrite Hloop. reflexivity.
      * simpl. rewrite Hlen. reflexivity.
      * intros i t Hi. destruct i as [| i].
        -- injection Hi as <-. exists (strftime_ymd date, [carousel]).
           split; [reflexivity |]. rewrite Nat.add_0_r. simpl weekly_reads.
           exists date. split; [exact Hdate |]. split; [reflexivity |]. split; [reflexivity |].
           split; [repeat constructor; assumption |].
           rewrite Hvideo. simpl. rewrite Hty1. reflexivity.
        -- destruct (Hentries i t Hi) as (entry & Hnth & Hentry).
           exists entry. split; [exact Hnth |].
           replace (day_num + S i)%nat with (S day_num + i)%nat by lia.
           replace (weekly_reads day_num (S i) + engine_clock_reads w)%nat
             with (weekly_reads (S day_num) i + engine_clock_reads w1)%nat; [exact Hentry |].
           simpl weekly_reads. rewrite Hvideo, Hreads1. lia.
      * rewrite Hreads, Hreads1. simpl. rewrite Hvideo. lia.
      * simpl List.length. simpl weekly_reads. rewrite Hvideo. lia.
      * rewrite Hsent, Hsent1. rewrite <- !app_assoc. reflexivity.
      * simpl List.length. simpl weekly_reads. rewrite Hvideo.
        rewrite !length_app. lia.
Qed.

Lemma weekday_after (now date : datetime) (i : nat) (theme0 : DayTheme) :
  nth_error all_themes i = Some theme0 ->
  dt_ordinal date = dt_ordinal now + Z.of_nat i ->
  (nth_error all_themes (Z.to_nat (weekday date)) = Some theme0 <-> weekday now = 0).
Proof.
  intros Hi Hord.
  assert (Hlt : (i < 7)%nat).
  { assert (Hs : nth_error all_themes i <> None) by congruence.
    apply nth_error_Some in Hs. simpl in Hs. exact Hs. }
  assert (Hw : 0 <= weekday date < 7) by (unfold weekday; apply Z.mod_pos_bound; lia).
  assert (Hsame : weekday date = Z.of_nat i <-> weekday now = 0).
  { unfold weekday. rewrite Hord. split; intros H; Z.div_mod_to_equations; lia. }
  rewrite <- Hsame. split.
  - intros Hnth. apply theme_of_weekday_inj; [exact Hw | lia |].
    rewrite Nat2Z.id. congruence.
  - intros ->. rewrite Nat2Z.id. exact Hi.
Qed.

(** X14: With a clock whose readings are valid dates at least six days before
    the end of year 9999, the weekly batch returns. It makes seven
    assignments to the dict, the i-th under the date of that day's clock
    reading plus i days, with one carousel, and a video after it on days
    0, 2 and 4, all of the i-th theme of the enumeration: the theme stored
    under a date is the theme [get_daily_theme] gives that date only when
    the reading was made on a Monday. An assignment to a date string
    already present replaces the earlier entry, so the dict has between 1
    and 7 entries, and exactly the seven assignments in order when the
    date strings are distinct. The run reads the clock 17 times, draws 30
    times and sends between 10 and 27 prompts. *)
Theorem weekly_content_run (w : EngineWorld) :
  (forall n, valid_datetime (clock n) /\ dt_ordinal (clock n) + 6 <= max_ordinal) ->
  exists assignments w' sent,
    ContentEngine.generate_weekly_content json_loads py_str chat_completion rng clock
      strftime_ymd w
    = (Returns (assign_all assignments []), w') /\
    List.length assignments = 7%nat /\
    (forall i theme0, nth_error all_themes i = Some theme0 ->
       let now := clock (weekly_reads 0 i + engine_clock_reads w) in
       exists entry date,
         nth_error assignments i = Some entry /\
         datetime_add_days now (Z.of_nat i) = Returns date /\
         fst entry = strftime_ymd date /\
         Forall (fun piece => theme piece = theme0) (snd entry) /\
         map content_type (snd entry)
         = (if video_day i then [CAROUSEL; VIDEO] else [CAROUSEL]) /\
         (nth_error all_themes (Z.to_nat (weekday date)) = Some theme0 <->
          weekday now = 0)) /\
    (1 <= List.length (assign_all assignments []) <= 7)%nat /\
    (NoDup (map fst assignments) -> assign_all assignments [] = assignments) /\
    engine_clock_reads w' = (17 + engine_clock_reads w)%nat /\
    draws w' = (30 + draws w)%nat /\
    prompts_sent w' = (prompts_sent w ++ sent)%list /\
    (10 <= List.length sent <= 27)%nat.
Proof.
  intros Hclock.
  destruct (weekly_loop_run all_themes Hclock 0%nat [] w)
    as (assignments & w' & sent & Hrun & Hlen & Hentries & Hreads & Hdraws & Hsent & Hcount);
    [simpl; lia |].
  exists assignments, w', sent.
  split; [exact Hrun |]. split; [exact Hlen |].
  split; [| split; [| split; [| split; [| split; [| split]]]]].
  - intros i theme0 Hi now.
    destruct (Hentries i theme0 Hi) as (entry & Hnth & date & Hdate & Hord & Hkey & Hth & Hty).
    exists entry, date. simpl in Hdate, Hty.
    split; [exact Hnth |]. split; [exact Hdate |]. split; [exact Hkey |].
    split; [exact Hth |]. split; [exact Hty |].
    exact (weekday_after now date i theme0 Hi Hord).
  - pose proof (assign_all_length assignments []) as Hupper. simpl in Hupper, Hlen.
    split; [| lia].
    destruct assignments as [| [k v] rest]; [discriminate Hlen |].
    unfold assign_all. simpl. exact (proj1 (assign_all_length rest [(k, v)])).
  - intros Hnd. apply (assign_all_distinct assignments []). exact Hnd.
  - rewrite Hreads. reflexivity.
  - simpl in Hdraws. lia.
  - exact Hsent.
  - simpl in Hcount. lia.
Qed.

End WeeklyBatch.

End EngineAttempts.

(** With a backend that fails on every call both generators return their
    fallback piece; with one that answers the content prompt and fails on
    the two later calls the carousel generator returns a piece built from
    the answer, with the default caption. *)
Lemma generation_never_fails_outward_witness :
  (exists carousel wc,
     run_carousel one_slide_payload failing_backend = (Returns carousel, wc) /\
     slide_count carousel = Some 5%nat /\ psychology_concept carousel = "general support") /\
  (exists video wv,
     run_video one_slide_payload failing_backend = (Returns video, wv) /\
     slide_count video = Some 4%nat /\ psychology_concept video = "general support") /\
  (exists carousel wc,
     run_carousel one_slide_payload first_answer_only = (Returns carousel, wc) /\
     psychology_concept carousel <> "general support" /\
     caption carousel = fallback_caption "test topic").
Proof.
  split; [| split].
  - destruct (generation_never_fails_outward one_slide_payload (fun _ => "") failing_backend
                (fun _ => O) (fun _ => a_time) MAGICAL_MONDAY (Some "test topic") fresh_engine)
      as (topic' & concept & element & _ & _ & _ & (carousel & wc & Hrun & Hfallback & _) & _).
    exists carousel, wc. split; [exact Hrun |].
    destruct (Hfallback (Exception "Exception" "API Error")) as (_ & Hslides & Hconcept);
      [left; left; reflexivity | split; assumption].
  - destruct (generation_never_fails_outward one_slide_payload (fun _ => "") failing_backend
                (fun _ => O) (fun _ => a_time) MAGICAL_MONDAY (Some "test topic") fresh_engine)
      as (topic' & concept & element & _ & _ & _ & _ & (video & wv & Hrun & Hfallback & _)).
    exists video, wv. split; [exact Hrun |].
    destruct (Hfallback (Exception "Exception" "API Error")) as (_ & Hslides & Hconcept);
      [left; reflexivity | split; assumption].
  - destruct (generation_never_fails_outward one_slide_payload (fun _ => "") first_answer_only
                (fun _ => O) (fun _ => a_time) MAGICAL_MONDAY (Some "test topic") fresh_engine)
      as (topic' & concept & element & Hgiven & _ & _
          & (carousel & wc & Hrun & _ & Hcases) & _).
    exists carousel, wc. split; [exact Hrun |].
    destruct Hcases as [(e & Hraises) | (response & d & _ & _ & Hbuilt & Hnot)].
    + exfalso. destruct Hraises as [[H | [(r & _ & H) | (r & payload & _ & Hp & H)]]
                                   | (r & d & _ & Hp & H)].
      * discriminate H.
      * discriminate H.
      * injection Hp as <-. discriminate H.
      * injection Hp as <-. discriminate H.
    + split; [exact Hnot |].
      destruct Hbuilt as (_ & _ & _ & _ & _ & _ & Hcaption & _).
      rewrite Hcaption, (Hgiven "test topic" eq_refl ltac:(discriminate)). reflexivity.
Defined.

(** C1 as the claim words it fails. The backend answers the content
    prompt and raises on the two later calls, those of the visual-prompt
    step and of the caption step. Each failure is caught by the [except]
    of its own step: the piece returned has the default visual prompts and
    the default caption, and it is not the fallback piece; it has the one
    slide of the answer and the drawn concept. *)
Lemma caption_failure_gives_no_fallback :
  exists piece w' primary second third,
    run_carousel one_slide_payload first_answer_only = (Returns piece, w') /\
    prompts_sent w' = [primary; second; third] /\
    first_answer_only [primary] second = Raises (Exception "Exception" "API Error") /\
    first_answer_only [primary; second] third = Raises (Exception "Exception" "API Error") /\
    visual_prompts piece = fallback_visual_prompts "enchanted forest wisdom" /\
    caption piece = fallback_caption "test topic" /\
    psychology_concept piece = "attachment theory" /\
    slide_count piece = Some 1%nat /\
    piece <> _generate_fallback_content MAGICAL_MONDAY "test topic" a_time.
Proof.
  do 5 eexists. split; [vm_compute; reflexivity |]. split; [reflexivity |].
  repeat split. discriminate.
Qed.

Lemma weekly_content_run_witness :
  (forall n : nat, valid_datetime a_time /\ dt_ordinal a_time + 6 <= max_ordinal) /\
  exists assignments w',
    ContentEngine.generate_weekly_content one_slide_payload str_of failing_backend
      (fun _ => O) (fun _ => a_time) an_isoformat fresh_engine
    = (Returns (assign_all assignments []), w') /\
    engine_clock_reads w' = 17%nat.
Proof.
  assert (Hclock : forall n : nat, valid_datetime a_time /\ dt_ordinal a_time + 6 <= max_ordinal).
  { intros _. unfold valid_datetime, a_time, max_ordinal. simpl. lia. }
  split; [exact Hclock |].
  destruct (weekly_content_run one_slide_payload str_of failing_backend (fun _ => O)
              (fun _ => a_time) an_isoformat fresh_engine Hclock)
    as (assignments & w' & sent & Hrun & _ & _ & _ & _ & Hreads & _).
  exists assignments, w'. split; [exact Hrun | exact Hreads].
Defined.

(** ** More on the publisher *)

Section PublisherRuns.

Variable json_loads : string -> outcome pyval.
Variable py_str : pyval -> string.
Variable isoformat : datetime -> string.
Variable access_token : string.
Variable business_account_id : string.
Variable base_url : string.
Variable rate_limit : Z.
Variable platform : list exchange -> HttpRequest -> outcome HttpResponse.
Variable clock : nat -> datetime.

Abbreviation limiter := (_check_rate_limit rate_limit clock).
Abbreviation to_media := (media_url business_account_id base_url).
Abbreviation to_publish := (media_publish_url business_account_id base_url).
Abbreviation asset_loop :=
  (create_media json_loads access_token business_account_id base_url platform).
Abbreviation post_carousel :=
  (publish_carousel json_loads py_str isoformat access_token business_account_id base_url
     rate_limit platform clock).
Abbreviation post_video :=
  (publish_video json_loads py_str isoformat access_token business_account_id base_url
     rate_limit platform clock).
Abbreviation finish := (published py_str isoformat clock).

(** Sending a request touches the exchanges only. *)
Lemma send_fields (method url : string) (data : list (string * pyval))
    (w w' : PublisherWorld) (r : outcome HttpResponse) :
  send platform method url data w = (r, w') ->
  request_count w' = request_count w /\ last_request_time w' = last_request_time w /\
  sleeps w' = sleeps w /\ publisher_clock_reads w' = publisher_clock_reads w /\
  exchanges w' = (exchanges w ++ [(mk_HttpRequest method url data, r)])%list /\
  r = platform (exchanges w) (mk_HttpRequest method url data).
Proof. unfold send. intros H. injection H as <- <-. repeat split. Qed.

(** The asset loop leaves the limiter's fields alone, and the media ids it
    returns are the ids collected before followed by what each answer
    holds under "id". *)
Lemma asset_loop_fields (content : ContentPiece) (image_urls : list string) :
  forall (i : nat) (media_ids : list pyval) (w w' : PublisherWorld)
         (r : outcome (pydict + list pyval)),
    asset_loop content i image_urls media_ids w = (r, w') ->
    request_count w' = request_count w /\ last_request_time w' = last_request_time w /\
    sleeps w' = sleeps w /\ publisher_clock_reads w' = publisher_clock_reads w /\
    (forall ids, r = Returns (inr ids) ->
       exists new new_ids,
         exchanges w' = (exchanges w ++ new)%list /\
         ids = (media_ids ++ new_ids)%list /\
         Forall2 (id_of_answer json_loads) new new_ids /\
         Forall2 (fun (x : exchange) (image_url : string) =>
                    req_url (fst x) = to_media /\
                    assoc_lookup "image_url" (req_data (fst x)) = Some (PStr image_url))
           new image_urls).
Proof.
  induction image_urls as [| image_url rest IH]; intros i media_ids w w' r H.
  - cbn [create_media] in H. unfold ret in H. injection H as <- <-.
    repeat split. intros ids Hids. injection Hids as <-. exists [], [].
    rewrite !app_nil_r. repeat split; constructor.
  - cbn [create_media] in H. unfold bind at 1 in H. unfold lift at 1 in H.
    destruct (slide_caption content i) as [caption | e].
    + unfold bind at 1 in H.
      destruct (requests_post platform to_media (media_data access_token image_url caption) w)
        as [answer w1] eqn:Hsend.
      apply send_fields in Hsend. destruct Hsend as (Hc & Hl & Hs & Hr & Hex & _).
      destruct answer as [response | e].
      * destruct (status_code response =? 200) eqn:Hstatus.
        -- unfold bind at 1 in H. unfold lift at 1 in H.
           destruct (response_json json_loads response) as [body | e] eqn:Hjson.
           ++ unfold bind at 1 in H. unfold lift at 1 in H.
              destruct (py_get body "id" PNone) as [media_id | e] eqn:Hid.
              ** apply IH in H. destruct H as (Hc' & Hl' & Hs' & Hr' & Hids).
                 split; [congruence |]. split; [congruence |]. split; [congruence |].
                 split; [congruence |].
                 intros ids Hret.
                 destruct (Hids ids Hret) as (new & new_ids & Hex' & Heq & Hall & Hurls).
                 exists ((mk_HttpRequest "POST" to_media
                            (media_data access_token image_url caption),
                          Returns response) :: new), (media_id :: new_ids).
                 split; [rewrite Hex', Hex, <- app_assoc; reflexivity |].
                 split; [rewrite Heq, <- app_assoc; reflexivity |].
                 split.
                 --- constructor; [| exact Hall].
                     exists response, body. split; [reflexivity |].
                     split; [apply Z.eqb_eq; exact Hstatus |]. split; [exact Hjson | exact Hid].
                 --- constructor; [| exact Hurls]. split; reflexivity.
              ** injection H as <- <-.
                 split; [exact Hc |]. split; [exact Hl |]. split; [exact Hs |].
                 split; [exact Hr |]. intros ids Hids. discriminate Hids.
           ++ injection H as <- <-.
              split; [exact Hc |]. split; [exact Hl |]. split; [exact Hs |].
              split; [exact Hr |]. intros ids Hids. discriminate Hids.
        -- unfold ret in H. injection H as <- <-.
           split; [exact Hc |]. split; [exact Hl |]. split; [exact Hs |].
           split; [exact Hr |]. intros ids Hids. discriminate Hids.
      * injection H as <- <-.
        split; [exact Hc |]. split; [exact Hl |]. split; [exact Hs |].
        split; [exact Hr |]. intros ids Hids. discriminate Hids.
    + injection H as <- <-. repeat split. intros ids Hids. discriminate Hids.
Qed.

(** What follows the asset loop when it has collected all media ids. *)
Lemma publish_step (content : ContentPiece) (media_ids : list pyval) (w2 : PublisherWorld)
    (r : outcome pydict) (w' : PublisherWorld) :
  bind (requests_post platform to_publish
          [("caption", PStr (full_caption content)); ("media_type", PStr "CAROUSEL");
           ("children", PList media_ids); ("access_token", PStr access_token)])
    (fun response =>
       if status_code response =? 200
       then bind (lift (response_json json_loads response)) finish
       else ret [("error", PStr ("Publishing failed: " ++ text response))]) w2 = (r, w') ->
  let req := publish_request access_token business_account_id base_url content media_ids in
  exists answer,
    answer = platform (exchanges w2) req /\
    exchanges w' = (exchanges w2 ++ [(req, answer)])%list /\
    request_count w' = request_count w2 /\ last_request_time w' = last_request_time w2 /\
    sleeps w' = sleeps w2 /\
    match r with
    | Raises e =>
        answer = Raises e \/
        exists response,
          answer = Returns response /\ status_code response = 200 /\
          (json_loads (text response) = Raises e \/
           exists post_result,
             json_loads (text response) = Returns post_result /\
             py_get post_result "id" PNone = Raises e)
    | Returns d =>
        exists response,
          answer = Returns response /\
          ((status_code response <> 200 /\
            d = [("error", PStr ("Publishing failed: " ++ text response))]) \/
           (status_code response = 200 /\
            exists post_result id,
              json_loads (text response) = Returns post_result /\
              py_get post_result "id" PNone = Returns id /\
              publisher_clock_reads w' = S (publisher_clock_reads w2) /\
              d = [("id", id); ("status", PStr "published");
                   ("post_url", PStr ("https://instagram.com/p/" ++ py_str id));
                   ("published_at", PStr (isoformat (clock (publisher_clock_reads w2))))]))
    end.
Proof.
  intros H req. unfold bind at 1 in H.
  destruct (requests_post platform to_publish _ w2) as [answer w3] eqn:Hsend.
  apply send_fields in Hsend. destruct Hsend as (Hc & Hl & Hs & Hr & Hex & Hanswer).
  fold (publish_request access_token business_account_id base_url content media_ids)
    in Hex, Hanswer.
  fold req in Hex, Hanswer.
  exists answer. split; [exact Hanswer |].
  destruct answer as [response | e].
  - destruct (Z.eqb_spec (status_code response) 200) as [Hstatus | Hstatus].
    + unfold bind, lift, response_json in H.
      destruct (json_loads (text response)) as [post_result | e] eqn:Hjson.
      * unfold published, bind, lift, publisher_now, ret in H.
        destruct (py_get post_result "id" PNone) as [id | e] eqn:Hid;
          injection H as <- <-; cbn [exchanges request_count last_request_time sleeps
                                      publisher_clock_reads].
        -- split; [exact Hex |]. split; [exact Hc |]. split; [exact Hl |]. split; [exact Hs |].
           exists response. split; [reflexivity |]. right. split; [exact Hstatus |].
           exists post_result, id. rewrite Hr. repeat split; assumption.
        -- split; [exact Hex |]. split; [exact Hc |]. split; [exact Hl |]. split; [exact Hs |].
           right. exists response. split; [reflexivity |]. split; [exact Hstatus |].
           right. exists post_result. split; [exact Hjson | exact Hid].
      * injection H as <- <-.
        split; [exact Hex |]. split; [exact Hc |]. split; [exact Hl |]. split; [exact Hs |].
        right. exists response. split; [reflexivity |]. split; [exact Hstatus |].
        left. exact Hjson.
    + unfold ret in H. injection H as <- <-.
      split; [exact Hex |]. split; [exact Hc |]. split; [exact Hl |]. split; [exact Hs |].
      exists response. split; [reflexivity |]. left. split; [exact Hstatus | reflexivity].
  - injection H as <- <-.
    split; [exact Hex |]. split; [exact Hc |]. split; [exact Hl |]. split; [exact Hs |].
    left. reflexivity.
Qed.

(** The three stages of [publish_carousel]. *)
Lemma carousel_stages (content : ContentPiece) (image_urls : list string)
    (w w' : PublisherWorld) (r : outcome pydict) :
  post_carousel content image_urls w = (r, w') ->
  exists w1 created w2,
    limiter w = (Returns tt, w1) /\ exchanges w1 = exchanges w /\
    asset_loop content 0 image_urls [] w1 = (created, w2) /\
    match created with
    | Returns (inl early) => r = Returns early /\ w' = w2
    | Raises e => r = Returns [("error", PStr (exn_str e))] /\ w' = w2
    | Returns (inr media_ids) =>
        exists r2,
          bind (requests_post platform to_publish
                  [("caption", PStr (full_caption content)); ("media_type", PStr "CAROUSEL");
                   ("children", PList media_ids); ("access_token", PStr access_token)])
            (fun response =>
               if status_code response =? 200
               then bind (lift (response_json json_loads response)) finish
               else ret [("error", PStr ("Publishing failed: " ++ text response))]) w2
          = (r2, w') /\
          r = match r2 with
              | Returns d => Returns d
              | Raises e => Returns [("error", PStr (exn_str e))]
              end
    end.
Proof.
  intros H. unfold publish_carousel, try_except in H. unfold bind at 1 in H.
  destruct (check_rate_limit_sends_nothing rate_limit clock w) as (w1 & Hcheck & Hex1).
  rewrite Hcheck in H. unfold bind at 1 in H.
  destruct (asset_loop content 0 image_urls [] w1) as [created w2] eqn:Hloop.
  exists w1, created, w2. split; [exact Hcheck |]. split; [exact Hex1 |].
  split; [exact Hloop |].
  destruct created as [[early | media_ids] | e].
  - unfold ret in H. injection H as <- <-. split; reflexivity.
  - match type of H with
    | (let (_, _) := ?run in _) = _ => destruct run as [r2 w3] eqn:Hrun
    end.
    exists r2. destruct r2 as [d | e]; unfold ret in H; injection H as <- <-;
      split; reflexivity.
  - unfold ret in H. injection H as <- <-. split; reflexivity.
Qed.

(** X15: [publish_carousel] never raises: it returns either a dict with the
    single entry "error" or the published dict. However many requests it
    sends, it passes the rate limiter once, so the request counter, the
    window start and the sleeps are those the one limiter call left. When
    it returns the published dict, it has sent one media request per
    asset URL, in order and all answered 200, then the publish request
    whose children are what the media answers hold under "id", in order
    ([None] where an answer holds none); the dict carries the id of the
    publish answer, the post URL built from it, and the clock reading made
    after the publish call. *)
Theorem publish_carousel_outcome (content : ContentPiece) (image_urls : list string)
    (w : PublisherWorld) :
  exists d w' w1,
    post_carousel content image_urls w = (Returns d, w') /\
    limiter w = (Returns tt, w1) /\
    request_count w' = request_count w1 /\
    last_request_time w' = last_request_time w1 /\
    sleeps w' = sleeps w1 /\
    ((exists message, d = [("error", PStr message)]) \/
     (exists new media_ids response post_result id,
        exchanges w'
        = (exchanges w ++ new
           ++ [(publish_request access_token business_account_id base_url content media_ids,
                Returns response)])%list /\
        Forall2 (id_of_answer json_loads) new media_ids /\
        Forall2 (fun (x : exchange) (image_url : string) =>
                   req_url (fst x) = to_media /\
                   assoc_lookup "image_url" (req_data (fst x)) = Some (PStr image_url))
          new image_urls /\
        status_code response = 200 /\
        json_loads (text response) = Returns post_result /\
        py_get post_result "id" PNone = Returns id /\
        d = [("id", id); ("status", PStr "published");
             ("post_url", PStr ("https://instagram.com/p/" ++ py_str id));
             ("published_at", PStr (isoformat (clock (publisher_clock_reads w1))))])).
Proof.
  destruct (post_carousel content image_urls w) as [r w'] eqn:Hrun.
  destruct (carousel_stages content image_urls w w' r Hrun)
    as (w1 & created & w2 & Hcheck & Hex1 & Hloop & Hrest).
  destruct (asset_loop_fields content image_urls 0 [] w1 w2 created Hloop)
    as (Hc & Hl & Hs & Hr & Hids).
  destruct created as [[early | media_ids] | e].
  - destruct Hrest as (-> & ->).
    destruct (media_loop_run json_loads access_token business_account_id base_url platform
                content image_urls 0 [] w1 w2 _ Hloop)
      as (new & _ & _ & _ & before & req & response & _ & _ & _ & ->).
    eexists. exists w2, w1. split; [reflexivity |]. split; [exact Hcheck |].
    split; [exact Hc |]. split; [exact Hl |]. split; [exact Hs |].
    left. eexists. reflexivity.
  - destruct Hrest as (r2 & Hstep & ->).
    destruct (publish_step content media_ids w2 r2 w' Hstep)
      as (answer & _ & Hex & Hc' & Hl' & Hs' & Hcases).
    destruct r2 as [d | e].
    + exists d, w', w1. split; [reflexivity |]. split; [exact Hcheck |].
      split; [congruence |]. split; [congruence |]. split; [congruence |].
      destruct Hcases as (response & -> & [(_ & ->) | (Hstatus & post_result & id & Hjson & Hid
                                                        & _ & ->)]).
      * left. eexists. reflexivity.
      * right. destruct (Hids media_ids eq_refl) as (new & new_ids & Hex2 & Heq & Hall & Hurls).
        simpl in Heq. subst new_ids.
        exists new, media_ids, response, post_result, id.
        split; [rewrite Hex, Hex2, Hex1, <- app_assoc; reflexivity |].
        split; [exact Hall |]. split; [exact Hurls |]. split; [exact Hstatus |].
        split; [exact Hjson |]. split; [exact Hid |]. rewrite Hr. reflexivity.
    + eexists. exists w', w1. split; [reflexivity |]. split; [exact Hcheck |].
      split; [congruence |]. split; [congruence |]. split; [congruence |].
      left. eexists. reflexivity.
  - destruct Hrest as (-> & ->).
    eexists. exists w2, w1. split; [reflexivity |]. split; [exact Hcheck |].
    split; [exact Hc |]. split; [exact Hl |]. split; [exact Hs |].
    left. eexists. reflexivity.
Qed.

(** X16: An empty list of asset URLs is not refused: [publish_carousel] then
    sends exactly one request, the publish request with an empty list of
    children, and what it returns depends on the answer to that request
    alone: the published dict when the answer has status 200 and a JSON
    body with [get], an error dict otherwise. *)
Theorem publish_carousel_no_assets (content : ContentPiece) (w : PublisherWorld) :
  let req := publish_request access_token business_account_id base_url content [] in
  let answer := platform (exchanges w) req in
  exists d w',
    post_carousel content [] w = (Returns d, w') /\
    exchanges w' = (exchanges w ++ [(req, answer)])%list /\
    assoc_lookup "children" (req_data req) = Some (PList []) /\
    (assoc_lookup "status" d = Some (PStr "published") <->
     exists response post_result id,
       answer = Returns response /\ status_code response = 200 /\
       json_loads (text response) = Returns post_result /\
       py_get post_result "id" PNone = Returns id).
Proof.
  intros req answer.
  destruct (post_carousel content [] w) as [r w'] eqn:Hrun.
  destruct (carousel_stages content [] w w' r Hrun)
    as (w1 & created & w2 & Hcheck & Hex1 & Hloop & Hrest).
  cbn [create_media] in Hloop. unfold ret in Hloop. injection Hloop as <- <-.
  destruct Hrest as (r2 & Hstep & ->).
  destruct (publish_step content [] w1 r2 w' Hstep)
    as (answer' & Hanswer & Hex & _ & _ & _ & Hcases).
  rewrite Hex1 in Hanswer, Hex. fold req in Hanswer, Hex. fold answer in Hanswer.
  subst answer'.
  destruct r2 as [d | e].
  - exists d, w'. split; [reflexivity |]. split; [exact Hex |]. split; [reflexivity |].
    destruct Hcases as (response & Ha & [(Hstatus & ->) | (Hstatus & post_result & id & Hjson
                                                           & Hid & _ & ->)]).
    + split; [intros H; discriminate H |].
      intros (response' & _ & _ & Ha' & Hs' & _). rewrite Ha in Ha'.
      injection Ha' as <-. contradiction.
    + split; [| reflexivity]. intros _. exists response, post_result, id.
      repeat split; assumption.
  - eexists. exists w'. split; [reflexivity |]. split; [exact Hex |]. split; [reflexivity |].
    split; [intros H; discriminate H |].
    intros (response & post_result & id & Ha & Hstatus & Hjson & Hid).
    destruct Hcases as [He | (response' & Ha' & _ & [Hj | (post_result' & Hj & Hi)])].
    + rewrite He in Ha. discriminate Ha.
    + rewrite Ha in Ha'. injection Ha' as <-. rewrite Hj in Hjson. discriminate Hjson.
    + rewrite Ha in Ha'. injection Ha' as <-. rewrite Hj in Hjson. injection Hjson as <-.
      rewrite Hi in Hid. discriminate Hid.
Qed.

(** X17: [publish_video] never raises and passes the rate limiter once. It
    first sends the media request (a REELS container with the video URL
    and the full caption). Only when that is answered 200 with a JSON body
    does it send the publish request, with what the body holds under "id"
    as creation id ([None] when it holds none); otherwise the media
    request is its only request and the result is an error dict. The
    result is the published dict exactly when both answers have status 200
    and a JSON body. *)
Theorem publish_video_outcome (content : ContentPiece) (video_url : string)
    (w : PublisherWorld) :
  let create := video_media_request access_token business_account_id base_url
                  content video_url in
  let answer1 := platform (exchanges w) create in
  exists d w' w1,
    post_video content video_url w = (Returns d, w') /\
    limiter w = (Returns tt, w1) /\
    request_count w' = request_count w1 /\
    last_request_time w' = last_request_time w1 /\
    sleeps w' = sleeps w1 /\
    ((exchanges w' = (exchanges w ++ [(create, answer1)])%list /\
      (forall media_id, ~ answer_with_id json_loads answer1 media_id) /\
      exists message, d = [("error", PStr message)]) \/
     (exists media_id,
        answer_with_id json_loads answer1 media_id /\
        let publish := video_publish_request access_token business_account_id base_url
                         media_id in
        let answer2 := platform (exchanges w ++ [(create, answer1)])%list publish in
        exchanges w' = (exchanges w ++ [(create, answer1); (publish, answer2)])%list /\
        ((exists id,
            answer_with_id json_loads answer2 id /\
            d = [("id", id); ("status", PStr "published");
                 ("post_url", PStr ("https://instagram.com/p/" ++ py_str id));
                 ("published_at", PStr (isoformat (clock (publisher_clock_reads w1))))]) \/
         ((forall id, ~ answer_with_id json_loads answer2 id) /\
          exists message, d = [("error", PStr message)])))).
Proof.
  intros create answer1.
  destruct (check_rate_limit_sends_nothing rate_limit clock w) as (w1 & Hcheck & Hex1).
  unfold publish_video, try_except. unfold bind at 1. rewrite Hcheck.
  unfold bind at 1. unfold requests_post, send. rewrite Hex1.
  fold (video_media_request access_token business_account_id base_url content video_url).
  fold create. subst answer1.
  destruct (platform (exchanges w) create) as [response | e] eqn:Ha1.
  - destruct (Z.eqb_spec (status_code response) 200) as [Hstatus | Hstatus].
    + unfold bind at 1. unfold lift at 1. unfold response_json at 1.
      destruct (json_loads (text response)) as [body | e] eqn:Hjson.
      * unfold bind at 1. unfold lift at 1.
        destruct (py_get body "id" PNone) as [media_id | e] eqn:Hid.
        -- assert (Hwith : answer_with_id json_loads (Returns response) media_id).
           { exists response, body. repeat split; assumption. }
           unfold bind at 1. cbn [exchanges].
           fold (video_publish_request access_token business_account_id base_url media_id).
           set (publish := video_publish_request access_token business_account_id base_url
                             media_id).
           destruct (platform (exchanges w ++ [(create, Returns response)])%list publish)
             as [response2 | e] eqn:Ha2.
           ++ destruct (Z.eqb_spec (status_code response2) 200) as [Hstatus2 | Hstatus2].
              ** unfold bind, lift, response_json.
                 destruct (json_loads (text response2)) as [post_result | e] eqn:Hjson2.
                 --- unfold published, bind, lift, publisher_now, ret.
                     destruct (py_get post_result "id" PNone) as [id | e] eqn:Hid2.
                     +++ eexists. eexists. exists w1. split; [reflexivity |].
                         split; [reflexivity |]. split; [reflexivity |].
                         split; [reflexivity |]. split; [reflexivity |].
                         right. exists media_id. split; [exact Hwith |]. cbv zeta.
                         fold publish. rewrite Ha2.
                         split; [cbn [exchanges]; rewrite <- app_assoc; reflexivity |].
                         left. exists id. split; [| reflexivity].
                         exists response2, post_result. repeat split; assumption.
                     +++ eexists. eexists. exists w1. split; [reflexivity |].
                         split; [reflexivity |]. split; [reflexivity |].
                         split; [reflexivity |]. split; [reflexivity |].
                         right. exists media_id. split; [exact Hwith |]. cbv zeta.
                         fold publish. rewrite Ha2.
                         split; [cbn [exchanges]; rewrite <- app_assoc; reflexivity |].
                         right. split; [| eexists; reflexivity].
                         intros id (r & b & Hr & _ & Hj & Hi). injection Hr as <-.
                         rewrite Hjson2 in Hj. injection Hj as <-. rewrite Hid2 in Hi.
                         discriminate Hi.
                 --- eexists. eexists. exists w1. split; [reflexivity |].
                     split; [reflexivity |]. split; [reflexivity |].
                     split; [reflexivity |]. split; [reflexivity |].
                     right. exists media_id. split; [exact Hwith |]. cbv zeta.
                     fold publish. rewrite Ha2.
                     split; [cbn [exchanges]; rewrite <- app_assoc; reflexivity |].
                     right. split; [| eexists; reflexivity].
                     intros id (r & b & Hr & _ & Hj & Hi). injection Hr as <-.
                     rewrite Hjson2 in Hj. discriminate Hj.
              ** unfold ret. eexists. eexists. exists w1. split; [reflexivity |].
                 split; [reflexivity |]. split; [reflexivity |].
                 split; [reflexivity |]. split; [reflexivity |].
                 right. exists media_id. split; [exact Hwith |]. cbv zeta.
                 fold publish. rewrite Ha2.
                 split; [cbn [exchanges]; rewrite <- app_assoc; reflexivity |].
                 right. split; [| eexists; reflexivity].
                 intros id (r & b & Hr & Hs & _). injection Hr as <-. contradiction.
           ++ unfold ret. eexists. eexists. exists w1. split; [reflexivity |].
              split; [reflexivity |]. split; [reflexivity |].
              split; [reflexivity |]. split; [reflexivity |].
              right. exists media_id. split; [exact Hwith |]. cbv zeta.
              fold publish. rewrite Ha2.
              split; [cbn [exchanges]; rewrite <- app_assoc; reflexivity |].
              right. split; [| eexists; reflexivity].
              intros id (r & b & Hr & _). discriminate Hr.
        -- unfold ret. eexists. eexists. exists w1. split; [reflexivity |].
           split; [reflexivity |]. split; [reflexivity |].
           split; [reflexivity |]. split; [reflexivity |].
           left. split; [reflexivity |]. split; [| eexists; reflexivity].
           intros id (r & b & Hr & _ & Hj & Hi). injection Hr as <-.
           rewrite Hjson in Hj. injection Hj as <-. rewrite Hid in Hi. discriminate Hi.
      * unfold ret. eexists. eexists. exists w1. split; [reflexivity |].
        split; [reflexivity |]. split; [reflexivity |].
        split; [reflexivity |]. split; [reflexivity |].
        left. split; [reflexivity |]. split; [| eexists; reflexivity].
        intros id (r & b & Hr & _ & Hj & Hi). injection Hr as <-.
        rewrite Hjson in Hj. discriminate Hj.
    + unfold ret. eexists. eexists. exists w1. split; [reflexivity |].
      split; [reflexivity |]. split; [reflexivity |].
      split; [reflexivity |]. split; [reflexivity |].
      left. split; [reflexivity |]. split; [| eexists; reflexivity].
      intros id (r & b & Hr & Hs & _). injection Hr as <-. contradiction.
  - unfold ret. eexists. eexists. exists w1. split; [reflexivity |].
    split; [reflexivity |]. split; [reflexivity |].
    split; [reflexivity |]. split; [reflexivity |].
    left. split; [reflexivity |]. split; [| eexists; reflexivity].
    intros id (r & b & Hr & _). discriminate Hr.
Qed.

(** *** The reading calls *)

Abbreviation account_insights :=
  (get_account_insights json_loads access_token business_account_id base_url rate_limit
     platform clock).
Abbreviation post_insights :=
  (get_post_insights json_loads access_token base_url rate_limit platform clock).
Abbreviation connection :=
  (test_connection json_loads access_token business_account_id base_url rate_limit
     platform clock).
Abbreviation scheduled_posts :=
  (get_scheduled_posts json_loads access_token business_account_id base_url rate_limit
     platform clock).

(** A GET after the limiter. *)
Lemma get_after_limiter {A : Type} (url : string) (params : list (string * pyval))
    (k : HttpResponse -> prog PublisherWorld A) (w : PublisherWorld) :
  exists w1,
    limiter w = (Returns tt, w1) /\
    bind limiter (fun _ => bind (requests_get platform url params) k) w
    = match platform (exchanges w) (mk_HttpRequest "GET" url params) with
      | Returns response =>
          k response (after_one_request platform w w1 (mk_HttpRequest "GET" url params))
      | Raises e =>
          (Raises e, after_one_request platform w w1 (mk_HttpRequest "GET" url params))
      end.
Proof.
  destruct (check_rate_limit_sends_nothing rate_limit clock w) as (w1 & Hcheck & Hex1).
  exists w1. split; [exact Hcheck |].
  unfold bind at 1. rewrite Hcheck. unfold bind at 1.
  unfold requests_get, send, after_one_request. rewrite Hex1.
  destruct (platform (exchanges w) (mk_HttpRequest "GET" url params)); reflexivity.
Qed.

(** X18: The two insights calls never raise. Each passes the rate limiter once
    and then sends exactly one request, a GET to the insights URL (of the
    account, or of the given post) with its metrics joined by commas and
    the access token. The result is the parsed body of an answer with
    status 200, as it is (not examined, and not necessarily a dict), and
    otherwise a dict with the single entry "error". *)
Theorem insights_calls (post_id : string) (w : PublisherWorld) :
  let account_request :=
    mk_HttpRequest "GET" (base_url ++ "/" ++ business_account_id ++ "/insights")
      [("metric",
        PStr "impressions,reach,profile_views,follower_count,email_contacts,phone_call_clicks,text_message_clicks");
       ("period", PStr "day"); ("access_token", PStr access_token)] in
  let post_request :=
    mk_HttpRequest "GET" (base_url ++ "/" ++ post_id ++ "/insights")
      [("metric", PStr "impressions,reach,engagement,saved,video_views,video_view_rate");
       ("access_token", PStr access_token)] in
  exists w1,
    limiter w = (Returns tt, w1) /\
    account_insights w
    = (Returns (insights_result json_loads "Failed to get insights: "
                  (platform (exchanges w) account_request)),
       after_one_request platform w w1 account_request) /\
    post_insights post_id w
    = (Returns (insights_result json_loads "Failed to get post insights: "
                  (platform (exchanges w) post_request)),
       after_one_request platform w w1 post_request).
Proof.
  intros account_request post_request.
  destruct (check_rate_limit_sends_nothing rate_limit clock w) as (w1 & Hcheck & _).
  exists w1. split; [exact Hcheck |]. split.
  - unfold get_account_insights, try_except.
    match goal with
    | |- context [bind limiter (fun _ => bind (requests_get platform ?u ?p) ?k) w] =>
        destruct (get_after_limiter u p k w) as (w1' & Hcheck' & Hrun)
    end.
    rewrite Hcheck in Hcheck'. injection Hcheck' as <-. rewrite Hrun.
    change (mk_HttpRequest "GET" (base_url ++ "/" ++ business_account_id ++ "/insights")
              [("metric", PStr (str_join "," account_metrics)); ("period", PStr "day");
               ("access_token", PStr access_token)]) with account_request.
    unfold insights_result.
    destruct (platform (exchanges w) account_request) as [response | e]; [| reflexivity].
    destruct (status_code response =? 200); [| reflexivity].
    unfold lift, response_json. destruct (json_loads (text response)); reflexivity.
  - unfold get_post_insights, try_except.
    match goal with
    | |- context [bind limiter (fun _ => bind (requests_get platform ?u ?p) ?k) w] =>
        destruct (get_after_limiter u p k w) as (w1' & Hcheck' & Hrun)
    end.
    rewrite Hcheck in Hcheck'. injection Hcheck' as <-. rewrite Hrun.
    change (mk_HttpRequest "GET" (base_url ++ "/" ++ post_id ++ "/insights")
              [("metric", PStr (str_join "," post_metrics));
               ("access_token", PStr access_token)]) with post_request.
    unfold insights_result.
    destruct (platform (exchanges w) post_request) as [response | e]; [| reflexivity].
    destruct (status_code response =? 200); [| reflexivity].
    unfold lift, response_json. destruct (json_loads (text response)); reflexivity.
Qed.

Lemma collect_scheduled_dicts (items : list (list (string * pyval))) :
  forall scheduled_posts,
    collect_scheduled (map PDict items) scheduled_posts
    = Returns (scheduled_posts
               ++ map scheduled_entry
                    (filter (fun media => negb (has_key "published" media)) items))%list.
Proof.
  induction items as [| media rest IH]; intros acc.
  - simpl. rewrite app_nil_r. reflexivity.
  - cbn [map collect_scheduled filter py_contains and_then py_get]. unfold has_key at 1.
    destruct (assoc_lookup "published" media) as [x |]; cbn [negb].
    + apply IH.
    + cbn [map]. unfold scheduled_entry at 1.
      destruct (assoc_lookup "id" media), (assoc_lookup "media_type" media),
        (assoc_lookup "created_time" media); cbn [and_then]; rewrite IH, <- app_assoc;
        reflexivity.
Qed.

(** X19: [get_scheduled_posts] never raises, passes the limiter once and sends
    one GET to the media URL. It returns a list or, on any failure, a
    dict with the single entry "error". For an answer with status 200
    whose body holds a list of dicts under "data", the list has one entry
    per item that has no key "published", in the order of the items, with
    the item's "id", "media_type" and "created_time" ([None] where absent)
    and the status "scheduled"; without "data" in the body the list is
    empty. *)
Theorem scheduled_posts_filter (w : PublisherWorld) :
  let req :=
    mk_HttpRequest "GET" to_media
      [("access_token", PStr access_token);
       ("fields", PStr "id,media_type,media_url,thumbnail_url,created_time")] in
  exists result w1,
    limiter w = (Returns tt, w1) /\
    scheduled_posts w = (Returns result, after_one_request platform w w1 req) /\
    ((exists posts, result = PList posts) \/ (exists message, result = error_dict message)) /\
    (forall response body,
       platform (exchanges w) req = Returns response -> status_code response = 200 ->
       json_loads (text response) = Returns (PDict body) ->
       (forall items, assoc_lookup "data" body = Some (PList (map PDict items)) ->
          result = PList (map scheduled_entry
                            (filter (fun media => negb (has_key "published" media)) items))) /\
       (assoc_lookup "data" body = None -> result = PList [])).
Proof.
  intros req.
  unfold get_scheduled_posts, try_except.
  match goal with
  | |- context [bind limiter (fun _ => bind (requests_get platform ?u ?p) ?k) w] =>
      destruct (get_after_limiter u p k w) as (w1 & Hcheck & Hrun)
  end.
  fold req in Hrun. rewrite Hrun. clear Hrun.
  destruct (platform (exchanges w) req) as [response | e].
  - destruct (Z.eqb_spec (status_code response) 200) as [Hstatus | Hstatus].
    + unfold bind at 1. unfold lift at 1. unfold response_json.
      destruct (json_loads (text response)) as [body | e] eqn:Hjson.
      * unfold bind at 1. unfold lift at 1.
        destruct (py_get body "data" (PList [])) as [data | e] eqn:Hdata.
        -- unfold bind at 1. unfold lift at 1.
           destruct (py_iter data) as [media_list | e] eqn:Hiter.
           ++ unfold bind at 1. unfold lift at 1.
              destruct (collect_scheduled media_list []) as [posts | e] eqn:Hcollect.
              ** unfold ret. exists (PList posts), w1. split; [exact Hcheck |].
                 split; [reflexivity |]. split; [left; exists posts; reflexivity |].
                 intros response' body' Hr _ Hb. injection Hr as <-. rewrite Hjson in Hb. injection Hb as ->.
                 simpl in Hdata. split.
                 --- intros items Hitems. rewrite Hitems in Hdata. injection Hdata as <-.
                     simpl in Hiter. injection Hiter as <-.
                     rewrite collect_scheduled_dicts in Hcollect. injection Hcollect as <-.
                     reflexivity.
                 --- intros Hnone. rewrite Hnone in Hdata. injection Hdata as <-.
                     simpl in Hiter. injection Hiter as <-. simpl in Hcollect.
                     injection Hcollect as <-. reflexivity.
              ** eexists. exists w1. split; [exact Hcheck |]. split; [reflexivity |].
                 split; [right; eexists; reflexivity |].
                 intros response' body' Hr _ Hb. injection Hr as <-. rewrite Hjson in Hb. injection Hb as ->.
                 simpl in Hdata. split.
                 --- intros items Hitems. rewrite Hitems in Hdata. injection Hdata as <-.
                     simpl in Hiter. injection Hiter as <-.
                     rewrite collect_scheduled_dicts in Hcollect. discriminate Hcollect.
                 --- intros Hnone. rewrite Hnone in Hdata. injection Hdata as <-.
                     simpl in Hiter. injection Hiter as <-. discriminate Hcollect.
           ++ eexists. exists w1. split; [exact Hcheck |]. split; [reflexivity |].
              split; [right; eexists; reflexivity |].
              intros response' body' Hr _ Hb. injection Hr as <-. rewrite Hjson in Hb. injection Hb as ->.
              simpl in Hdata. split.
              ** intros items Hitems. rewrite Hitems in Hdata. injection Hdata as <-.
                 discriminate Hiter.
              ** intros Hnone. rewrite Hnone in Hdata. injection Hdata as <-.
                 discriminate Hiter.
        -- eexists. exists w1. split; [exact Hcheck |]. split; [reflexivity |].
           split; [right; eexists; reflexivity |].
           intros response' body' Hr _ Hb. injection Hr as <-. rewrite Hjson in Hb. injection Hb as ->.
           simpl in Hdata. destruct (assoc_lookup "data" body'); discriminate Hdata.
      * eexists. exists w1. split; [exact Hcheck |]. split; [reflexivity |].
        split; [right; eexists; reflexivity |].
        intros response' body' Hr _ Hb. injection Hr as <-. rewrite Hjson in Hb. discriminate Hb.
    + unfold ret. eexists. exists w1. split; [exact Hcheck |]. split; [reflexivity |].
      split; [right; eexists; reflexivity |].
      intros response' body' Hr Hs. injection Hr as <-. contradiction.
  - unfold ret. eexists. exists w1. split; [exact Hcheck |]. split; [reflexivity |].
    split; [right; eexists; reflexivity |].
    intros response' body' Hr. discriminate Hr.
Qed.

(** X20: [test_connection] never raises, passes the limiter once and sends
    one GET to the account URL. It reports "connected" exactly when the
    answer has status 200 and a JSON object as body, whatever the object
    holds: the name and the username default to "Unknown" and the two
    counts to 0, so an empty object counts as a connection. In every other
    case it reports "error" with a message: the text of the answer, or
    that of the exception. *)
Theorem test_connection_outcome (w : PublisherWorld) :
  let req := mk_HttpRequest "GET" (base_url ++ "/" ++ business_account_id)
               [("access_token", PStr access_token)] in
  let answer := platform (exchanges w) req in
  exists d w1,
    limiter w = (Returns tt, w1) /\
    connection w = (Returns d, after_one_request platform w w1 req) /\
    ((exists response info,
        answer = Returns response /\ status_code response = 200 /\
        json_loads (text response) = Returns (PDict info) /\
        d = [("status", PStr "connected");
             ("account_name", item_or "name" (PStr "Unknown") info);
             ("username", item_or "username" (PStr "Unknown") info);
             ("followers", item_or "followers_count" (PInt 0) info);
             ("media_count", item_or "media_count" (PInt 0) info)]) \/
     ((forall response info,
         answer = Returns response -> status_code response = 200 ->
         json_loads (text response) <> Returns (PDict info)) /\
      exists message, d = [("status", PStr "error"); ("message", PStr message)])).
Proof.
  intros req answer. subst answer.
  unfold test_connection, try_except.
  match goal with
  | |- context [bind limiter (fun _ => bind (requests_get platform ?u ?p) ?k) w] =>
      destruct (get_after_limiter u p k w) as (w1 & Hcheck & Hrun)
  end.
  fold req in Hrun. rewrite Hrun. clear Hrun.
  destruct (platform (exchanges w) req) as [response | e].
  - destruct (Z.eqb_spec (status_code response) 200) as [Hstatus | Hstatus].
    + unfold bind at 1. unfold lift at 1. unfold response_json.
      destruct (json_loads (text response)) as [account_info | e] eqn:Hjson.
      * destruct account_info as [| b | n | f | s | l | info].
        7: { unfold bind, lift, ret, py_get, item_or.
             exists [("status", PStr "connected");
                     ("account_name", item_or "name" (PStr "Unknown") info);
                     ("username", item_or "username" (PStr "Unknown") info);
                     ("followers", item_or "followers_count" (PInt 0) info);
                     ("media_count", item_or "media_count" (PInt 0) info)], w1.
             split; [exact Hcheck |]. unfold item_or.
             split; [| left; exists response, info; repeat split; assumption].
             destruct (assoc_lookup "name" info), (assoc_lookup "username" info),
               (assoc_lookup "followers_count" info), (assoc_lookup "media_count" info);
               reflexivity. }
        all: unfold bind, lift, ret, py_get; eexists; exists w1;
          (split; [exact Hcheck |]); (split; [reflexivity |]); right;
          (split; [| eexists; reflexivity]);
          intros response' info Hr _ Hb; injection Hr as <-; rewrite Hjson in Hb;
          discriminate Hb.
      * eexists. exists w1. split; [exact Hcheck |]. split; [reflexivity |]. right.
        split; [| eexists; reflexivity].
        intros response' info Hr _ Hb. injection Hr as <-. rewrite Hjson in Hb.
        discriminate Hb.
    + unfold ret. eexists. exists w1. split; [exact Hcheck |]. split; [reflexivity |]. right.
      split; [| eexists; reflexivity].
      intros response' info Hr Hs. injection Hr as <-. contradiction.
  - unfold ret. eexists. exists w1. split; [exact Hcheck |]. split; [reflexivity |]. right.
    split; [| eexists; reflexivity].
    intros response' info Hr. discriminate Hr.
Qed.

End PublisherRuns.

(** ** More on the estimator *)

Lemma split_table : forallb split_ok counts = true.
Proof. vm_compute. reflexivity. Qed.

Lemma rate_bp_bounds (content : ContentPiece) : 500 <= rate_bp content <= 1250.
Proof.
  unfold rate_bp.
  destruct (has_concept_bonus content), (has_motif_bonus content),
    (has_video_bonus content), (has_weekend_bonus content); lia.
Qed.

(** X21: The estimate in whole numbers. For a reach between 500 and 2000 the
    engagement count is [reach * rate / 10000] with the rate in basis
    points, between 25 and 250; the comments are a fifth of it and the
    saves a tenth, rounded down; the likes are seven tenths of it rounded
    down, but one less at the counts 90, 170 and 180, where the binary64
    product with 0.7 falls just below the whole number. So the likes are
    never fewer than the comments, nor the comments than the saves, and
    the three counts together fall short of the engagement count by at
    most 2. *)
Theorem estimate_split_in_integers (content : ContentPiece) (reach : Z) :
  500 <= reach <= 2000 ->
  let count := reach * rate_bp content / 10000 in
  exists est,
    _estimate_engagement content reach = Returns est /\
    25 <= count <= 250 /\
    estimated_likes est = likes_of count /\
    estimated_comments est = count / 5 /\
    estimated_saves est = count / 10 /\
    estimated_saves est <= estimated_comments est <= estimated_likes est /\
    count - 2 <= estimated_likes est + estimated_comments est + estimated_saves est.
Proof.
  intros Hr count.
  pose proof (estimate_ok_everywhere content reach Hr) as Hok.
  destruct (estimate_flags content reach) as [He Hc].
  unfold estimate_ok in Hok. rewrite <- He, <- Hc, <- rate_bp_flags in Hok.
  destruct (_estimate_engagement content reach) as [est |] eqn:Hest; [| discriminate Hok].
  destruct (estimated_engagement_count content reach) as [count' |] eqn:Hcount;
    [| discriminate Hok].
  repeat (apply andb_prop in Hok; destruct Hok as [Hok ?]).
  assert (count' = count) by (apply Z.eqb_eq; assumption). subst count'.
  pose proof (rate_bp_bounds content) as Hbp.
  assert (Hrange : 25 <= count <= 250).
  { subst count. split.
    - apply Z.div_le_lower_bound; [lia | nia].
    - apply Z.div_le_upper_bound; [lia | nia]. }
  assert (Hin : In count counts).
  { unfold counts. apply in_map_iff. exists (Z.to_nat count). split; [lia |].
    apply in_seq. lia. }
  pose proof split_table as Ht. rewrite forallb_forall in Ht. specialize (Ht count Hin).
  unfold split_ok in Ht.
  unfold _estimate_engagement in Hest. rewrite Hcount in Hest. simpl and_then in Hest.
  destruct (int_of_float (float_of_int count * 0.7)%float) as [likes |];
    [| discriminate Ht].
  destruct (int_of_float (float_of_int count * 0.2)%float) as [comments |];
    [| discriminate Ht].
  destruct (int_of_float (float_of_int count * 0.1)%float) as [saves |];
    [| discriminate Ht].
  simpl and_then in Hest. injection Hest as Hrec. subst est.
  cbn [estimated_likes estimated_comments estimated_saves].
  apply andb_prop in Ht. destruct Ht as [Ht Hsaves].
  apply andb_prop in Ht. destruct Ht as [Hlikes Hcomments].
  apply Z.eqb_eq in Hlikes, Hcomments, Hsaves. subst likes comments saves.
  exists {| estimated_reach := reach;
            estimated_engagement_rate := round2 (base_engagement content * 100)%float;
            estimated_likes := likes_of count;
            estimated_comments := count / 5;
            estimated_saves := count / 10 |}.
  cbn [estimated_likes estimated_comments estimated_saves].
  split; [reflexivity |]. split; [exact Hrange |].
  split; [reflexivity |]. split; [reflexivity |]. split; [reflexivity |].
  unfold likes_of, float_slips. cbn [existsb].
  destruct (Z.eqb_spec count 90) as [-> | H90]; [vm_compute; repeat split; discriminate |].
  destruct (Z.eqb_spec count 170) as [-> | H170]; [vm_compute; repeat split; discriminate |].
  destruct (Z.eqb_spec count 180) as [-> | H180]; [vm_compute; repeat split; discriminate |].
  cbn [orb]. split; [split |]; Z.div_mod_to_equations; lia.
Qed.

Lemma estimate_split_in_integers_witness :
  500 <= 1800 <= 2000 /\
  exists est,
    _estimate_engagement a_plain_piece 1800 = Returns est /\
    estimated_likes est = 62 /\ estimated_comments est = 18 /\ estimated_saves est = 9.
Proof.
  assert (Hr : 500 <= 1800 <= 2000) by lia.
  split; [exact Hr |].
  destruct (estimate_split_in_integers a_plain_piece 1800 Hr)
    as (est & Hrun & _ & Hlikes & Hcomments & Hsaves & _).
  exists est. split; [exact Hrun |]. rewrite Hlikes, Hcomments, Hsaves.
  vm_compute. repeat split.
Defined.

(** ** Scheduling a batch *)

Section SchedulerProperties.

Variable isoformat : datetime -> string.
Variable randint : nat -> Z -> Z -> Z.

Abbreviation optimal_time := (calculate_optimal_time randint).
Abbreviation schedule_from := (schedule_loop isoformat randint).

(** The scheduler with its draw agrees with [_calculate_optimal_time] on
    the drawn jitter; it draws once, unless [replace] raises. *)
Lemma calculate_optimal_time_draw (start_date : datetime) (post_index : Z) (draws : nat) :
  fst (optimal_time start_date post_index draws)
  = _calculate_optimal_time start_date post_index (randint draws (-15) 15) /\
  (forall post_time draws',
     optimal_time start_date post_index draws = (Returns post_time, draws') ->
     draws' = S draws).
Proof.
  unfold calculate_optimal_time, _calculate_optimal_time, bind, lift, random_randint.
  destruct (datetime_replace start_date _ 0 0 0) as [post_time | e]; simpl.
  - split; [reflexivity |]. intros t d H. injection H as _ <-. reflexivity.
  - split; [reflexivity |]. intros t d H. discriminate H.
Qed.

Lemma optimal_time_returns (start_date : datetime) (post_index jitter : Z) :
  valid_datetime start_date -> 0 <= post_index <= 7 -> -15 <= jitter <= 15 ->
  exists post_time,
    _calculate_optimal_time start_date post_index jitter = Returns post_time /\
    dt_ordinal post_time = dt_ordinal start_date.
Proof.
  intros Hv Hi Hj. unfold _calculate_optimal_time.
  pose proof (base_hour_cases post_index Hi) as Hh.
  set (h := if 21 <? 9 + post_index * 3 then 9 + post_index * 2 else 9 + post_index * 3) in *.
  rewrite datetime_replace_accepts by lia. cbn [and_then].
  rewrite add_minutes_same_day; [| apply Hv | exact Hh | exact Hj].
  eexists. split; reflexivity.
Qed.

Lemma estimate_returns (content : ContentPiece) (reach : Z) :
  500 <= reach <= 2000 -> exists est, _estimate_engagement content reach = Returns est.
Proof.
  intros Hr. pose proof (estimate_ok_everywhere content reach Hr) as Hok.
  destruct (estimate_flags content reach) as [He _].
  unfold estimate_ok in Hok. rewrite <- He in Hok.
  destruct (_estimate_engagement content reach) as [est |]; [| discriminate Hok].
  exists est. reflexivity.
Qed.

Lemma schedule_loop_run (start_date : datetime) (content_pieces : list ContentPiece) :
  valid_datetime start_date -> within_bounds randint ->
  forall (i : nat) (scheduled_posts : list ScheduledPost) (draws : nat),
    (i + List.length content_pieces <= 8)%nat ->
    exists posts,
      schedule_from start_date i content_pieces scheduled_posts draws
      = (Returns (scheduled_posts ++ posts)%list,
         (draws + 2 * List.length content_pieces)%nat) /\
      List.length posts = List.length content_pieces /\
      (forall k content, nth_error content_pieces k = Some content ->
         exists post,
           nth_error posts k = Some post /\
           post_content post = content /\
           post_status post = "scheduled" /\
           (exists post_time,
              _calculate_optimal_time start_date (Z.of_nat (i + k))
                (randint (draws + 2 * k)%nat (-15) 15) = Returns post_time /\
              dt_ordinal post_time = dt_ordinal start_date /\
              scheduled_time post = isoformat post_time) /\
           _estimate_engagement content (randint (draws + 2 * k + 1)%nat 500 2000)
           = Returns (estimated_engagement post)).
Proof.
  intros Hv Hb. induction content_pieces as [| content rest IH];
    intros i scheduled_posts draws Hlen.
  - exists []. simpl. unfold ret. rewrite app_nil_r, Nat.add_0_r.
    split; [reflexivity |]. split; [reflexivity |].
    intros k c H. destruct k; discriminate H.
  - simpl in Hlen.
    assert (Hj : -15 <= randint draws (-15) 15 <= 15) by (apply Hb; lia).
    assert (Hr : 500 <= randint (S draws) 500 2000 <= 2000) by (apply Hb; lia).
    destruct (optimal_time_returns start_date (Z.of_nat i) _ Hv ltac:(lia) Hj)
      as (post_time & Htime & Hord).
    destruct (estimate_returns content _ Hr) as (est & Hest).
    destruct (calculate_optimal_time_draw start_date (Z.of_nat i) draws) as (Hagree & Hdraw).
    destruct (optimal_time start_date (Z.of_nat i) draws) as [out draws1] eqn:Hrun.
    simpl in Hagree. rewrite Htime in Hagree. subst out.
    specialize (Hdraw post_time draws1 eq_refl). subst draws1.
    set (post := {| post_content := content; scheduled_time := isoformat post_time;
                    post_status := "scheduled"; estimated_engagement := est |}).
    destruct (IH (S i) (scheduled_posts ++ [post])%list (S (S draws)) ltac:(lia))
      as (posts & Hloop & Hcount & Hposts).
    exists (post :: posts).
    split; [| split].
    + cbn [schedule_loop]. unfold bind at 1. rewrite Hrun.
      unfold bind at 1. unfold estimate_engagement, bind, random_randint, lift.
      rewrite Hest. fold post. rewrite Hloop. rewrite <- app_assoc.
      f_equal. simpl. lia.
    + simpl. rewrite Hcount. reflexivity.
    + intros k c Hk. destruct k as [| k].
      * injection Hk as <-. exists post. split; [reflexivity |].
        split; [reflexivity |]. split; [reflexivity |].
        rewrite !Nat.add_0_r. split.
        -- exists post_time. split; [exact Htime |]. split; [exact Hord | reflexivity].
        -- replace (draws + 1)%nat with (S draws) by lia. exact Hest.
      * destruct (Hposts k c Hk) as (p & Hnth & Hc & Hs & Ht & He).
        exists p. split; [exact Hnth |]. split; [exact Hc |]. split; [exact Hs |].
        replace (i + S k)%nat with (S i + k)%nat by lia.
        replace (draws + 2 * S k)%nat with (S (S draws) + 2 * k)%nat by lia.
        split; [exact Ht | exact He].
Qed.

(** X22: [schedule_content] is all or nothing, and its capacity is eight
    pieces. With a valid start date and draws within their bounds, a
    batch of at most 8 pieces gets one post per piece, in order: post [i]
    holds piece [i], the status "scheduled", a time on the start date (the
    one of [_calculate_optimal_time] for index [i]) and the estimate of
    the piece, after two draws per piece. A batch of more than 8 pieces
    raises [ValueError] at the ninth, and no post is returned, the first
    eight included. *)
Theorem schedule_content_capacity (content_pieces : list ContentPiece)
    (start_date : datetime) (draws : nat) :
  valid_datetime start_date -> within_bounds randint ->
  ((List.length content_pieces <= 8)%nat ->
   exists posts,
     schedule_content isoformat randint content_pieces start_date draws
     = (Returns posts, (draws + 2 * List.length content_pieces)%nat) /\
     List.length posts = List.length content_pieces /\
     (forall i content, nth_error content_pieces i = Some content ->
        exists post,
          nth_error posts i = Some post /\
          scheduled_for isoformat randint start_date draws i content post)) /\
  ((8 < List.length content_pieces)%nat ->
   schedule_content isoformat randint content_pieces start_date draws
   = (Raises (Exception "ValueError" "hour must be in 0..23"), (draws + 16)%nat)).
Proof.
  intros Hv Hb. split.
  - intros Hlen.
    destruct (schedule_loop_run start_date content_pieces Hv Hb 0%nat [] draws Hlen)
      as (posts & Hrun & Hcount & Hposts).
    exists posts. split; [exact Hrun |]. split; [exact Hcount |].
    intros i content Hi. destruct (Hposts i content Hi) as (post & Hnth & H1 & H2 & H3 & H4).
    exists post. split; [exact Hnth |]. unfold scheduled_for.
    split; [exact H1 |]. split; [exact H2 |]. split; [exact H3 | exact H4].
  - intros Hlen.
    assert (Hsplit : content_pieces
                     = (firstn 8 content_pieces ++ skipn 8 content_pieces)%list)
      by (symmetry; apply firstn_skipn).
    assert (Hfirst : List.length (firstn 8 content_pieces) = 8%nat)
      by (rewrite length_firstn; lia).
    destruct (skipn 8 content_pieces) as [| ninth rest] eqn:Hskip.
    { exfalso. rewrite Hsplit, length_app, Hfirst in Hlen. simpl in Hlen. lia. }
    unfold schedule_content. rewrite Hsplit.
    generalize dependent (firstn 8 content_pieces). intros first8 _ Hfirst.
    assert (Hgen : forall (l : list ContentPiece) (i : nat) acc d,
               (i + List.length l = 8)%nat ->
               schedule_from start_date i (l ++ ninth :: rest) acc d
               = (Raises (Exception "ValueError" "hour must be in 0..23"),
                  (d + 2 * List.length l)%nat)).
    { induction l as [| c l IHl]; intros i acc d Hi.
      - simpl in Hi. assert (i = 8%nat) by lia. subst i.
        cbn [app schedule_loop]. unfold bind at 1.
        destruct (calculate_optimal_time_draw start_date (Z.of_nat 8) d) as (Hagree & Hdraw).
        rewrite optimal_time_value_error in Hagree by lia.
        unfold calculate_optimal_time, bind, lift in *.
        assert (Hrep : datetime_replace start_date
                         (if 21 <? 9 + Z.of_nat 8 * 3
                          then 9 + Z.of_nat 8 * 2 else 9 + Z.of_nat 8 * 3) 0 0 0
                       = Raises (Exception "ValueError" "hour must be in 0..23"))
          by (rewrite datetime_replace_refuses by (simpl; lia); reflexivity).
        destruct (datetime_replace start_date _ 0 0 0) as [t | e].
        + discriminate Hrep.
        + simpl in Hagree. injection Hagree as ->. simpl. rewrite Nat.add_0_r. reflexivity.
      - simpl in Hi.
        destruct (schedule_loop_run start_date [c] Hv Hb i acc d ltac:(simpl; lia))
          as (posts & Hrun & _).
        cbn [app schedule_loop]. cbn [schedule_loop] in Hrun.
        unfold bind at 1 in Hrun. unfold bind at 1.
        destruct (optimal_time start_date (Z.of_nat i) d) as [[t | e] d1];
          [| discriminate Hrun].
        unfold bind at 1 in Hrun. unfold bind at 1.
        destruct (estimate_engagement randint c d1) as [[est | e] d2];
          [| discriminate Hrun].
        unfold ret in Hrun. injection Hrun as _ Hd2. subst d2.
        rewrite (IHl (S i)) by lia. f_equal. simpl. lia. }
    rewrite (Hgen first8 0%nat [] draws) by lia. rewrite Hfirst. reflexivity.
Qed.

End SchedulerProperties.

Lemma schedule_content_capacity_witness :
  valid_datetime a_start_date /\ within_bounds lowest_draw /\
  (exists posts,
     schedule_content an_isoformat lowest_draw [a_plain_piece; a_video_piece] a_start_date 0%nat
     = (Returns posts, 4%nat)) /\
  schedule_content an_isoformat lowest_draw (repeat a_plain_piece 9) a_start_date 0%nat
  = (Raises (Exception "ValueError" "hour must be in 0..23"), 16%nat).
Proof.
  assert (Hb : within_bounds lowest_draw) by (intros k lo hi H; unfold lowest_draw; lia).
  split; [exact a_start_date_valid | split; [exact Hb |]].
  split.
  - destruct (schedule_content_capacity an_isoformat lowest_draw [a_plain_piece; a_video_piece]
                a_start_date 0%nat a_start_date_valid Hb) as (Hsmall & _).
    destruct (Hsmall ltac:(simpl; lia)) as (posts & Hrun & _).
    exists posts. exact Hrun.
  - destruct (schedule_content_capacity an_isoformat lowest_draw (repeat a_plain_piece 9)
                a_start_date 0%nat a_start_date_valid Hb) as (_ & Hbig).
    apply Hbig. simpl. lia.
Defined.

(** ** The bodies of the generation tasks *)

Section TaskRuns.

Variable json_loads : string -> outcome pyval.
Variable py_str : pyval -> string.
Variable chat_completion : list string -> string -> outcome string.
Variable rng : nat -> nat.
Variable clock : nat -> datetime.
Variable strftime_ymd : datetime -> string.
Variable isoformat : datetime -> string.
Variable openai_api_key : option string.

Abbreviation daily_body :=
  (daily_content_body json_loads py_str chat_completion rng clock isoformat openai_api_key).
Abbreviation weekly_body :=
  (weekly_content_body json_loads py_str chat_completion rng clock strftime_ymd isoformat
     openai_api_key).
Abbreviation campaign_body :=
  (bot_teaser_campaign_body json_loads py_str chat_completion rng clock isoformat
     openai_api_key).

Lemma new_engine_run (w : EngineWorld) :
  new_engine openai_api_key w
  = (if py_not_str openai_api_key then Raises missing_key else Returns tt, w).
Proof. unfold new_engine. destruct (py_not_str openai_api_key); reflexivity. Qed.

(** Without a key every body raises at once and touches nothing. *)
Lemma bodies_without_key (w : EngineWorld) :
  py_not_str openai_api_key = true ->
  daily_body w = (Raises missing_key, w) /\
  weekly_body w = (Raises missing_key, w) /\
  campaign_body w = (Raises missing_key, w).
Proof.
  intros Hkey.
  split; [| split].
  - unfold daily_content_body. unfold bind at 1. rewrite new_engine_run, Hkey. reflexivity.
  - unfold weekly_content_body. unfold bind at 1. rewrite new_engine_run, Hkey. reflexivity.
  - unfold bot_teaser_campaign_body. unfold bind at 1. rewrite new_engine_run, Hkey.
    reflexivity.
Qed.

(** The daily body with a key, step by step. *)
Lemma daily_body_run (w : EngineWorld) :
  py_not_str openai_api_key = false ->
  let reads := engine_clock_reads w in
  let video_day := existsb (Z.eqb (weekday (clock (2 + reads)))) [0; 2; 4] in
  exists theme0 carousel video w',
    daily_body w
    = (Returns
         (PDict [("status", PStr "success");
                 ("content",
                  PDict [("theme", PStr (theme_value theme0));
                         ("carousel", daily_carousel_dict carousel);
                         ("video", daily_video_dict video);
                         ("generated_at",
                          PStr (isoformat (clock ((if video_day then 4 else 3) + reads))))]);
                 ("generated_at",
                  PStr (isoformat (clock ((if video_day then 5 else 4) + reads))))]),
       w') /\
    nth_error all_themes (Z.to_nat (weekday (clock reads))) = Some theme0 /\
    theme carousel = theme0 /\ content_type carousel = CAROUSEL /\
    created_at carousel = clock (1 + reads) /\
    (if video_day
     then exists piece, video = Some piece /\ theme piece = theme0 /\
                        content_type piece = VIDEO /\ created_at piece = clock (3 + reads)
     else video = None) /\
    engine_clock_reads w' = ((if video_day then 6 else 5) + reads)%nat /\
    draws w' = ((if video_day then 6 else 3) + draws w)%nat.
Proof.
  intros Hkey reads video_day.
  assert (Hw : 0 <= weekday (clock reads) < 7)
    by (unfold weekday; apply Z.mod_pos_bound; lia).
  destruct (theme_of_weekday _ Hw) as (theme0 & Htheme & _).
  set (w0 := mk_EngineWorld (prompts_sent w) (draws w) (S reads)).
  destruct (carousel_generator_run json_loads py_str chat_completion rng clock theme0 None w0)
    as (carousel & w1 & topic1 & concept1 & element1 & later1 & Hrun1 & Hth1 & Hty1 & Hcr1
        & Hreads1 & Hdraws1 & _).
  simpl in Hcr1, Hreads1, Hdraws1.
  set (w2 := mk_EngineWorld (prompts_sent w1) (draws w1) (S (engine_clock_reads w1))).
  destruct (video_generator_run json_loads py_str chat_completion rng clock theme0 None w2)
    as (piece & w3 & topic2 & concept2 & element2 & later2 & Hrun2 & Hth2 & Hty2 & Hcr2
        & Hreads2 & Hdraws2 & _).
  simpl in Hcr2, Hreads2, Hdraws2.
  unfold daily_content_body.
  unfold bind at 1. rewrite new_engine_run, Hkey.
  unfold bind at 1. unfold get_daily_theme, bind at 1, engine_now at 1. fold reads.
  rewrite Htheme. unfold ret at 1. fold w0.
  unfold bind at 1. rewrite Hrun1.
  unfold bind at 1. unfold engine_now at 1. fold w2. rewrite Hreads1.
  change (S (S reads)) with (2 + reads)%nat. fold video_day.
  destruct video_day eqn:Hvideo.
  - unfold bind at 1. unfold bind at 1. rewrite Hrun2. unfold ret at 1.
    unfold bind, engine_now, ret. rewrite Hreads2, Hreads1.
    exists theme0, carousel, (Some piece). eexists.
    split; [reflexivity |]. split; [reflexivity |]. split; [exact Hth1 |].
    split; [exact Hty1 |]. split; [exact Hcr1 |].
    split; [exists piece; rewrite Hcr2, Hreads1; repeat split; assumption |].
    simpl. split; [reflexivity |]. rewrite Hdraws2, Hdraws1. reflexivity.
  - unfold bind at 1. unfold ret at 1.
    unfold bind, engine_now, ret. simpl engine_clock_reads. rewrite Hreads1.
    exists theme0, carousel, None. eexists.
    split; [reflexivity |]. split; [reflexivity |]. split; [exact Hth1 |].
    split; [exact Hty1 |]. split; [exact Hcr1 |]. split; [reflexivity |].
    simpl. split; [reflexivity |]. rewrite Hdraws1. reflexivity.
Qed.

Lemma weekly_body_run (w : EngineWorld) :
  py_not_str openai_api_key = false -> calendar_clock clock ->
  exists result w', weekly_body w = (Returns result, w').
Proof.
  intros Hkey Hclock.
  destruct (weekly_loop_run json_loads py_str chat_completion rng clock strftime_ymd
              all_themes Hclock 0%nat [] w ltac:(simpl; lia))
    as (assignments & w1 & sent & Hrun & _).
  unfold weekly_content_body. unfold bind at 1. rewrite new_engine_run, Hkey.
  unfold bind at 1. unfold ContentEngine.generate_weekly_content. rewrite Hrun.
  unfold bind, engine_now, ret. eexists. eexists. reflexivity.
Qed.

Lemma campaign_body_run (w : EngineWorld) :
  py_not_str openai_api_key = false ->
  exists pieces w',
    campaign_body w
    = (Returns (PDict [("status", PStr "success");
                       ("campaign_content", PList (map daily_carousel_dict pieces));
                       ("generated_at", PStr (isoformat (clock (4 + engine_clock_reads w))))]),
       w') /\
    List.length pieces = 4%nat.
Proof.
  intros Hkey.
  assert (Htopics : Forall (fun topic => topic <> "") teaser_topics)
    by (repeat constructor; discriminate).
  destruct (campaign_loop_run json_loads py_str chat_completion rng clock teaser_topics
              Htopics [] w)
    as (pieces & w1 & sent & Hrun & Hall & _ & Hreads & _).
  unfold bot_teaser_campaign_body. unfold bind at 1. rewrite new_engine_run, Hkey.
  unfold bind at 1. unfold ContentEngine.generate_bot_teaser_campaign. rewrite Hrun.
  unfold bind, engine_now, ret. rewrite Hreads. simpl app.
  exists pieces. eexists. split; [reflexivity |].
  apply Forall2_length in Hall. simpl in Hall. symmetry. exact Hall.
Qed.

(** X23: The result of the daily task, for a key that is set. The body never
    raises. The theme is that of the weekday of its first clock reading,
    and the carousel and the video are made for it; whether a video is
    made is decided by the weekday of a later reading, the third, so only
    the second decision follows a change of day between the two. The body
    reads the clock 5 times, or 6 with a video, and the two "generated_at"
    stamps are its last two readings. *)
Theorem daily_content_result (w : EngineWorld) :
  py_not_str openai_api_key = false ->
  let reads := engine_clock_reads w in
  let video_day := existsb (Z.eqb (weekday (clock (2 + reads)))) [0; 2; 4] in
  exists theme0 carousel video w',
    daily_body w
    = (Returns
         (PDict [("status", PStr "success");
                 ("content",
                  PDict [("theme", PStr (theme_value theme0));
                         ("carousel", daily_carousel_dict carousel);
                         ("video", daily_video_dict video);
                         ("generated_at",
                          PStr (isoformat (clock ((if video_day then 4 else 3) + reads))))]);
                 ("generated_at",
                  PStr (isoformat (clock ((if video_day then 5 else 4) + reads))))]),
       w') /\
    nth_error all_themes (Z.to_nat (weekday (clock reads))) = Some theme0 /\
    theme carousel = theme0 /\ content_type carousel = CAROUSEL /\
    (if video_day
     then exists piece, video = Some piece /\ theme piece = theme0 /\
                        content_type piece = VIDEO
     else video = None) /\
    engine_clock_reads w' = ((if video_day then 6 else 5) + reads)%nat.
Proof.
  intros Hkey reads video_day.
  destruct (daily_body_run w Hkey)
    as (theme0 & carousel & video & w' & Hrun & Htheme & Hth & Hty & _ & Hvideo & Hreads & _).
  exists theme0, carousel, video, w'.
  split; [exact Hrun |]. split; [exact Htheme |]. split; [exact Hth |]. split; [exact Hty |].
  split; [| exact Hreads].
  fold reads video_day in Hvideo. destruct video_day; [| exact Hvideo].
  destruct Hvideo as (piece & Hp & Hpt & Hpk & _). exists piece. repeat split; assumption.
Qed.

(** X24: The generation tasks fail only for want of a key. With a key set,
    the daily and the campaign task end in Success on their first
    attempt, in whatever world each attempt starts, and so does the weekly
    task under a clock that keeps to the calendar: the retry policy is
    never used. Without a key every attempt raises [ValueError] before
    anything is drawn or sent, and each task makes its three retries all
    the same, after 1, 2 and 4 times its base delay (60, 300 and 600
    seconds), before it fails with that error. *)
Theorem generation_tasks_and_the_key (world_of : Z -> EngineWorld) (fuel : nat) :
  let daily := run_operation generate_daily_content (fun k => fst (daily_body (world_of k))) in
  let weekly :=
    run_operation generate_weekly_content (fun k => fst (weekly_body (world_of k))) in
  let campaign :=
    run_operation generate_bot_teaser_campaign
      (fun k => fst (campaign_body (world_of k))) in
  (py_not_str openai_api_key = false ->
   daily (S fuel) = [Pending; Running 0; Success] /\
   campaign (S fuel) = [Pending; Running 0; Success] /\
   (calendar_clock clock -> weekly (S fuel) = [Pending; Running 0; Success])) /\
  (py_not_str openai_api_key = true -> (4 <= fuel)%nat ->
   daily fuel = failed_trace 60 missing_key /\
   weekly fuel = failed_trace 300 missing_key /\
   campaign fuel = failed_trace 600 missing_key /\
   forall w, snd (daily_body w) = w /\ snd (weekly_body w) = w /\ snd (campaign_body w) = w).
Proof.
  intros daily weekly campaign. subst daily weekly campaign. split.
  - intros Hkey. unfold run_operation. cbn [drive].
    split; [| split].
    + destruct (daily_body_run (world_of 0) Hkey) as (t & c & v & w' & Hrun & _).
      rewrite Hrun. reflexivity.
    + destruct (campaign_body_run (world_of 0) Hkey) as (pieces & w' & Hrun & _).
      rewrite Hrun. reflexivity.
    + intros Hclock. destruct (weekly_body_run (world_of 0) Hkey Hclock) as (r & w' & Hrun).
      rewrite Hrun. reflexivity.
  - intros Hkey Hfuel.
    assert (Hd : forall k, fst (daily_body (world_of k)) = Raises missing_key)
      by (intros k; destruct (bodies_without_key (world_of k) Hkey) as (-> & _); reflexivity).
    assert (Hw : forall k, fst (weekly_body (world_of k)) = Raises missing_key)
      by (intros k; destruct (bodies_without_key (world_of k) Hkey) as (_ & -> & _);
          reflexivity).
    assert (Hc : forall k, fst (campaign_body (world_of k)) = Raises missing_key)
      by (intros k; destruct (bodies_without_key (world_of k) Hkey) as (_ & _ & ->);
          reflexivity).
    unfold run_operation, failed_trace, generate_daily_content, generate_weekly_content,
      generate_bot_teaser_campaign.
    rewrite (drive_always_failing pyval 60 _ (fun _ => missing_key) fuel Hd Hfuel).
    rewrite (drive_always_failing pyval 300 _ (fun _ => missing_key) fuel Hw Hfuel).
    rewrite (drive_always_failing pyval 600 _ (fun _ => missing_key) fuel Hc Hfuel).
    split; [reflexivity |]. split; [reflexivity |]. split; [reflexivity |].
    intros w. destruct (bodies_without_key w Hkey) as (-> & -> & ->). repeat split.
Qed.

End TaskRuns.

Lemma daily_content_result_witness :
  py_not_str (Some "sk-test") = false /\
  exists result w',
    daily_content_body one_slide_payload str_of answering_backend (fun _ => O)
      (fun _ => a_time) an_isoformat (Some "sk-test") fresh_engine
    = (Returns result, w') /\
    engine_clock_reads w' = 6%nat.
Proof.
  assert (Hkey : py_not_str (Some "sk-test") = false) by reflexivity.
  split; [exact Hkey |].
  destruct (daily_content_result one_slide_payload str_of answering_backend (fun _ => O)
              (fun _ => a_time) an_isoformat (Some "sk-test") fresh_engine Hkey)
    as (theme0 & carousel & video & w' & Hrun & _ & _ & _ & _ & Hreads).
  eexists. exists w'. split; [exact Hrun |]. rewrite Hreads. reflexivity.
Defined.

Lemma generation_tasks_and_the_key_witness :
  py_not_str None = true /\ (4 <= 5)%nat /\
  run_operation generate_daily_content
    (fun _ : Z =>
       fst (daily_content_body one_slide_payload str_of answering_backend (fun _ => O)
              (fun _ => a_time) an_isoformat None fresh_engine)) 5
  = failed_trace 60 missing_key.
Proof.
  assert (Hkey : py_not_str None = true) by reflexivity.
  assert (Hfuel : (4 <= 5)%nat) by lia.
  split; [exact Hkey | split; [exact Hfuel |]].
  destruct (generation_tasks_and_the_key one_slide_payload str_of answering_backend
              (fun _ => O) (fun _ => a_time) an_isoformat an_isoformat None
              (fun _ => fresh_engine) 5) as (_ & Hwithout).
  destruct (Hwithout Hkey Hfuel) as (Hdaily & _). exact Hdaily.
Defined.

(** ** The publish task *)

Section PublishTaskRuns.

Variable json_loads : string -> outcome pyval.
Variable py_str : pyval -> string.
Variable isoformat : datetime -> string.
Variable business_account_id : string.
Variable base_url : string.
Variable rate_limit : Z.
Variable platform : list exchange -> HttpRequest -> outcome HttpResponse.
Variable clock : nat -> datetime.
Variable instagram_access_token : option string.

Abbreviation publish_body :=
  (publish_scheduled_content_body json_loads py_str isoformat business_account_id base_url
     rate_limit platform clock instagram_access_token).

Lemma bind_cong {W A B : Type} (m1 m2 : prog W A) (k1 k2 : A -> prog W B) (w : W) :
  m1 w = m2 w -> (forall a w', k1 a w' = k2 a w') -> bind m1 k1 w = bind m2 k2 w.
Proof.
  intros Hm Hk. unfold bind. rewrite Hm.
  destruct (m2 w) as [[a | e] w']; [apply Hk | reflexivity].
Qed.

Lemma bind_ext {W A B : Type} (m : prog W A) (k1 k2 : A -> prog W B) (w : W) :
  (forall a w', k1 a w' = k2 a w') -> bind m k1 w = bind m k2 w.
Proof. intros H. apply bind_cong; [reflexivity | exact H]. Qed.

(** On a piece the methods written for any argument are the methods of
    the publisher. *)
Lemma untyped_create_media_piece (access_token : string) (content : ContentPiece)
    (image_urls : list string) :
  forall i media_ids w,
    Untyped.create_media json_loads access_token business_account_id base_url platform
      (Piece content) i image_urls media_ids w
    = create_media json_loads access_token business_account_id base_url platform
        content i image_urls media_ids w.
Proof.
  induction image_urls as [| image_url rest IH]; intros i media_ids w; [reflexivity |].
  cbn [Untyped.create_media create_media].
  change (Untyped.slide_caption (Piece content) i) with (slide_caption content i).
  apply bind_ext. intros caption w1. apply bind_ext. intros response w2.
  destruct (status_code response =? 200); [| reflexivity].
  apply bind_ext. intros body w3. apply bind_ext. intros media_id w4. apply IH.
Qed.

Lemma untyped_publish_piece (access_token : string) (content : ContentPiece) :
  (forall image_urls w,
     Untyped.publish_carousel json_loads py_str isoformat access_token business_account_id
       base_url rate_limit platform clock (Piece content) image_urls w
     = publish_carousel json_loads py_str isoformat access_token business_account_id
         base_url rate_limit platform clock content image_urls w) /\
  (forall video_url w,
     Untyped.publish_video json_loads py_str isoformat access_token business_account_id
       base_url rate_limit platform clock (Piece content) video_url w
     = publish_video json_loads py_str isoformat access_token business_account_id
         base_url rate_limit platform clock content video_url w).
Proof.
  split.
  - intros image_urls w. unfold Untyped.publish_carousel, publish_carousel, try_except.
    match goal with
    | |- (let (_, _) := ?l in _) = (let (_, _) := ?r in _) => assert (Hsame : l = r)
    end.
    { apply bind_ext. intros _ w1.
      apply bind_cong; [apply untyped_create_media_piece |].
      intros [early | ids] w2; reflexivity. }
    rewrite Hsame. reflexivity.
  - intros video_url w. reflexivity.
Qed.

(** On an integer both methods pass the limiter, send nothing, and
    return the error of the first attribute they ask for. *)
Lemma untyped_publish_int (access_token : string) (content_id : Z) (w : PublisherWorld) :
  exists w1,
    _check_rate_limit rate_limit clock w = (Returns tt, w1) /\
    exchanges w1 = exchanges w /\
    (forall image_urls,
       Untyped.publish_carousel json_loads py_str isoformat access_token business_account_id
         base_url rate_limit platform clock (ContentId content_id) image_urls w
       = (Returns [("error",
                    PStr (exn_str (no_attribute
                                     (match image_urls with
                                      | [] => "caption"
                                      | _ => "slides"
                                      end))))], w1)) /\
    (forall video_url,
       Untyped.publish_video json_loads py_str isoformat access_token business_account_id
         base_url rate_limit platform clock (ContentId content_id) video_url w
       = (Returns [("error", PStr (exn_str (no_attribute "caption")))], w1)).
Proof.
  destruct (check_rate_limit_sends_nothing rate_limit clock w) as (w1 & Hcheck & Hex).
  exists w1. split; [exact Hcheck |]. split; [exact Hex |]. split.
  - intros image_urls. unfold Untyped.publish_carousel, try_except.
    unfold bind at 1. rewrite Hcheck. destruct image_urls as [| image_url rest]; reflexivity.
  - intros video_url. unfold Untyped.publish_video, try_except.
    unfold bind at 1. rewrite Hcheck. reflexivity.
Qed.

(** An attempt of the publish task on an integer content id. *)
Lemma publish_body_int (content_id : Z) (content_type : string) (media_urls : list string)
    (w : PublisherWorld) :
  exists w',
    publish_body (ContentId content_id) content_type media_urls w
    = (Raises (publish_failure instagram_access_token content_type media_urls), w') /\
    exchanges w' = exchanges w.
Proof.
  unfold publish_scheduled_content_body, publish_failure, new_publisher.
  destruct (py_not_str instagram_access_token).
  - exists w. split; reflexivity.
  - unfold bind at 1. unfold bind at 1. unfold set_request_count at 1.
    unfold bind at 1. unfold publisher_now at 1.
    cbn [request_count last_request_time exchanges sleeps publisher_clock_reads].
    unfold bind at 1. unfold set_last_request_time at 1. unfold ret at 1.
    cbn [request_count last_request_time exchanges sleeps publisher_clock_reads].
    set (token := match instagram_access_token with Some t => t | None => "" end).
    set (w0 := mk_PublisherWorld 0 (clock (publisher_clock_reads w)) (exchanges w) (sleeps w)
                 (S (publisher_clock_reads w))).
    destruct (untyped_publish_int token content_id w0) as (w1 & _ & Hex & Hcarousel & Hvideo).
    destruct (String.eqb content_type "carousel").
    + unfold bind at 1. rewrite Hcarousel.
      exists w1. split; [| exact Hex].
      destruct media_urls; reflexivity.
    + destruct (String.eqb content_type "video").
      * destruct media_urls as [| video_url rest].
        -- exists w0. split; reflexivity.
        -- unfold bind at 1. unfold bind at 1. unfold lift, first_url.
           rewrite Hvideo. exists w1. split; [reflexivity | exact Hex].
      * exists w0. split; reflexivity.
Qed.

(** X25: The publish task cannot publish. Its [content_id], an integer, is
    what it hands to the publisher as the piece, so the first attribute
    the publisher asks of it ([slides], or [caption] for a video or an
    empty list of URLs) raises [AttributeError], which the publisher
    returns as an error dict and the task raises again; an unknown content
    type, a video without URL and a missing token fail before that. No
    attempt sends a request to the platform, and the operation makes its
    three retries, 300, 600 and 1200 seconds apart, before it fails. On
    a piece the methods used here are those of the publisher. *)
Theorem publish_task_never_publishes (content_id : Z) (content_type : string)
    (media_urls : list string) (world_of : Z -> PublisherWorld) (fuel : nat) :
  (4 <= fuel)%nat ->
  run_operation publish_scheduled_content
    (fun k => fst (publish_body (ContentId content_id) content_type media_urls (world_of k)))
    fuel
  = failed_trace 300 (publish_failure instagram_access_token content_type media_urls) /\
  (forall w,
     exchanges (snd (publish_body (ContentId content_id) content_type media_urls w))
     = exchanges w) /\
  (forall access_token content image_urls video_url w,
     Untyped.publish_carousel json_loads py_str isoformat access_token business_account_id
       base_url rate_limit platform clock (Piece content) image_urls w
     = publish_carousel json_loads py_str isoformat access_token business_account_id
         base_url rate_limit platform clock content image_urls w /\
     Untyped.publish_video json_loads py_str isoformat access_token business_account_id
       base_url rate_limit platform clock (Piece content) video_url w
     = publish_video json_loads py_str isoformat access_token business_account_id
         base_url rate_limit platform clock content video_url w).
Proof.
  intros Hfuel. split; [| split].
  - assert (Hbody : forall k,
              fst (publish_body (ContentId content_id) content_type media_urls (world_of k))
              = Raises (publish_failure instagram_access_token content_type media_urls)).
    { intros k.
      destruct (publish_body_int content_id content_type media_urls (world_of k))
        as (w' & -> & _). reflexivity. }
    unfold run_operation, failed_trace, publish_scheduled_content.
    rewrite (drive_always_failing pydict 300 _
               (fun _ => publish_failure instagram_access_token content_type media_urls)
               fuel Hbody Hfuel).
    reflexivity.
  - intros w. destruct (publish_body_int content_id content_type media_urls w)
      as (w' & -> & Hex). exact Hex.
  - intros access_token content image_urls video_url w.
    destruct (untyped_publish_piece access_token content) as (Hc & Hv).
    split; [apply Hc | apply Hv].
Qed.

End PublishTaskRuns.

Lemma publish_task_never_publishes_witness :
  (4 <= 4)%nat /\
  run_operation publish_scheduled_content
    (fun _ : Z =>
       fst (publish_scheduled_content_body id_payload str_of an_isoformat "acct" graph_url 200
              accepting_platform minute_clock (Some "token") (ContentId 7) "carousel"
              five_urls idle_publisher)) 4
  = failed_trace 300 (Exception "Exception" "'int' object has no attribute 'slides'").
Proof.
  assert (Hfuel : (4 <= 4)%nat) by lia.
  split; [exact Hfuel |].
  destruct (publish_task_never_publishes id_payload str_of an_isoformat "acct" graph_url 200
              accepting_platform minute_clock (Some "token") 7 "carousel" five_urls
              (fun _ => idle_publisher) 4 Hfuel) as (Htrace & _).
  exact Htrace.
Defined.
